(** * Gateway operator: reconciliation core

    A shallow embedding of the reconcilers of the gateway operator
    (controllers/gateway_controller*.go, controllers/dataplane_controller*.go,
    controllers/controlplane_controller_reconciler_utils.go and
    internal/utils/kubernetes) together with a small model of the cluster
    state client they run against, and the properties of the specification
    that these functions decide.

    Conventions.
    - A Go function that takes [ctx] and the client and returns [(x, err)]
      is a computation of type [M X]: it threads the [World] and either
      fails with an [error] or yields [x].  A pointer argument mutated in
      place is returned as part of the result.
    - [Reconcile] returns the Go pair [(ctrl.Result, error)].
    - Loops over slices are folds over lists, in slice order. *)

From stdpp Require Import base strings gmap list option numbers pretty.
From Stdlib Require Import ZArith Lia.

Set Default Proof Using "Type".
Local Open Scope string_scope.
Local Open Scope list_scope.
Local Open Scope Z_scope.

(* ------------------------------------------------------------------------- *)
(** ** Object model (k8s.io/apimachinery metav1, gateway-api, operator API)  *)
(* ------------------------------------------------------------------------- *)

Record OwnerReference := mkOwnerReference {
  or_Kind : string;
  or_Name : string;
  or_UID : string;
}.

Global Instance OwnerReference_eq_dec : EqDecision OwnerReference.
Proof. solve_decision. Defined.

Record ObjectMeta := mkObjectMeta {
  Name : string;
  GenerateName : string;
  Namespace : string;
  UID : string;
  Generation : Z;
  Labels : gmap string string;
  OwnerReferences : list OwnerReference;
}.

Definition emptyMeta : ObjectMeta :=
  mkObjectMeta "" "" "" "" 0 ∅ [].

Definition SetOwnerReferences (refs : list OwnerReference) (m : ObjectMeta) : ObjectMeta :=
  mkObjectMeta (Name m) (GenerateName m) (Namespace m) (UID m) (Generation m)
               (Labels m) refs.

Definition SetLabels (ls : gmap string string) (m : ObjectMeta) : ObjectMeta :=
  mkObjectMeta (Name m) (GenerateName m) (Namespace m) (UID m) (Generation m)
               ls (OwnerReferences m).

Definition SetIdentity (name uid : string) (m : ObjectMeta) : ObjectMeta :=
  mkObjectMeta name (GenerateName m) (Namespace m) uid (Generation m)
               (Labels m) (OwnerReferences m).

(** metav1.Condition; [ConditionStatus] is a string type in Go. *)
Record Condition := mkCondition {
  c_Type : string;
  c_Status : string;
  c_Reason : string;
  c_Message : string;
  c_ObservedGeneration : Z;
  c_LastTransitionTime : Z;
}.

Global Instance Condition_eq_dec : EqDecision Condition.
Proof. solve_decision. Defined.

Definition ConditionTrue : string := "True".
Definition ConditionFalse : string := "False".

Record EnvVar := mkEnvVar { ev_Name : string; ev_Value : string }.

Global Instance EnvVar_eq_dec : EqDecision EnvVar.
Proof. solve_decision. Defined.

(** operatorv1alpha1.DeploymentOptions *)
Record DeploymentOptions := mkDeploymentOptions {
  do_Replicas : option Z;
  do_ContainerImage : option string;
  do_Env : list EnvVar;
  do_EnvFrom : list string;
}.

Global Instance DeploymentOptions_eq_dec : EqDecision DeploymentOptions.
Proof. solve_decision. Defined.

Definition emptyDeploymentOptions : DeploymentOptions :=
  mkDeploymentOptions None None [] [].

(** operatorv1alpha1.ControlPlaneDeploymentOptions: the deployment options
    plus the name of the DataPlane the ControlPlane is attached to. *)
Record ControlPlaneDeploymentOptions := mkControlPlaneDeploymentOptions {
  cpo_Options : DeploymentOptions;
  cpo_DataPlane : option string;
}.

Global Instance ControlPlaneDeploymentOptions_eq_dec :
  EqDecision ControlPlaneDeploymentOptions.
Proof. solve_decision. Defined.

Definition emptyControlPlaneDeploymentOptions : ControlPlaneDeploymentOptions :=
  mkControlPlaneDeploymentOptions emptyDeploymentOptions None.

(** gatewayv1alpha2.GatewayClass *)
Record ParametersReference := mkParametersReference {
  pr_Group : string;
  pr_Kind : string;
  pr_Namespace : option string;
  pr_Name : string;
}.

Record GatewayClass := mkGatewayClass {
  gwc_meta : ObjectMeta;
  gwc_ControllerName : string;
  gwc_ParametersRef : option ParametersReference;
}.

(** operatorv1alpha1.GatewayConfiguration *)
Record GatewayConfiguration := mkGatewayConfiguration {
  gcfg_meta : ObjectMeta;
  gcfg_DataPlaneDeploymentOptions : option DeploymentOptions;
  gcfg_ControlPlaneDeploymentOptions : option ControlPlaneDeploymentOptions;
}.

(** gatewayv1alpha2.Gateway *)
Record GatewayAddress := mkGatewayAddress {
  ga_Type : option string;
  ga_Value : string;
}.

Definition IPAddressType : string := "IPAddress".

Record GatewayStatus := mkGatewayStatus {
  gws_Conditions : list Condition;
  gws_Addresses : list GatewayAddress;
}.

Record Gateway := mkGateway {
  gw_meta : ObjectMeta;
  gw_GatewayClassName : string;
  gw_status : GatewayStatus;
}.

(** operatorv1alpha1.DataPlane *)
Record DataPlane := mkDataPlane {
  dp_meta : ObjectMeta;
  dp_spec : DeploymentOptions;
  dp_Conditions : list Condition;
}.

(** operatorv1alpha1.ControlPlane *)
Record ControlPlane := mkControlPlane {
  cp_meta : ObjectMeta;
  cp_spec : ControlPlaneDeploymentOptions;
  cp_GatewayClass : option string;
  cp_Conditions : list Condition;
}.

(** appsv1.Deployment *)
Record Container := mkContainer {
  ct_Name : string;
  ct_Image : string;
  ct_Env : list EnvVar;
}.

Record DeploymentStatus := mkDeploymentStatus {
  ds_Replicas : Z;
  ds_AvailableReplicas : Z;
}.

Record Deployment := mkDeployment {
  d_meta : ObjectMeta;
  d_Replicas : option Z;
  d_Containers : list Container;
  d_status : DeploymentStatus;
}.

(** corev1.Service *)
Record LoadBalancerIngress := mkLoadBalancerIngress {
  lbi_IP : string;
  lbi_Hostname : string;
}.

Record Service := mkService {
  svc_meta : ObjectMeta;
  svc_ClusterIP : string;
  svc_Ingress : list LoadBalancerIngress;
}.

(** corev1.Secret (only its metadata is used here) *)
Record Secret := mkSecret { sec_meta : ObjectMeta }.

(* ------------------------------------------------------------------------- *)
(** ** Errors                                                                 *)
(* ------------------------------------------------------------------------- *)

(** metav1.StatusReason of a k8serrors.StatusError *)
Inductive StatusReason :=
| StatusReasonNotFound
| StatusReasonConflict
| StatusReasonAlreadyExists
| StatusReasonInvalid
| StatusReasonTimeout
| StatusReasonInternalError.

Global Instance StatusReason_eq_dec : EqDecision StatusReason.
Proof. solve_decision. Defined.

(** Go [error] values occurring in the controllers: the two sentinel errors
    of internal/errors, [fmt.Errorf] with and without [%w], and the API
    server's status errors.  [Panic] is not an [error] of Go: it stands for
    a run-time panic (an index out of range), which abandons the pass. *)
Inductive error :=
| ErrUnsupportedGateway
| ErrObjectMissingParametersRef
| Wrapf (inner : error) (msg : string)
| Errorf (msg : string)
| StatusError (reason : StatusReason) (msg : string)
| Panic (msg : string).

Global Instance error_eq_dec : EqDecision error.
Proof. solve_decision. Defined.

(** errors.Is: the error or one it wraps is the target sentinel. *)
Fixpoint errors_Is (err target : error) : bool :=
  bool_decide (err = target) ||
  match err with
  | Wrapf inner _ => errors_Is inner target
  | _ => false
  end.

Definition IsNotFound (err : error) : bool :=
  match err with
  | StatusError StatusReasonNotFound _ => true
  | _ => false
  end.

Definition IsConflict (err : error) : bool :=
  match err with
  | StatusError StatusReasonConflict _ => true
  | _ => false
  end.

(* ------------------------------------------------------------------------- *)
(** ** Cluster state and the world a reconcile pass runs in                   *)
(* ------------------------------------------------------------------------- *)

Record Cluster := mkCluster {
  gatewayClasses : list GatewayClass;
  gatewayConfigurations : list GatewayConfiguration;
  gateways : list Gateway;
  dataPlanes : list DataPlane;
  controlPlanes : list ControlPlane;
  deployments : list Deployment;
  services : list Service;
}.

(** record.EventRecorder.Event(object, eventtype, reason, message) *)
Record Event := mkEvent {
  e_Object : string;
  e_Type : string;
  e_Reason : string;
  e_Message : string;
}.

(** The world: the cluster store, the outcome the API server will give to
    the coming client calls ([Some err]: the call fails with [err] and has
    no effect; [None], or no entry left: it is served from the store), the
    events recorded so far, the helper calls made so far, the wall clock
    read by [metav1.Now()] and the counter behind generated names. *)
Record World := mkWorld {
  cluster : Cluster;
  faults : list (option error);
  events : list Event;
  trace : list string;
  clock : Z;
  nextID : nat;
}.

Definition setCluster (c : Cluster) (w : World) : World :=
  mkWorld c (faults w) (events w) (trace w) (clock w) (nextID w).

Definition setFaults (fs : list (option error)) (w : World) : World :=
  mkWorld (cluster w) fs (events w) (trace w) (clock w) (nextID w).

Definition recordEvent (e : Event) (w : World) : World :=
  mkWorld (cluster w) (faults w) (events w ++ [e]) (trace w) (clock w) (nextID w).

Definition setTrace (t : list string) (w : World) : World :=
  mkWorld (cluster w) (faults w) (events w) t (clock w) (nextID w).

Definition bumpID (w : World) : World :=
  mkWorld (cluster w) (faults w) (events w) (trace w) (clock w) (S (nextID w)).

(** client.Object: what the generic client needs of a resource kind. *)
Class Object (K : Type) := {
  kindName : string;
  getMeta : K → ObjectMeta;
  setMeta : ObjectMeta → K → K;
  (** [withStatus src dst]: [dst] carrying the status of [src] *)
  withStatus : K → K → K;
  items : Cluster → list K;
  setItems : list K → Cluster → Cluster;
  items_setItems : ∀ l c, items (setItems l c) = l;
  getMeta_setMeta : ∀ m o, getMeta (setMeta m o) = m;
  getMeta_withStatus : ∀ src dst, getMeta (withStatus src dst) = getMeta dst;
}.

Global Instance GatewayClass_Object : Object GatewayClass := {|
  kindName := "GatewayClass";
  getMeta := gwc_meta;
  setMeta m o := mkGatewayClass m (gwc_ControllerName o) (gwc_ParametersRef o);
  withStatus _ dst := dst;
  items := gatewayClasses;
  setItems l c := mkCluster l (gatewayConfigurations c) (gateways c) (dataPlanes c)
                            (controlPlanes c) (deployments c) (services c);
  items_setItems _ _ := eq_refl;
  getMeta_setMeta _ _ := eq_refl;
  getMeta_withStatus _ _ := eq_refl;
|}.

Global Instance GatewayConfiguration_Object : Object GatewayConfiguration := {|
  kindName := "GatewayConfiguration";
  getMeta := gcfg_meta;
  setMeta m o := mkGatewayConfiguration m (gcfg_DataPlaneDeploymentOptions o)
                                        (gcfg_ControlPlaneDeploymentOptions o);
  withStatus _ dst := dst;
  items := gatewayConfigurations;
  setItems l c := mkCluster (gatewayClasses c) l (gateways c) (dataPlanes c)
                            (controlPlanes c) (deployments c) (services c);
  items_setItems _ _ := eq_refl;
  getMeta_setMeta _ _ := eq_refl;
  getMeta_withStatus _ _ := eq_refl;
|}.

Global Instance Gateway_Object : Object Gateway := {|
  kindName := "Gateway";
  getMeta := gw_meta;
  setMeta m o := mkGateway m (gw_GatewayClassName o) (gw_status o);
  withStatus src dst := mkGateway (gw_meta dst) (gw_GatewayClassName dst) (gw_status src);
  items := gateways;
  setItems l c := mkCluster (gatewayClasses c) (gatewayConfigurations c) l (dataPlanes c)
                            (controlPlanes c) (deployments c) (services c);
  items_setItems _ _ := eq_refl;
  getMeta_setMeta _ _ := eq_refl;
  getMeta_withStatus _ _ := eq_refl;
|}.

Global Instance DataPlane_Object : Object DataPlane := {|
  kindName := "DataPlane";
  getMeta := dp_meta;
  setMeta m o := mkDataPlane m (dp_spec o) (dp_Conditions o);
  withStatus src dst := mkDataPlane (dp_meta dst) (dp_spec dst) (dp_Conditions src);
  items := dataPlanes;
  setItems l c := mkCluster (gatewayClasses c) (gatewayConfigurations c) (gateways c) l
                            (controlPlanes c) (deployments c) (services c);
  items_setItems _ _ := eq_refl;
  getMeta_setMeta _ _ := eq_refl;
  getMeta_withStatus _ _ := eq_refl;
|}.

Global Instance ControlPlane_Object : Object ControlPlane := {|
  kindName := "ControlPlane";
  getMeta := cp_meta;
  setMeta m o := mkControlPlane m (cp_spec o) (cp_GatewayClass o) (cp_Conditions o);
  withStatus src dst :=
    mkControlPlane (cp_meta dst) (cp_spec dst) (cp_GatewayClass dst) (cp_Conditions src);
  items := controlPlanes;
  setItems l c := mkCluster (gatewayClasses c) (gatewayConfigurations c) (gateways c)
                            (dataPlanes c) l (deployments c) (services c);
  items_setItems _ _ := eq_refl;
  getMeta_setMeta _ _ := eq_refl;
  getMeta_withStatus _ _ := eq_refl;
|}.

Global Instance Deployment_Object : Object Deployment := {|
  kindName := "Deployment";
  getMeta := d_meta;
  setMeta m o := mkDeployment m (d_Replicas o) (d_Containers o) (d_status o);
  withStatus src dst :=
    mkDeployment (d_meta dst) (d_Replicas dst) (d_Containers dst) (d_status src);
  items := deployments;
  setItems l c := mkCluster (gatewayClasses c) (gatewayConfigurations c) (gateways c)
                            (dataPlanes c) (controlPlanes c) l (services c);
  items_setItems _ _ := eq_refl;
  getMeta_setMeta _ _ := eq_refl;
  getMeta_withStatus _ _ := eq_refl;
|}.

Global Instance Service_Object : Object Service := {|
  kindName := "Service";
  getMeta := svc_meta;
  setMeta m o := mkService m (svc_ClusterIP o) (svc_Ingress o);
  withStatus src dst := mkService (svc_meta dst) (svc_ClusterIP dst) (svc_Ingress src);
  items := services;
  setItems l c := mkCluster (gatewayClasses c) (gatewayConfigurations c) (gateways c)
                            (dataPlanes c) (controlPlanes c) (deployments c) l;
  items_setItems _ _ := eq_refl;
  getMeta_setMeta _ _ := eq_refl;
  getMeta_withStatus _ _ := eq_refl;
|}.

(* ------------------------------------------------------------------------- *)
(** ** The monad of client code: state and Go errors                          *)
(* ------------------------------------------------------------------------- *)

Inductive result (A : Type) :=
| Ok (a : A)
| Err (e : error).
Arguments Ok {A} a.
Arguments Err {A} e.

Definition M (A : Type) : Type := World → result A * World.

Definition ret {A} (a : A) : M A := λ w, (Ok a, w).
Definition fail {A} (e : error) : M A := λ w, (Err e, w).
Definition bind {A B} (m : M A) (k : A → M B) : M B :=
  λ w, match m w with
       | (Ok a, w') => k a w'
       | (Err e, w') => (Err e, w')
       end.

Notation "'let!' x ':=' m 'in' k" := (bind m (λ x, k))
  (at level 10, x pattern, m at level 100, k at level 200).

(** metav1.Now() *)
Definition Now : M Z := λ w, (Ok (clock w), w).

(** controller-runtime's ctrl.Result *)
Record Result := mkResult {
  Requeue : bool;
  RequeueAfter : Z;
}.

Definition noResult : Result := mkResult false 0.

(** What [Reconcile] returns: the Go pair [(ctrl.Result, error)]. *)
Definition ReconcileM : Type := World → (Result * option error) * World.

Definition returns (r : Result) (err : option error) : ReconcileM := λ w, ((r, err), w).

(** [x, err := m; if err != nil { return ctrl.Result{}, err }; k x] *)
Definition bindR {A} (m : M A) (k : A → ReconcileM) : ReconcileM :=
  λ w, match m w with
       | (Ok a, w') => k a w'
       | (Err e, w') => ((noResult, Some e), w')
       end.

Notation "'try!' x ':=' m 'in' k" := (bindR m (λ x, k))
  (at level 10, x pattern, m at level 100, k at level 200).

(** [return ctrl.Result{...}, m] where [m] returns only an error *)
Definition returning {A} (r : Result) (m : M A) : ReconcileM :=
  λ w, match m w with
       | (Ok _, w') => ((r, None), w')
       | (Err e, w') => ((r, Some e), w')
       end.

(* ------------------------------------------------------------------------- *)
(** ** The cluster state client (controller-runtime client.Client)            *)
(* ------------------------------------------------------------------------- *)

(** Every client call first asks the world for its outcome. *)
Definition apiCall {A} (served : M A) : M A :=
  λ w, match faults w with
       | Some e :: fs => (Err e, setFaults fs w)
       | None :: fs => served (setFaults fs w)
       | [] => served w
       end.

Definition hasKey `{Object K} (ns name : string) (o : K) : bool :=
  bool_decide (Namespace (getMeta o) = ns) && bool_decide (Name (getMeta o) = name).

Definition sameKey `{Object K} (o' o : K) : bool :=
  hasKey (Namespace (getMeta o')) (Name (getMeta o')) o.

(** client.InNamespace: the empty namespace selects every namespace. *)
Definition InNamespace (ns : string) (m : ObjectMeta) : bool :=
  bool_decide (ns = "") || bool_decide (Namespace m = ns).

(** client.MatchingLabels{key: value} *)
Definition MatchingLabels (key value : string) (m : ObjectMeta) : bool :=
  bool_decide (Labels m !! key = Some value).

Definition selected `{Object K} (ns key value : string) (o : K) : bool :=
  InNamespace ns (getMeta o) && MatchingLabels key value (getMeta o).

Definition notFound (name : string) : error :=
  StatusError StatusReasonNotFound name.

Definition Get K `{Object K} (ns name : string) : M K :=
  apiCall (λ w, match find (hasKey ns name) (items (cluster w)) with
                | Some o => (Ok o, w)
                | None => (Err (notFound name), w)
                end).

Definition List K `{Object K} (ns key value : string) : M (list K) :=
  apiCall (λ w, (Ok (filter (λ o, selected ns key value o) (items (cluster w))), w)).

Definition DeleteAllOf K `{Object K} (ns key value : string) : M unit :=
  apiCall (λ w,
    let kept := filter (λ o : K, negb (selected ns key value o)) (items (cluster w)) in
    (Ok tt, setCluster (setItems kept (cluster w)) w)).

(** Create: the server picks the name of an object that only has a
    GenerateName, and gives every object a fresh UID. *)
Definition assignIdentity (n : nat) (m : ObjectMeta) : ObjectMeta :=
  let suffix := pretty n in
  SetIdentity (if bool_decide (Name m = "") then GenerateName m +:+ suffix else Name m)
              ("uid-" +:+ suffix) m.

Definition Create `{Object K} (o : K) : M K :=
  apiCall (λ w,
    let o' := setMeta (assignIdentity (nextID w) (getMeta o)) o in
    (Ok o', bumpID (setCluster (setItems (items (cluster w) ++ [o']) (cluster w)) w))).

Definition replaceWith `{Object K} (f : K → K) (o : K) (l : list K) : list K :=
  map (λ s, if sameKey o s then f s else s) l.

(** Update writes metadata and spec and leaves the stored status alone;
    Status().Update writes the status only. *)
Definition Update `{Object K} (o : K) : M K :=
  apiCall (λ w,
    match find (sameKey o) (items (cluster w)) with
    | Some s =>
        (Ok (withStatus s o),
         setCluster (setItems (replaceWith (λ s, withStatus s o) o (items (cluster w)))
                              (cluster w)) w)
    | None => (Err (notFound (Name (getMeta o))), w)
    end).

Definition StatusUpdate `{Object K} (o : K) : M K :=
  apiCall (λ w,
    match find (sameKey o) (items (cluster w)) with
    | Some s =>
        (Ok (withStatus o s),
         setCluster (setItems (replaceWith (λ s, withStatus o s) o (items (cluster w)))
                              (cluster w)) w)
    | None => (Err (notFound (Name (getMeta o))), w)
    end).

(** A call of a helper whose body is not at hand: the call is entered in the
    trace of the pass, whatever the helper does to the world. *)
Definition call {A} (name : string) (m : M A) : M A :=
  λ w, let '(r, w') := m w in (r, setTrace (trace w ++ [name]) w').

Definition catch {A} (m : M A) (handler : error → M A) : M A :=
  λ w, match m w with
       | (Err e, w') => handler e w'
       | r => r
       end.

(** [x, err := m; if err != nil { <onErr err> }; k x] in [Reconcile] *)
Definition handle {A} (m : M A) (onErr : error → ReconcileM) (k : A → ReconcileM)
  : ReconcileM :=
  λ w, match m w with
       | (Ok a, w') => k a w'
       | (Err e, w') => onErr e w'
       end.

(* ------------------------------------------------------------------------- *)
(** ** Constants and condition vocabulary                                     *)
(* ------------------------------------------------------------------------- *)

(** Constants of internal/consts, pkg/vars and the controllers package whose
    declarations are not part of the sources at hand; the development is
    parametric in their values. *)
Class Consts := {
  GatewayOperatorControlledLabel : string;
  GatewayManagedLabelValue : string;
  DataPlaneManagedLabelValue : string;
  ControlPlaneManagedLabelValue : string;
  (** vars.ControllerName, the operator's identity *)
  ControllerName : string;
  (** operatorv1alpha1.SchemeGroupVersion.Group *)
  SchemeGroup : string;
  requeueWithoutBackoff : Z;
}.

(** gateway-api's GatewayConditionScheduled/Ready and their reasons. *)
Definition GatewayConditionScheduled : string := "Scheduled".
Definition GatewayReasonScheduled : string := "Scheduled".
Definition GatewayConditionReady : string := "Ready".
Definition GatewayReasonReady : string := "Ready".

(** Modelled from the spec: the condition vocabulary of section 6 (the
    declarations of the controllers' condition types and reasons are not
    among the sources): type Provisioned with the reasons PodsNotReady,
    PodsReady, ValidationFailed and, for the ControlPlane, NoDataplane. *)
Definition DataPlaneConditionTypeProvisioned : string := "Provisioned".
Definition DataPlaneConditionReasonPodsNotReady : string := "PodsNotReady".
Definition DataPlaneConditionReasonPodsReady : string := "PodsReady".
Definition DataPlaneConditionValidationFailed : string := "ValidationFailed".
Definition ControlPlaneConditionTypeProvisioned : string := "Provisioned".
Definition ControlPlaneConditionReasonPodsNotReady : string := "PodsNotReady".
Definition ControlPlaneConditionReasonPodsReady : string := "PodsReady".
Definition ControlPlaneConditionReasonNoDataplane : string := "NoDataplane".

(* ------------------------------------------------------------------------- *)
(** ** internal/utils/kubernetes                                              *)
(* ------------------------------------------------------------------------- *)

(** Modelled from the spec: IsOwnedByRefUID is not among the sources; the
    spec has children "reduced further by exact ownerReference-UID match",
    which is also the loop ListServiceAccountsForOwner writes out in
    lists.go: some owner reference of the object has the UID. *)
Definition IsOwnedByRefUID (m : ObjectMeta) (uid : string) : bool :=
  existsb (λ ownerRef, bool_decide (or_UID ownerRef = uid)) (OwnerReferences m).

(** Modelled from the spec: SetOwnerForObject is not among the sources;
    by invariant 1 of the data model an owned child carries exactly one
    ownerReference, pointing at its parent's UID. *)
Definition SetOwnerForObject `{Object K} `{Object P} (obj : K) (owner : P) : K :=
  setMeta (SetOwnerReferences
             [mkOwnerReference (kindName (K:=P)) (Name (getMeta owner)) (UID (getMeta owner))]
             (getMeta obj)) obj.

(** Modelled from the spec: the labelling helpers are not among the sources;
    by the labelling convention of section 6 they put the operator's fixed
    key on the object, with the value naming the managing parent kind. *)
Definition labelObj `{Object K} (key value : string) (obj : K) : K :=
  setMeta (SetLabels (<[key := value]> (Labels (getMeta obj))) (getMeta obj)) obj.

(** lists.go: list by namespace and label, keep the objects owned by [uid]. *)
Definition ListDeploymentsForOwner (requiredLabel requiredValue namespace uid : string)
  : M (list Deployment) :=
  let! deploymentList := List Deployment namespace requiredLabel requiredValue in
  ret (filter (λ deployment, IsOwnedByRefUID (d_meta deployment) uid) deploymentList).

Definition ListServicesForOwner (requiredLabel requiredValue namespace uid : string)
  : M (list Service) :=
  let! serviceList := List Service namespace requiredLabel requiredValue in
  ret (filter (λ service, IsOwnedByRefUID (svc_meta service) uid) serviceList).

(** metadata.go.  The loop [for k, v := range generated.Labels
    { new.Labels[k] = v }] is the union of the two label maps in which the
    generated value wins.  (Go would panic on a nil label map and tells a nil
    slice from an empty one; the existing objects passed here were selected by
    label and by owner reference, so neither is nil.) *)
Definition EnsureObjectMetaIsUpdated (existingObjMeta generatedObjMeta : ObjectMeta)
  : bool * ObjectMeta :=
  let newObjectMeta := SetOwnerReferences (OwnerReferences generatedObjMeta) existingObjMeta in
  let newObjectMeta :=
    SetLabels (Labels generatedObjMeta ∪ Labels newObjectMeta) newObjectMeta in
  if negb (bool_decide (OwnerReferences existingObjMeta = OwnerReferences newObjectMeta))
     || negb (bool_decide (Labels existingObjMeta = Labels newObjectMeta))
  then (true, newObjectMeta)
  else (false, newObjectMeta).

(* ------------------------------------------------------------------------- *)
(** ** internal/utils/kubernetes/resources: generators                        *)
(* ------------------------------------------------------------------------- *)

Definition generatedMeta (namespace generateName : string) : ObjectMeta :=
  mkObjectMeta "" generateName namespace "" 0 ∅ [].

Definition GenerateNewDataPlaneForGateway (gateway : Gateway)
    (gatewayConfig : GatewayConfiguration) : DataPlane :=
  let dataplane :=
    mkDataPlane (generatedMeta (Namespace (gw_meta gateway)) (Name (gw_meta gateway) +:+ "-"))
                emptyDeploymentOptions [] in
  match gcfg_DataPlaneDeploymentOptions gatewayConfig with
  | Some opts => mkDataPlane (dp_meta dataplane) opts (dp_Conditions dataplane)
  | None => dataplane
  end.

Definition GenerateNewControlPlaneForGateway (gatewayClass : GatewayClass) (gateway : Gateway)
    (gatewayConfig : GatewayConfiguration) (dataplaneName : string) : ControlPlane :=
  let meta := generatedMeta (Namespace (gw_meta gateway)) (Name (gw_meta gateway) +:+ "-") in
  let spec :=
    match gcfg_ControlPlaneDeploymentOptions gatewayConfig with
    | Some opts => opts
    | None => emptyControlPlaneDeploymentOptions
    end in
  let spec :=
    match cpo_DataPlane spec with
    | None => mkControlPlaneDeploymentOptions (cpo_Options spec) (Some dataplaneName)
    | Some _ => spec
    end in
  mkControlPlane meta spec (Some (Name (gwc_meta gatewayClass))) [].

(* ------------------------------------------------------------------------- *)
(** ** Gateway reconciler                                                     *)
(* ------------------------------------------------------------------------- *)

(** Helpers of internal/utils/gateway and of the controllers package that the
    Gateway reconciler calls and whose bodies are not among the sources.  The
    reconciler is parametric in them. *)
Class GatewayHelpers := {
  IsGatewayScheduled : Gateway → bool;
  IsGatewayReady : Gateway → bool;
  PruneGatewayStatusConds : Gateway → Gateway;
  dataplaneSpecDeepEqual : DeploymentOptions → DeploymentOptions → bool;
  controlplaneSpecDeepEqual :
    ControlPlaneDeploymentOptions → ControlPlaneDeploymentOptions → bool;
  setDataplaneGatewayConfigDefaults : GatewayConfiguration → GatewayConfiguration;
  setControlplaneGatewayConfigDefaults :
    Gateway → GatewayConfiguration → string → string → GatewayConfiguration;
}.

Definition setGatewayConditions (cs : list Condition) (g : Gateway) : Gateway :=
  mkGateway (gw_meta g) (gw_GatewayClassName g)
            (mkGatewayStatus cs (gws_Addresses (gw_status g))).

Definition setGatewayAddresses (addrs : list GatewayAddress) (g : Gateway) : Gateway :=
  mkGateway (gw_meta g) (gw_GatewayClassName g)
            (mkGatewayStatus (gws_Conditions (gw_status g)) addrs).

Definition setDataPlaneSpec (opts : DeploymentOptions) (dp : DataPlane) : DataPlane :=
  mkDataPlane (dp_meta dp) opts (dp_Conditions dp).

Definition setDataPlaneConditions (cs : list Condition) (dp : DataPlane) : DataPlane :=
  mkDataPlane (dp_meta dp) (dp_spec dp) cs.

Definition setControlPlaneSpec (opts : ControlPlaneDeploymentOptions) (cp : ControlPlane)
  : ControlPlane :=
  mkControlPlane (cp_meta cp) opts (cp_GatewayClass cp) (cp_Conditions cp).

Definition setControlPlaneConditions (cs : list Condition) (cp : ControlPlane)
  : ControlPlane :=
  mkControlPlane (cp_meta cp) (cp_spec cp) (cp_GatewayClass cp) cs.

(** The readiness loop of [Reconcile]:
    [for _, condition := range conditions { if Type == t && Status == True { ready = true } }] *)
Definition hasConditionTrue (conditionType : string) (conditions : list Condition) : bool :=
  existsb (λ condition, bool_decide (c_Type condition = conditionType)
                        && bool_decide (c_Status condition = ConditionTrue)) conditions.

Section GatewayReconciler.
Context `{Consts} `{GatewayHelpers}.

(** Modelled from the spec: ListDataPlanesForGateway and
    ListControlPlanesForGateway (internal/utils/gateway) are not among the
    sources; by section 4.1 children are listed by namespace and provenance
    label and reduced by exact ownerReference-UID match, as
    ListDeploymentsForOwner does. *)
Definition ListDataPlanesForGateway (gateway : Gateway) : M (list DataPlane) :=
  let! dataplaneList := List DataPlane (Namespace (gw_meta gateway))
                             GatewayOperatorControlledLabel GatewayManagedLabelValue in
  ret (filter (λ dataplane, IsOwnedByRefUID (dp_meta dataplane) (UID (gw_meta gateway)))
              dataplaneList).

Definition ListControlPlanesForGateway (gateway : Gateway) : M (list ControlPlane) :=
  let! controlplaneList := List ControlPlane (Namespace (gw_meta gateway))
                                GatewayOperatorControlledLabel GatewayManagedLabelValue in
  ret (filter (λ controlplane,
                 IsOwnedByRefUID (cp_meta controlplane) (UID (gw_meta gateway)))
              controlplaneList).

Definition LabelObjectAsGatewayManaged `{Object K} (obj : K) : K :=
  labelObj GatewayOperatorControlledLabel GatewayManagedLabelValue obj.

Definition ensureDataPlaneForGateway (gateway : Gateway)
    (gatewayConfig : GatewayConfiguration) : M DataPlane :=
  let! dataplanes := ListDataPlanesForGateway gateway in
  let count := length dataplanes in
  let! _ := (if (1 <? count)%nat
             then DeleteAllOf DataPlane (Namespace (gw_meta gateway))
                              GatewayOperatorControlledLabel GatewayManagedLabelValue
             else ret tt) in
  let generatedDataplane := GenerateNewDataPlaneForGateway gateway gatewayConfig in
  let generatedDataplane := SetOwnerForObject generatedDataplane gateway in
  let generatedDataplane := LabelObjectAsGatewayManaged generatedDataplane in
  match dataplanes with
  | [existingDataplane] =>
      let '(updated, meta) :=
        EnsureObjectMetaIsUpdated (dp_meta existingDataplane) (dp_meta generatedDataplane) in
      let existingDataplane := setMeta meta existingDataplane in
      let '(updated, existingDataplane) :=
        match gcfg_DataPlaneDeploymentOptions gatewayConfig with
        | Some opts =>
            if negb (dataplaneSpecDeepEqual (dp_spec existingDataplane) opts)
            then (true, setDataPlaneSpec opts existingDataplane)
            else (updated, existingDataplane)
        | None => (updated, existingDataplane)
        end in
      if updated then Update existingDataplane else ret existingDataplane
  | _ => Create generatedDataplane
  end.

Definition ensureControlPlaneForGateway (gatewayClass : GatewayClass) (gateway : Gateway)
    (gatewayConfig : GatewayConfiguration) (dataplaneName : string) : M ControlPlane :=
  let! controlplanes := ListControlPlanesForGateway gateway in
  let count := length controlplanes in
  let! _ := (if (1 <? count)%nat
             then DeleteAllOf DataPlane (Namespace (gw_meta gateway))
                              GatewayOperatorControlledLabel GatewayManagedLabelValue
             else ret tt) in
  let generatedControlplane :=
    GenerateNewControlPlaneForGateway gatewayClass gateway gatewayConfig dataplaneName in
  let generatedControlplane := SetOwnerForObject generatedControlplane gateway in
  let generatedControlplane := LabelObjectAsGatewayManaged generatedControlplane in
  match controlplanes with
  | [existingControlplane] =>
      let '(updated, meta) :=
        EnsureObjectMetaIsUpdated (cp_meta existingControlplane)
                                  (cp_meta generatedControlplane) in
      let existingControlplane := setMeta meta existingControlplane in
      let '(updated, existingControlplane) :=
        match gcfg_ControlPlaneDeploymentOptions gatewayConfig with
        | Some opts =>
            if negb (controlplaneSpecDeepEqual (cp_spec existingControlplane) opts)
            then (true, setControlPlaneSpec opts existingControlplane)
            else (updated, existingControlplane)
        | None => (updated, existingControlplane)
        end in
      if updated then Update existingControlplane else ret existingControlplane
  | _ => Create generatedControlplane
  end.

(** The addresses computed by [ensureGatewayMarkedReady] from the Service. *)
Definition gatewayAddressesOf (svc : Service) : list GatewayAddress :=
  let gatewayIPs :=
    match svc_Ingress svc with
    | ingress :: _ => [lbi_IP ingress]
    | [] => []
    end in
  map (λ ip, mkGatewayAddress (Some IPAddressType) ip) (gatewayIPs ++ [svc_ClusterIP svc]).

Definition readyCondition (generation now : Z) : Condition :=
  mkCondition GatewayConditionReady ConditionTrue GatewayReasonReady "" generation now.

Definition ensureGatewayMarkedReady (gateway : Gateway) (dataplane : DataPlane)
  : M Gateway :=
  if negb (IsGatewayReady gateway) then
    let! services :=
      ListServicesForOwner GatewayOperatorControlledLabel DataPlaneManagedLabelValue
                           (Namespace (dp_meta dataplane)) (UID (dp_meta dataplane)) in
    let count := length services in
    if (1 <? count)%nat then
      fail (Errorf ("found " +:+ pretty count
                    +:+ " services for DataPlane currently unsupported: expected 1 or less"))
    else
      match services with
      | [] => fail (Errorf ("no services found for dataplane "
                            +:+ Namespace (dp_meta dataplane) +:+ "/"
                            +:+ Name (dp_meta dataplane)))
      | svc :: _ =>
          if bool_decide (svc_ClusterIP svc = "") then
            fail (Errorf ("service " +:+ Name (svc_meta svc)
                          +:+ " doesn't have a ClusterIP yet, not ready"))
          else
            let gateway := setGatewayAddresses (gatewayAddressesOf svc) gateway in
            let gateway := PruneGatewayStatusConds gateway in
            let! now := Now in
            let newConditions := [readyCondition (Generation (gw_meta gateway)) now] in
            let gateway := setGatewayConditions newConditions gateway in
            StatusUpdate gateway
      end
  else ret gateway.

Definition verifyGatewayClassSupport (gateway : Gateway) : M GatewayClass :=
  if bool_decide (gw_GatewayClassName gateway = "") then fail ErrUnsupportedGateway
  else
    let! gwc := Get GatewayClass "" (gw_GatewayClassName gateway) in
    if negb (bool_decide (gwc_ControllerName gwc = ControllerName))
    then fail ErrUnsupportedGateway
    else ret gwc.

Definition emptyGatewayConfiguration : GatewayConfiguration :=
  mkGatewayConfiguration emptyMeta None None.

Definition getGatewayConfigForGatewayClass (gatewayClass : GatewayClass)
  : M GatewayConfiguration :=
  match gwc_ParametersRef gatewayClass with
  | None =>
      fail (Wrapf ErrObjectMissingParametersRef
                  (", gatewayClass = " +:+ Name (gwc_meta gatewayClass)))
  | Some ref =>
      if negb (bool_decide (pr_Group ref = SchemeGroup))
         || negb (bool_decide (pr_Kind ref = "GatewayConfiguration"))
      then
        fail (StatusError StatusReasonInvalid
                ("controller only supports " +:+ SchemeGroup
                 +:+ " GatewayConfiguration resources for GatewayClass parametersRef"))
      else
        match pr_Namespace ref with
        | Some ns =>
            if bool_decide (ns = "") || bool_decide (pr_Name ref = "") then
              fail (Errorf ("GatewayClass " +:+ Name (gwc_meta gatewayClass)
                    +:+ " has invalid ParametersRef: both namespace and name must be provided"))
            else Get GatewayConfiguration ns (pr_Name ref)
        | None =>
            fail (Errorf ("GatewayClass " +:+ Name (gwc_meta gatewayClass)
                  +:+ " has invalid ParametersRef: both namespace and name must be provided"))
        end
  end.

Definition getOrCreateGatewayConfiguration (gatewayClass : GatewayClass)
  : M GatewayConfiguration :=
  catch (getGatewayConfigForGatewayClass gatewayClass)
        (λ err, if errors_Is err ErrObjectMissingParametersRef
                then ret emptyGatewayConfiguration
                else fail err).

Definition scheduledCondition (generation now : Z) : Condition :=
  mkCondition GatewayConditionScheduled ConditionTrue GatewayReasonScheduled
              ("this gateway has been picked up by the " +:+ ControllerName
               +:+ " and will be processed")
              generation now.

(** GatewayReconciler.Reconcile; [req] is the namespaced name. *)
Definition GatewayReconcile (namespace name : string) : ReconcileM :=
  handle (Get Gateway namespace name)
    (λ err, if IsNotFound err then returns noResult None else returns noResult (Some err))
  (λ gateway,
  handle (verifyGatewayClassSupport gateway)
    (λ err, if errors_Is err ErrUnsupportedGateway
            then returns noResult None
            else returns noResult (Some err))
  (λ gatewayClass,
  if negb (IsGatewayScheduled gateway) then
    try! now := Now in
    let gateway :=
      setGatewayConditions
        (gws_Conditions (gw_status gateway)
         ++ [scheduledCondition (Generation (gw_meta gateway)) now]) gateway in
    returning noResult (StatusUpdate (PruneGatewayStatusConds gateway))
  else
  try! gatewayConfig := getOrCreateGatewayConfiguration gatewayClass in
  let gatewayConfig := setDataplaneGatewayConfigDefaults gatewayConfig in
  try! dataplane := ensureDataPlaneForGateway gateway gatewayConfig in
  let dataplaneReady :=
    hasConditionTrue DataPlaneConditionTypeProvisioned (dp_Conditions dataplane) in
  if negb dataplaneReady then
    returns (mkResult true requeueWithoutBackoff) None
  else
  try! services :=
    ListServicesForOwner GatewayOperatorControlledLabel DataPlaneManagedLabelValue
                         (Namespace (dp_meta dataplane)) (UID (dp_meta dataplane)) in
  let count := length services in
  if (1 <? count)%nat then
    returns noResult
         (Some (Errorf ("found " +:+ pretty count
                 +:+ " services for DataPlane currently unsupported: expected 1 or less")))
  else
  match services with
  | [] =>
      returns noResult
           (Some (Errorf ("no services found for DataPlane "
                          +:+ Namespace (dp_meta dataplane) +:+ "/"
                          +:+ Name (dp_meta dataplane))))
  | service0 :: _ =>
  let gatewayConfig :=
    setControlplaneGatewayConfigDefaults gateway gatewayConfig
      (Name (dp_meta dataplane)) (Name (svc_meta service0)) in
  try! controlplane :=
    ensureControlPlaneForGateway gatewayClass gateway gatewayConfig
                                 (Name (dp_meta dataplane)) in
  let controlplaneReady :=
    hasConditionTrue ControlPlaneConditionTypeProvisioned (cp_Conditions controlplane) in
  if negb controlplaneReady then
    returns (mkResult true requeueWithoutBackoff) None
  else
  try! _ := ensureGatewayMarkedReady gateway dataplane in
  returns noResult None
  end)).

End GatewayReconciler.

(* ------------------------------------------------------------------------- *)
(** ** DataPlane reconciler: status and owned-resource helpers                *)
(*     (the reconciler-utils part of controllers/dataplane_controller.go)     *)
(* ------------------------------------------------------------------------- *)

(** Generators of the controllers package that are not among the sources. *)
Class DataPlaneGenerators := {
  generateNewDeploymentForDataPlane : DataPlane → Deployment;
}.

Class DataPlaneServiceGenerators := {
  generateNewServiceForDataplane : DataPlane → Service;
}.

Definition isSameDataPlaneCondition (condition1 condition2 : Condition) : bool :=
  bool_decide (c_Type condition1 = c_Type condition2)
  && bool_decide (c_Status condition1 = c_Status condition2)
  && bool_decide (c_Reason condition1 = c_Reason condition2)
  && bool_decide (c_Message condition1 = c_Message condition2).

(** The loop of [ensureDataPlaneIsMarkedNotProvisioned]; it yields
    [(conditionFound, shouldUpdate, conditions)]. *)
Fixpoint markNotProvisionedLoop (notProvisionedCondition : Condition)
    (conditions : list Condition) : bool * bool * list Condition :=
  match conditions with
  | [] => (false, false, [])
  | condition :: rest =>
      let '(conditionFound, shouldUpdate, rest') :=
        markNotProvisionedLoop notProvisionedCondition rest in
      if bool_decide (c_Type condition = DataPlaneConditionTypeProvisioned) then
        if negb (isSameDataPlaneCondition notProvisionedCondition condition)
        then (true, true, notProvisionedCondition :: rest')
        else (true, shouldUpdate, condition :: rest')
      else (conditionFound, shouldUpdate, condition :: rest')
  end.

Module DataPlaneUtils.
Section DataPlaneUtils.
Context `{Consts} `{DataPlaneGenerators}.

Definition ensureDataPlaneIsMarkedScheduled (dataplane : DataPlane)
  : M (bool * DataPlane) :=
  let isScheduled :=
    existsb (λ condition,
               bool_decide (c_Type condition = DataPlaneConditionTypeProvisioned))
            (dp_Conditions dataplane) in
  if negb isScheduled then
    let! now := Now in
    let dataplane :=
      setDataPlaneConditions
        (dp_Conditions dataplane
         ++ [mkCondition DataPlaneConditionTypeProvisioned ConditionFalse
                         DataPlaneConditionReasonPodsNotReady
                         "DataPlane resource is scheduled for provisioning"
                         (Generation (dp_meta dataplane)) now]) dataplane in
    let! dataplane := StatusUpdate dataplane in
    ret (true, dataplane)
  else ret (false, dataplane).

Definition ensureDataPlaneIsMarkedProvisioned (dataplane : DataPlane) : M DataPlane :=
  let! now := Now in
  let updatedConditions :=
    map (λ condition,
           if bool_decide (c_Type condition = DataPlaneConditionTypeProvisioned)
           then mkCondition (c_Type condition) ConditionTrue
                            DataPlaneConditionReasonPodsReady
                            "pods for all Deployments are ready"
                            (Generation (dp_meta dataplane)) now
           else condition)
        (dp_Conditions dataplane) in
  StatusUpdate (setDataPlaneConditions updatedConditions dataplane).

Definition ensureDataPlaneIsMarkedNotProvisioned (dataplane : DataPlane)
    (reason message : string) : M DataPlane :=
  let! now := Now in
  let notProvisionedCondition :=
    mkCondition DataPlaneConditionTypeProvisioned ConditionFalse reason message
                (Generation (dp_meta dataplane)) now in
  let '(conditionFound, shouldUpdate, conditions) :=
    markNotProvisionedLoop notProvisionedCondition (dp_Conditions dataplane) in
  let '(shouldUpdate, conditions) :=
    if negb conditionFound
    then (true, conditions ++ [notProvisionedCondition])
    else (shouldUpdate, conditions) in
  let dataplane := setDataPlaneConditions conditions dataplane in
  if shouldUpdate then StatusUpdate dataplane else ret dataplane.

Definition labelObjForDataplane `{Object K} (obj : K) : K :=
  labelObj GatewayOperatorControlledLabel DataPlaneManagedLabelValue obj.

Definition ensureDeploymentForDataPlane (dataplane : DataPlane) : M Deployment :=
  let! deployments :=
    ListDeploymentsForOwner GatewayOperatorControlledLabel DataPlaneManagedLabelValue
                            (Namespace (dp_meta dataplane)) (UID (dp_meta dataplane)) in
  let count := length deployments in
  let! _ := (if (1 <? count)%nat
             then DeleteAllOf Deployment (Namespace (dp_meta dataplane))
                              GatewayOperatorControlledLabel DataPlaneManagedLabelValue
             else ret tt) in
  let generatedDeployment := generateNewDeploymentForDataPlane dataplane in
  let generatedDeployment := SetOwnerForObject generatedDeployment dataplane in
  let generatedDeployment := labelObjForDataplane generatedDeployment in
  match deployments with
  | [existingDeployment] =>
      let '(updated, meta) :=
        EnsureObjectMetaIsUpdated (d_meta existingDeployment) (d_meta generatedDeployment) in
      let existingDeployment := setMeta meta existingDeployment in
      if updated then Update existingDeployment else ret existingDeployment
  | _ => Create generatedDeployment
  end.

Context `{DataPlaneServiceGenerators}.

Definition ensureServiceForDataPlane (dataplane : DataPlane) : M Service :=
  let! services :=
    ListServicesForOwner GatewayOperatorControlledLabel DataPlaneManagedLabelValue
                         (Namespace (dp_meta dataplane)) (UID (dp_meta dataplane)) in
  let count := length services in
  let! _ := (if (1 <? count)%nat
             then DeleteAllOf Service (Namespace (dp_meta dataplane))
                              GatewayOperatorControlledLabel DataPlaneManagedLabelValue
             else ret tt) in
  let generatedService := generateNewServiceForDataplane dataplane in
  let generatedService := SetOwnerForObject generatedService dataplane in
  let generatedService := labelObjForDataplane generatedService in
  match services with
  | [existingService] =>
      let '(updated, meta) :=
        EnsureObjectMetaIsUpdated (svc_meta existingService) (svc_meta generatedService) in
      let existingService := setMeta meta existingService in
      if updated then Update existingService else ret existingService
  | _ => Create generatedService
  end.

End DataPlaneUtils.
End DataPlaneUtils.

(* ------------------------------------------------------------------------- *)
(** ** ControlPlane reconciler: owned Deployment                              *)
(* ------------------------------------------------------------------------- *)

Class ControlPlaneGenerators := {
  generateNewDeploymentForControlPlane : ControlPlane → string → Deployment;
}.

Definition numReplicasWhenNoDataplane : Z := 0.

Definition setDeploymentReplicas (replicas : option Z) (d : Deployment) : Deployment :=
  mkDeployment (d_meta d) replicas (d_Containers d) (d_status d).

Definition setDeploymentContainers (cs : list Container) (d : Deployment) : Deployment :=
  mkDeployment (d_meta d) (d_Replicas d) cs (d_status d).

Definition setContainerEnv (env : list EnvVar) (c : Container) : Container :=
  mkContainer (ct_Name c) (ct_Image c) env.

Section ControlPlaneUtils.
Context `{Consts} `{ControlPlaneGenerators}.

Definition dataplaneIsSet (controlplane : ControlPlane) : bool :=
  match cpo_DataPlane (cp_spec controlplane) with
  | Some name => negb (bool_decide (name = ""))
  | None => false
  end.

Definition labelObjForControlPlane `{Object K} (obj : K) : K :=
  labelObj GatewayOperatorControlledLabel ControlPlaneManagedLabelValue obj.

Definition ensureDeploymentForControlPlane (controlplane : ControlPlane)
    (serviceAccountName : string) : M (bool * Deployment) :=
  let dataplaneIsSet := dataplaneIsSet controlplane in
  let! deployments :=
    ListDeploymentsForOwner GatewayOperatorControlledLabel ControlPlaneManagedLabelValue
                            (Namespace (cp_meta controlplane)) (UID (cp_meta controlplane)) in
  let count := length deployments in
  let! _ := (if (1 <? count)%nat
             then DeleteAllOf Deployment (Namespace (cp_meta controlplane))
                              GatewayOperatorControlledLabel ControlPlaneManagedLabelValue
             else ret tt) in
  let generatedDeployment :=
    generateNewDeploymentForControlPlane controlplane serviceAccountName in
  let generatedDeployment := SetOwnerForObject generatedDeployment controlplane in
  let generatedDeployment := labelObjForControlPlane generatedDeployment in
  match deployments with
  | [existingDeployment] =>
      let '(updated, meta) :=
        EnsureObjectMetaIsUpdated (d_meta existingDeployment) (d_meta generatedDeployment) in
      let existingDeployment := setMeta meta existingDeployment in
      let replicas := d_Replicas existingDeployment in
      let! (updated, existingDeployment) :=
        (if negb dataplaneIsSet
            && match replicas with
               | None => true
               | Some n => negb (n =? numReplicasWhenNoDataplane)
               end
         then
           ret (true, setDeploymentReplicas (Some numReplicasWhenNoDataplane)
                                            existingDeployment)
         else if dataplaneIsSet
                 && match replicas with
                    | None => false
                    | Some n => n =? numReplicasWhenNoDataplane
                    end
         then
           let existingDeployment := setDeploymentReplicas None existingDeployment in
           match d_Containers existingDeployment with
           | [] => fail (Panic "index out of range [0] with length 0")
           | container0 :: others =>
               let existingDeployment :=
                 if (0 <? length (ct_Env container0))%nat
                 then setDeploymentContainers
                        (setContainerEnv (do_Env (cpo_Options (cp_spec controlplane)))
                                         container0 :: others)
                        existingDeployment
                 else existingDeployment in
               ret (true, existingDeployment)
           end
         else ret (updated, existingDeployment)) in
      if updated
      then let! existingDeployment := Update existingDeployment in
           ret (true, existingDeployment)
      else ret (false, existingDeployment)
  | _ =>
      let generatedDeployment :=
        if negb dataplaneIsSet
        then setDeploymentReplicas (Some numReplicasWhenNoDataplane) generatedDeployment
        else generatedDeployment in
      let! generatedDeployment := Create generatedDeployment in
      ret (true, generatedDeployment)
  end.

End ControlPlaneUtils.

(* ------------------------------------------------------------------------- *)
(** ** DataPlane reconciler: Reconcile                                        *)
(* ------------------------------------------------------------------------- *)

(** What [DataPlaneReconciler.Reconcile] calls and the sources do not hold:
    the in-memory condition helpers of internal/utils/kubernetes, the spec
    defaults, the external validator, and the three-result ensurers of the
    owned Service, certificate Secret and Deployment.  [errorText] is the
    [Error()] method of Go errors. *)
Class DataPlaneHelpers := {
  InitReady : DataPlane → DataPlane;
  ensureIsMarkedScheduled : DataPlane → bool * DataPlane;
  ensureIsMarkedProvisioned : DataPlane → DataPlane;
  NeedsUpdate : DataPlane → DataPlane → bool;
  SetDataPlaneDefaults : DeploymentOptions → DeploymentOptions;
  Validate : DataPlane → M unit;
  errorText : error → string;
  ensureServiceForDataPlane : DataPlane → M (bool * Service);
  ensureDataPlaneServiceStatus : DataPlane → string → M unit;
  ensureCertificate : DataPlane → string → M (bool * Secret);
  ensureDeploymentForDataPlane : DataPlane → string → M (bool * Deployment);
}.

Definition emptyDataPlane : DataPlane := mkDataPlane emptyMeta emptyDeploymentOptions [].

Section DataPlaneReconciler.
Context `{Consts} `{DataPlaneHelpers}.

(** updateStatus: on NotFound, [current] stays the zero value. *)
Definition updateStatus (updated : DataPlane) : M unit :=
  let! current :=
    catch (Get DataPlane (Namespace (dp_meta updated)) (Name (dp_meta updated)))
          (λ err, if negb (IsNotFound err) then fail err else ret emptyDataPlane) in
  if NeedsUpdate current updated
  then let! _ := StatusUpdate updated in ret tt
  else ret tt.

Definition validationFailedEvent (dataplane : DataPlane) (err : error) : Event :=
  mkEvent (Name (dp_meta dataplane)) "Warning" "ValidationFailed" (errorText err).

(** DataPlaneReconciler.Reconcile; [req] is the namespaced name. *)
Definition DataPlaneReconcile (namespace name : string) : ReconcileM :=
  handle (Get DataPlane namespace name)
    (λ err, if IsNotFound err then returns noResult None else returns noResult (Some err))
  (λ dataplane,
  let dataplane := InitReady dataplane in
  let '(markedScheduled, dataplane) := ensureIsMarkedScheduled dataplane in
  if markedScheduled then
    returning noResult (updateStatus dataplane)
  else
  try! (createdOrUpdated, dataplaneService) :=
    call "ensureServiceForDataPlane" (ensureServiceForDataPlane dataplane) in
  if createdOrUpdated : bool then
    returning noResult
      (call "ensureDataPlaneServiceStatus"
            (ensureDataPlaneServiceStatus dataplane (Name (svc_meta dataplaneService))))
  else
  if bool_decide (svc_ClusterIP dataplaneService = "") then
    returns noResult None
  else
  if (length (do_Env (dp_spec dataplane)) =? 0)%nat
     && (length (do_EnvFrom (dp_spec dataplane)) =? 0)%nat
  then
    let dataplane :=
      setDataPlaneSpec (SetDataPlaneDefaults (dp_spec dataplane)) dataplane in
    handle (Update dataplane)
      (λ err, if IsConflict err
              then returns (mkResult true requeueWithoutBackoff) None
              else returns noResult (Some err))
      (λ _, returns noResult None)
  else
  handle (call "Validate" (Validate dataplane))
    (λ err w,
       let w := recordEvent (validationFailedEvent dataplane err) w in
       returning noResult
         (DataPlaneUtils.ensureDataPlaneIsMarkedNotProvisioned dataplane
            DataPlaneConditionValidationFailed (errorText err)) w)
  (λ _,
  try! (createdOrUpdated, certSecret) :=
    call "ensureCertificate"
         (ensureCertificate dataplane (Name (svc_meta dataplaneService))) in
  if createdOrUpdated : bool then
    returns noResult None
  else
  try! (createdOrUpdated, dataplaneDeployment) :=
    call "ensureDeploymentForDataPlane"
         (ensureDeploymentForDataPlane dataplane (Name (sec_meta certSecret))) in
  if createdOrUpdated : bool then
    returns noResult None
  else
  if (ds_Replicas (d_status dataplaneDeployment) =? 0)
     || (ds_AvailableReplicas (d_status dataplaneDeployment)
         <? ds_Replicas (d_status dataplaneDeployment))
  then
    returns noResult None
  else
  let dataplane := ensureIsMarkedProvisioned dataplane in
  handle (updateStatus dataplane)
    (λ err, if IsConflict err
            then returns (mkResult true requeueWithoutBackoff) None
            else returns noResult (Some err))
    (λ _, returns noResult None))).

End DataPlaneReconciler.

(* ------------------------------------------------------------------------- *)
(** ** ControlPlane reconciler: status management                             *)
(* ------------------------------------------------------------------------- *)

Definition ensureControlPlaneIsMarkedScheduled (controlplane : ControlPlane)
  : M (bool * ControlPlane) :=
  let isScheduled :=
    existsb (λ condition,
               bool_decide (c_Type condition = ControlPlaneConditionTypeProvisioned))
            (cp_Conditions controlplane) in
  if negb isScheduled then
    let! now := Now in
    let controlplane :=
      setControlPlaneConditions
        (cp_Conditions controlplane
         ++ [mkCondition ControlPlaneConditionTypeProvisioned ConditionFalse
                         ControlPlaneConditionReasonPodsNotReady
                         "ControlPlane resource is scheduled for provisioning"
                         (Generation (cp_meta controlplane)) now]) controlplane in
    let! controlplane := StatusUpdate controlplane in
    ret (true, controlplane)
  else ret (false, controlplane).

Definition ensureControlPlaneIsMarkedProvisioned (controlplane : ControlPlane)
  : M ControlPlane :=
  let! now := Now in
  let updatedConditions :=
    map (λ condition,
           if bool_decide (c_Type condition = ControlPlaneConditionTypeProvisioned)
           then mkCondition (c_Type condition) ConditionTrue
                            ControlPlaneConditionReasonPodsReady
                            "pods for all Deployments are ready"
                            (Generation (cp_meta controlplane)) now
           else condition)
        (cp_Conditions controlplane) in
  StatusUpdate (setControlPlaneConditions updatedConditions controlplane).

(** The loop of [ensureDataPlaneStatus]; it yields [updatedConditions]. *)
Fixpoint dataPlaneStatusLoop (dataplaneIsSet : bool) (generation now : Z)
    (conditions : list Condition) : list Condition :=
  match conditions with
  | [] => []
  | condition :: rest =>
      let updatedConditions := dataPlaneStatusLoop dataplaneIsSet generation now rest in
      if bool_decide (c_Type condition = ControlPlaneConditionTypeProvisioned) then
        if negb dataplaneIsSet
           && negb (bool_decide (c_Reason condition = ControlPlaneConditionReasonNoDataplane))
        then
          mkCondition ControlPlaneConditionTypeProvisioned ConditionFalse
                      ControlPlaneConditionReasonNoDataplane
                      "DataPlane is not set" generation now
          :: updatedConditions
        else if dataplaneIsSet
                && bool_decide (c_Reason condition = ControlPlaneConditionReasonNoDataplane)
        then
          mkCondition ControlPlaneConditionTypeProvisioned ConditionFalse
                      ControlPlaneConditionReasonPodsNotReady
                      "DataPlane was set, ControlPlane resource is scheduled for provisioning"
                      generation now
          :: updatedConditions
        else updatedConditions
      else updatedConditions
  end.

(** ensureDataPlaneStatus; the result is
    [(controlPlaneChanged, dataplaneIsSet)] and the ControlPlane at hand. *)
Definition ensureDataPlaneStatus (controlplane : ControlPlane)
  : M (bool * bool * ControlPlane) :=
  let dataplaneIsSet := dataplaneIsSet controlplane in
  let! now := Now in
  let updatedConditions :=
    dataPlaneStatusLoop dataplaneIsSet (Generation (cp_meta controlplane)) now
                        (cp_Conditions controlplane) in
  if (0 <? length updatedConditions)%nat then
    let controlplane := setControlPlaneConditions updatedConditions controlplane in
    let! controlplane := StatusUpdate controlplane in
    ret (true, dataplaneIsSet, controlplane)
  else ret (false, dataplaneIsSet, controlplane).

(* ------------------------------------------------------------------------- *)
(** ** ControlPlane reconciler: watch predicates and map functions            *)
(* ------------------------------------------------------------------------- *)

(** client.List without options: every object of the kind, in every
    namespace. *)
Definition ListAll K `{Object K} : M (list K) :=
  apiCall (λ w, (Ok (items (cluster w)), w)).

(** A [client.Object] handed to a watch function, by its dynamic type: one of
    the two RBAC kinds the ControlPlane controller watches, or another kind. *)
Inductive WatchedObject :=
| ClusterRoleObject (meta : ObjectMeta)
| ClusterRoleBindingObject (meta : ObjectMeta)
| OtherObject (kind : string) (meta : ObjectMeta).

(** reconcile.Request: a namespaced name. *)
Record Request := mkRequest {
  req_Namespace : string;
  req_Name : string;
}.

(** The predicates and map functions return no error: a failed List is logged
    and answered with [false], or with no request. *)
Definition objHasControlplaneOwner (obj : ObjectMeta) : World → bool * World :=
  λ w, match ListAll ControlPlane w with
       | (Err _, w') => (false, w')
       | (Ok controlplaneList, w') =>
           (existsb (λ controlplane, IsOwnedByRefUID obj (UID (cp_meta controlplane)))
                    controlplaneList, w')
       end.

Definition clusterRoleHasControlplaneOwner (obj : WatchedObject) : World → bool * World :=
  match obj with
  | ClusterRoleObject clusterRole => objHasControlplaneOwner clusterRole
  | _ => λ w, (false, w)
  end.

Definition clusterRoleBindingHasControlplaneOwner (obj : WatchedObject)
  : World → bool * World :=
  match obj with
  | ClusterRoleBindingObject clusterRoleBinding => objHasControlplaneOwner clusterRoleBinding
  | _ => λ w, (false, w)
  end.

Definition getControlplaneRequestFromRefUID (obj : ObjectMeta)
  : World → list Request * World :=
  λ w, match ListAll ControlPlane w with
       | (Err _, w') => ([], w')
       | (Ok controlplanes, w') =>
           (match find (λ controlplane,
                          IsOwnedByRefUID obj (UID (cp_meta controlplane))) controlplanes with
            | Some controlplane =>
                [mkRequest (Namespace (cp_meta controlplane)) (Name (cp_meta controlplane))]
            | None => []
            end, w')
       end.

Definition getControlplaneForClusterRole (obj : WatchedObject)
  : World → list Request * World :=
  match obj with
  | ClusterRoleObject clusterRole => getControlplaneRequestFromRefUID clusterRole
  | _ => λ w, ([], w)
  end.

Definition getControlplaneForClusterRoleBinding (obj : WatchedObject)
  : World → list Request * World :=
  match obj with
  | ClusterRoleBindingObject clusterRoleBinding =>
      getControlplaneRequestFromRefUID clusterRoleBinding
  | _ => λ w, ([], w)
  end.

(* ------------------------------------------------------------------------- *)
(** ** Predicates used by the properties                                      *)
(* ------------------------------------------------------------------------- *)

(** Invariant 3 of the data model: at most one entry per condition type. *)
Definition condsUnique (conditions : list Condition) : Prop :=
  NoDup (map c_Type conditions).

Definition hasConditionType (t : string) (conditions : list Condition) : bool :=
  existsb (λ condition, bool_decide (c_Type condition = t)) conditions.

Definition storedConditionsUnique (w : World) : Prop :=
  ∀ d, d ∈ dataPlanes (cluster w) → condsUnique (dp_Conditions d).

(** Client calls touch neither the events, nor the trace, nor the clock. *)
Definition sameObservables (w w' : World) : Prop :=
  events w' = events w ∧ trace w' = trace w ∧ clock w' = clock w.

Definition ipAddress (value : string) : GatewayAddress :=
  mkGatewayAddress (Some IPAddressType) value.

Section OwnedChildren.
Context `{Consts}.

(** The Services that [ListServicesForOwner] finds for a DataPlane. *)
Definition ownedServices (dataplane : DataPlane) (c : Cluster) : list Service :=
  filter (λ service, IsOwnedByRefUID (svc_meta service) (UID (dp_meta dataplane)))
    (filter (λ o : Service,
               selected (Namespace (dp_meta dataplane)) GatewayOperatorControlledLabel
                        DataPlaneManagedLabelValue o)
            (services c)).

(** The Deployments that [ListDeploymentsForOwner] finds for the owner [uid]
    under the provenance value [value]. *)
Definition ownedDeployments (value namespace uid : string) (c : Cluster) : list Deployment :=
  filter (λ deployment, IsOwnedByRefUID (d_meta deployment) uid)
    (filter (λ o : Deployment, selected namespace GatewayOperatorControlledLabel value o)
            (deployments c)).

(** The ControlPlanes that [ListControlPlanesForGateway] finds for a Gateway. *)
Definition ownedControlPlanes (gateway : Gateway) (c : Cluster) : list ControlPlane :=
  filter (λ controlplane, IsOwnedByRefUID (cp_meta controlplane) (UID (gw_meta gateway)))
    (filter (λ o : ControlPlane,
               selected (Namespace (gw_meta gateway)) GatewayOperatorControlledLabel
                        GatewayManagedLabelValue o)
            (controlPlanes c)).
End OwnedChildren.

(** What a pass leaves alone: the stored Gateways and the recorded events. *)
Definition gatewaysUntouched (w w' : World) : Prop :=
  gateways (cluster w') = gateways (cluster w) ∧ events w' = events w.

Section GatewayPass.
Context `{Consts} `{GatewayHelpers}.

(** The pass for the Gateway [namespace/name] started in [w] gets as far as
    ensuring the DataPlane: it fetches [gateway], finds its class supported
    and the Gateway scheduled, resolves the configuration and ensures
    [dataplane], which takes it to the world [w4]. *)
Definition ensuresDataPlane (namespace name : string) (w : World) (gateway : Gateway)
    (gatewayClass : GatewayClass) (gatewayConfig : GatewayConfiguration)
    (dataplane : DataPlane) (w4 : World) : Prop :=
  ∃ w1 w2 config w3,
    Get Gateway namespace name w = (Ok gateway, w1)
    ∧ verifyGatewayClassSupport gateway w1 = (Ok gatewayClass, w2)
    ∧ IsGatewayScheduled gateway = true
    ∧ getOrCreateGatewayConfiguration gatewayClass w2 = (Ok config, w3)
    ∧ gatewayConfig = setDataplaneGatewayConfigDefaults config
    ∧ ensureDataPlaneForGateway gateway gatewayConfig w3 = (Ok dataplane, w4).

(** From there the pass gets as far as ensuring the ControlPlane: it finds
    the one Service of the DataPlane and ensures [controlplane], which takes
    it to the world [w6]. *)
Definition ensuresControlPlane (gateway : Gateway) (gatewayClass : GatewayClass)
    (gatewayConfig : GatewayConfiguration) (dataplane : DataPlane) (w4 : World)
    (controlplane : ControlPlane) (w6 : World) : Prop :=
  ∃ service0 w5,
    ListServicesForOwner GatewayOperatorControlledLabel DataPlaneManagedLabelValue
      (Namespace (dp_meta dataplane)) (UID (dp_meta dataplane)) w4 = (Ok [service0], w5)
    ∧ ensureControlPlaneForGateway gatewayClass gateway
        (setControlplaneGatewayConfigDefaults gateway gatewayConfig
           (Name (dp_meta dataplane)) (Name (svc_meta service0)))
        (Name (dp_meta dataplane)) w5 = (Ok controlplane, w6).

(** How [Reconcile] ends once both children are Provisioned. *)
Definition finishWithReady (gateway : Gateway) (dataplane : DataPlane) (w6 : World)
  : (Result * option error) * World :=
  match ensureGatewayMarkedReady gateway dataplane w6 with
  | (Ok _, w7) => ((noResult, None), w7)
  | (Err err, w7) => ((noResult, Some err), w7)
  end.

End GatewayPass.

(** The Provisioned entries of a condition list all say False with the
    given reason and message, and there is such an entry. *)
Definition markedNotProvisioned (reason message : string) (conditions : list Condition)
  : Prop :=
  hasConditionType DataPlaneConditionTypeProvisioned conditions = true
  ∧ ∀ c, c ∈ conditions → c_Type c = DataPlaneConditionTypeProvisioned →
         c_Status c = ConditionFalse ∧ c_Reason c = reason ∧ c_Message c = message.

Definition errorOf {A} (r : result A) : option error :=
  match r with
  | Ok _ => None
  | Err err => Some err
  end.

Section DataPlanePass.
Context `{Consts} `{DataPlaneHelpers}.

(** The pass for the DataPlane [namespace/name] started in [w] gets past the
    Service: it fetches the DataPlane, finds it marked scheduled already
    ([dataplane] is the object at hand) and the Service ensurer returns
    [service] as unchanged, in the world [w2]. *)
Definition passesService (namespace name : string) (w : World) (dataplane : DataPlane)
    (service : Service) (w2 : World) : Prop :=
  ∃ stored w1,
    Get DataPlane namespace name w = (Ok stored, w1)
    ∧ ensureIsMarkedScheduled (InitReady stored) = (false, dataplane)
    ∧ call "ensureServiceForDataPlane" (ensureServiceForDataPlane dataplane) w1
      = (Ok (false, service), w2).

Definition hasNoEnv (dataplane : DataPlane) : Prop :=
  do_Env (dp_spec dataplane) = [] ∧ do_EnvFrom (dp_spec dataplane) = [].

(** ... and, the Service having a ClusterIP and the spec an environment,
    reaches the validator. *)
Definition reachesValidation (namespace name : string) (w : World) (dataplane : DataPlane)
    (service : Service) (w2 : World) : Prop :=
  passesService namespace name w dataplane service w2
  ∧ svc_ClusterIP service ≠ ""
  ∧ ¬ hasNoEnv dataplane.

(** ... and, the spec being valid, the certificate and the Deployment
    unchanged and the Deployment available, reaches the final status update
    in the world [w5]. *)
Definition reachesProvisioned (namespace name : string) (w : World) (dataplane : DataPlane)
    (w5 : World) : Prop :=
  ∃ service w2 w3 certSecret w4 deployment,
    reachesValidation namespace name w dataplane service w2
    ∧ call "Validate" (Validate dataplane) w2 = (Ok tt, w3)
    ∧ call "ensureCertificate"
           (ensureCertificate dataplane (Name (svc_meta service))) w3
      = (Ok (false, certSecret), w4)
    ∧ call "ensureDeploymentForDataPlane"
           (ensureDeploymentForDataPlane dataplane (Name (sec_meta certSecret))) w4
      = (Ok (false, deployment), w5)
    ∧ ds_Replicas (d_status deployment) ≠ 0
    ∧ ds_Replicas (d_status deployment) ≤ ds_AvailableReplicas (d_status deployment).
End DataPlanePass.

(** C6 as the specification words it: the address list holds exactly one
    address, the load-balancer address if the Service has one and its
    ClusterIP otherwise. *)
Definition addressesFromOneSource (svc : Service) (addresses : list GatewayAddress) : Prop :=
  match svc_Ingress svc with
  | ingress :: _ => addresses = [ipAddress (lbi_IP ingress)]
  | [] => addresses = [ipAddress (svc_ClusterIP svc)]
  end.

(* ------------------------------------------------------------------------- *)
(** ** A concrete cluster for the examples                                    *)
(* ------------------------------------------------------------------------- *)

Module Scenario.

(** Values for the parameters.  The provenance values are the ones section 6
    of the specification names; the controller name is the one of its
    scenario. *)
Definition consts : Consts := {|
  GatewayOperatorControlledLabel := "gateway-operator-controlled";
  GatewayManagedLabelValue := "managed-by-gateway";
  DataPlaneManagedLabelValue := "managed-by-dataplane";
  ControlPlaneManagedLabelValue := "managed-by-controlplane";
  ControllerName := "example/operator";
  SchemeGroup := "gateway-operator.example";
  requeueWithoutBackoff := 1;
|}.

(** Modelled from the spec: the Gateway helpers that are not among the
    sources.  A Gateway is scheduled (ready) when it carries the Scheduled
    (Ready) condition with status True; the pruning finds nothing stale;
    the deep comparisons compare all option fields; the defaulting leaves
    the configuration as it is. *)
Definition gatewayHelpers : GatewayHelpers := {|
  IsGatewayScheduled g :=
    hasConditionTrue GatewayConditionScheduled (gws_Conditions (gw_status g));
  IsGatewayReady g :=
    hasConditionTrue GatewayConditionReady (gws_Conditions (gw_status g));
  PruneGatewayStatusConds g := g;
  dataplaneSpecDeepEqual a b := bool_decide (a = b);
  controlplaneSpecDeepEqual a b := bool_decide (a = b);
  setDataplaneGatewayConfigDefaults cfg := cfg;
  setControlplaneGatewayConfigDefaults _ cfg _ _ := cfg;
|}.

Definition ownedBy (kind name uid : string) : list OwnerReference :=
  [mkOwnerReference kind name uid].

Definition gatewayClass : GatewayClass :=
  mkGatewayClass (mkObjectMeta "kong" "" "" "gwc-uid" 1 ∅ []) "example/operator" None.

Definition scheduled : Condition :=
  mkCondition "Scheduled" "True" "Scheduled" "picked up" 1 0.

Definition ready : Condition :=
  mkCondition "Ready" "True" "Ready" "" 1 0.

Definition gatewayMeta : ObjectMeta :=
  mkObjectMeta "gw" "" "default" "gw-uid" 1 ∅ [].

(** A Gateway that has been scheduled and is not yet ready. *)
Definition gateway : Gateway :=
  mkGateway gatewayMeta "kong" (mkGatewayStatus [scheduled] []).

Definition dataplaneMeta : ObjectMeta :=
  mkObjectMeta "gw-dp" "gw-" "default" "dp-uid" 1
               {[ "gateway-operator-controlled" := "managed-by-gateway" ]}
               (ownedBy "Gateway" "gw" "gw-uid").

Definition dataplaneSpec : DeploymentOptions :=
  mkDeploymentOptions None (Some "kong:3") [mkEnvVar "KONG_DATABASE" "off"] [].

Definition provisionedTrue : Condition :=
  mkCondition "Provisioned" "True" "PodsReady" "pods for all Deployments are ready" 1 0.

Definition provisionedFalse : Condition :=
  mkCondition "Provisioned" "False" "PodsNotReady"
              "DataPlane resource is scheduled for provisioning" 1 0.

Definition dataplane : DataPlane :=
  mkDataPlane dataplaneMeta dataplaneSpec [provisionedTrue].

Definition serviceMeta : ObjectMeta :=
  mkObjectMeta "gw-dp-svc" "" "default" "svc-uid" 1
               {[ "gateway-operator-controlled" := "managed-by-dataplane" ]}
               (ownedBy "DataPlane" "gw-dp" "dp-uid").

(** The DataPlane's Service, without and with a load-balancer address. *)
Definition service : Service := mkService serviceMeta "10.0.0.1" [].

Definition serviceLB : Service :=
  mkService serviceMeta "10.0.0.1" [mkLoadBalancerIngress "203.0.113.7" ""].

Definition world (c : Cluster) : World := mkWorld c [] [] [] 100 0.

Definition clusterWith (svc : Service) : Cluster :=
  mkCluster [gatewayClass] [] [gateway] [dataplane] [] [] [svc].

(** The world the examples start from. *)
Definition start : World := world (clusterWith service).

(** Marking the Gateway ready, with the Service of either shape. *)
Definition markReady (svc : Service) : result Gateway * World :=
  ensureGatewayMarkedReady (H := consts) (H0 := gatewayHelpers)
                           gateway dataplane (world (clusterWith svc)).

Definition markedGateway (svc : Service) : Gateway :=
  match (markReady svc).1 with
  | Ok g => g
  | Err _ => gateway
  end.

(** Modelled from the spec: the Deployment generators are not among the
    sources; a generated Deployment lives in its parent's namespace, has a
    generated name and carries the parent's replica count, image and
    environment. *)
Definition generatedDeployment (meta : ObjectMeta) (opts : DeploymentOptions) : Deployment :=
  mkDeployment (generatedMeta (Namespace meta) (Name meta +:+ "-"))
               (do_Replicas opts)
               [mkContainer "main" (default "" (do_ContainerImage opts)) (do_Env opts)]
               (mkDeploymentStatus 0 0).

Definition dataPlaneGenerators : DataPlaneGenerators := {|
  generateNewDeploymentForDataPlane dp := generatedDeployment (dp_meta dp) (dp_spec dp);
|}.

Definition controlPlaneGenerators : ControlPlaneGenerators := {|
  generateNewDeploymentForControlPlane cp _ :=
    generatedDeployment (cp_meta cp) (cpo_Options (cp_spec cp));
|}.

Definition controlplaneMeta (name uid : string) : ObjectMeta :=
  mkObjectMeta name "gw-" "default" uid 1
               {[ "gateway-operator-controlled" := "managed-by-gateway" ]}
               (ownedBy "Gateway" "gw" "gw-uid").

Definition controlplaneSpec (dataplaneRef : option string) : ControlPlaneDeploymentOptions :=
  mkControlPlaneDeploymentOptions
    (mkDeploymentOptions (Some 3) (Some "kic:2") [mkEnvVar "CONTROLLER_LOG_LEVEL" "info"] [])
    dataplaneRef.

(** Two ControlPlanes owned by the Gateway, one with the condition
    Provisioned/True and a twin of it. *)
Definition controlplane : ControlPlane :=
  mkControlPlane (controlplaneMeta "gw-cp" "cp-uid") (controlplaneSpec (Some "gw-dp"))
                 (Some "kong") [provisionedTrue].

Definition controlplaneTwin : ControlPlane :=
  mkControlPlane (controlplaneMeta "gw-cp-twin" "cp-twin-uid") (controlplaneSpec (Some "gw-dp"))
                 (Some "kong") [provisionedTrue].

(** The ControlPlane with its DataPlane reference unset. *)
Definition controlplaneDormant : ControlPlane :=
  mkControlPlane (controlplaneMeta "gw-cp" "cp-uid") (controlplaneSpec None)
                 (Some "kong") [provisionedTrue].

Definition deploymentMeta (name uid value ownerKind ownerName ownerUID : string)
  : ObjectMeta :=
  mkObjectMeta name "" "default" uid 1
               {[ "gateway-operator-controlled" := value ]}
               (ownedBy ownerKind ownerName ownerUID).

(** The Deployment of the ControlPlane, with the given replica count. *)
Definition controlplaneDeployment (replicas : option Z) : Deployment :=
  mkDeployment
    (deploymentMeta "gw-cp-deploy" "cpd-uid" "managed-by-controlplane"
                    "ControlPlane" "gw-cp" "cp-uid")
    replicas
    [mkContainer "controller" "kic:2" [mkEnvVar "CONTROLLER_LOG_LEVEL" "debug"]]
    (mkDeploymentStatus 3 3).

Definition clusterTwoControlPlanes : Cluster :=
  mkCluster [gatewayClass] [] [gateway] [dataplane] [controlplane; controlplaneTwin] []
            [service].

Definition clusterControlPlane (cp : ControlPlane) (replicas : option Z) : Cluster :=
  mkCluster [gatewayClass] [] [gateway] [dataplane] [cp] [controlplaneDeployment replicas]
            [service].

(** The Gateway reconciler's ControlPlane ensurer on the cluster with the
    two owned ControlPlanes. *)
Definition ensureWithTwoControlPlanes : result ControlPlane * World :=
  ensureControlPlaneForGateway (H := consts) (H0 := gatewayHelpers)
    gatewayClass gateway emptyGatewayConfiguration "gw-dp"
    (world clusterTwoControlPlanes).

(** The ControlPlane's Deployment ensurer: without a DataPlane on a
    Deployment of three replicas, and with a DataPlane on one of zero. *)
Definition ensureDormant : result (bool * Deployment) * World :=
  ensureDeploymentForControlPlane (H := consts) (H0 := controlPlaneGenerators)
    controlplaneDormant "gw-cp-sa"
    (world (clusterControlPlane controlplaneDormant (Some 3))).

Definition ensureWoken : result (bool * Deployment) * World :=
  ensureDeploymentForControlPlane (H := consts) (H0 := controlPlaneGenerators)
    controlplane "gw-cp-sa"
    (world (clusterControlPlane controlplane (Some 0))).

Definition ensuredDeployment (run : result (bool * Deployment) * World) : Deployment :=
  match run.1 with
  | Ok (_, d) => d
  | Err _ => controlplaneDeployment None
  end.

Definition changedBy (run : result (bool * Deployment) * World) : bool :=
  match run.1 with
  | Ok (changed, _) => changed
  | Err _ => false
  end.

(** The Gateway once it has been marked ready, and its DataPlane after the
    DataPlane has lost its readiness. *)
Definition gatewayReady : Gateway :=
  mkGateway gatewayMeta "kong" (mkGatewayStatus [scheduled; ready] [ipAddress "10.0.0.1"]).

Definition dataplaneNotReady : DataPlane :=
  mkDataPlane dataplaneMeta dataplaneSpec [provisionedFalse].

Definition clusterStale : Cluster :=
  mkCluster [gatewayClass] [] [gatewayReady] [dataplaneNotReady] [controlplane] [] [service].

Definition reconcileGateway (c : Cluster) : (Result * option error) * World :=
  GatewayReconcile (H := consts) (H0 := gatewayHelpers) "default" "gw" (world c).

(** The Gateway's class is missing from the cluster, or belongs to another
    controller. *)
Definition clusterWithoutClass : Cluster :=
  mkCluster [] [] [gateway] [dataplane] [] [] [service].

Definition foreignClass : GatewayClass :=
  mkGatewayClass (mkObjectMeta "kong" "" "" "gwc-uid" 1 ∅ []) "other/controller" None.

Definition clusterForeignClass : Cluster :=
  mkCluster [foreignClass] [] [gateway] [dataplane] [] [] [service].

(** Modelled from the spec: the helpers of the DataPlane reconciler that are
    not among the sources.  The DataPlane counts as scheduled when it has a
    Provisioned condition; the Service and Deployment ensurers return the one
    owned object as unchanged and create one otherwise; the certificate is in
    place; the validator's verdict is given. *)
Definition errorMessage (err : error) : string :=
  match err with
  | ErrUnsupportedGateway => "unsupported gateway"
  | ErrObjectMissingParametersRef => "no reference to related objects"
  | Wrapf _ msg | Errorf msg | StatusError _ msg | Panic msg => msg
  end.

Definition dataPlaneHelpers (verdict : option error) : DataPlaneHelpers := {|
  InitReady dp := dp;
  ensureIsMarkedScheduled dp :=
    if hasConditionType DataPlaneConditionTypeProvisioned (dp_Conditions dp)
    then (false, dp)
    else (true, setDataPlaneConditions (dp_Conditions dp ++ [provisionedFalse]) dp);
  ensureIsMarkedProvisioned dp :=
    setDataPlaneConditions
      (map (λ c, if bool_decide (c_Type c = DataPlaneConditionTypeProvisioned)
                 then provisionedTrue else c) (dp_Conditions dp)) dp;
  NeedsUpdate current updated :=
    negb (bool_decide (dp_Conditions current = dp_Conditions updated));
  SetDataPlaneDefaults opts :=
    mkDeploymentOptions (do_Replicas opts) (do_ContainerImage opts)
                        [mkEnvVar "KONG_DATABASE" "off"] (do_EnvFrom opts);
  Validate _ := match verdict with Some err => fail err | None => ret tt end;
  errorText := errorMessage;
  ensureServiceForDataPlane dp :=
    let! owned := ListServicesForOwner (GatewayOperatorControlledLabel (Consts := consts))
                    (DataPlaneManagedLabelValue (Consts := consts))
                    (Namespace (dp_meta dp)) (UID (dp_meta dp)) in
    match owned with
    | [svc] => ret (false, svc)
    | _ => let! svc := Create (mkService (generatedMeta (Namespace (dp_meta dp))
                                            (Name (dp_meta dp) +:+ "-")) "" []) in
           ret (true, svc)
    end;
  ensureDataPlaneServiceStatus _ _ := ret tt;
  ensureCertificate dp _ :=
    ret (false, mkSecret (generatedMeta (Namespace (dp_meta dp)) "certificate"));
  ensureDeploymentForDataPlane dp _ :=
    let! owned := ListDeploymentsForOwner (GatewayOperatorControlledLabel (Consts := consts))
                    (DataPlaneManagedLabelValue (Consts := consts))
                    (Namespace (dp_meta dp)) (UID (dp_meta dp)) in
    match owned with
    | [d] => ret (false, d)
    | _ => let! d := Create (generatedDeployment (dp_meta dp) (dp_spec dp)) in
           ret (true, d)
    end;
|}.

(** The Deployment of the DataPlane, all of its replicas available. *)
Definition dataplaneDeployment : Deployment :=
  mkDeployment
    (deploymentMeta "gw-dp-deploy" "dpd-uid" "managed-by-dataplane"
                    "DataPlane" "gw-dp" "dp-uid")
    None [mkContainer "proxy" "kong:3" [mkEnvVar "KONG_DATABASE" "off"]]
    (mkDeploymentStatus 1 1).

Definition clusterDataPlane (dp : DataPlane) (svc : Service) : Cluster :=
  mkCluster [gatewayClass] [] [gateway] [dp] [] [dataplaneDeployment] [svc].

Definition invalid : error := Errorf "unsupported DataPlane image kong:3".

Definition conflict : error :=
  StatusError StatusReasonConflict "the object has been modified".

Definition reconcileDataPlane (verdict : option error) (w : World)
  : (Result * option error) * World :=
  DataPlaneReconcile (H := consts) (H0 := dataPlaneHelpers verdict) "default" "gw-dp" w.

(** The DataPlane without environment, and the Service before it got its
    ClusterIP. *)
Definition dataplaneNoEnv : DataPlane :=
  mkDataPlane dataplaneMeta (mkDeploymentOptions None (Some "kong:3") [] [])
              [provisionedFalse].

Definition serviceNoIP : Service := mkService serviceMeta "" [].

Definition withFaults (fs : list (option error)) (c : Cluster) : World :=
  mkWorld c fs [] [] 100 0.

End Scenario.

(* ------------------------------------------------------------------------- *)
(** ** Predicates for the owned resources and the passes                      *)
(* ------------------------------------------------------------------------- *)

(** What the owner listings of lists.go select: the namespace (every
    namespace when it is empty), the provenance label and an owner reference
    with the UID. *)
Definition ownedChild (requiredLabel requiredValue namespace uid : string) (m : ObjectMeta)
  : Prop :=
  (namespace = "" ∨ Namespace m = namespace)
  ∧ Labels m !! requiredLabel = Some requiredValue
  ∧ ∃ ownerRef, ownerRef ∈ OwnerReferences m ∧ or_UID ownerRef = uid.

(** The condition the two [...IsMarkedProvisioned] functions write. *)
Definition podsReady (generation now : Z) : Condition :=
  mkCondition DataPlaneConditionTypeProvisioned ConditionTrue
              DataPlaneConditionReasonPodsReady "pods for all Deployments are ready"
              generation now.

Definition controlPlanePodsReady (generation now : Z) : Condition :=
  mkCondition ControlPlaneConditionTypeProvisioned ConditionTrue
              ControlPlaneConditionReasonPodsReady "pods for all Deployments are ready"
              generation now.

(** The reason [ensureDataPlaneStatus] moves a Provisioned condition to. *)
Definition dataPlaneStatusReason (dataplaneIsSet : bool) : string :=
  if dataplaneIsSet then ControlPlaneConditionReasonPodsNotReady
  else ControlPlaneConditionReasonNoDataplane.

(** Clusters that differ in their DataPlanes at most. *)
Definition dataPlanesOnly (c c' : Cluster) : Prop :=
  ∃ l, c' = setItems (K := DataPlane) l c.

(** The API server does not answer with the operator's own sentinel error. *)
Definition serverErrorsOnly (w : World) : Prop :=
  ∀ err, Some err ∈ faults w → errors_Is err ErrObjectMissingParametersRef = false.

(** The orders in which one DataPlane pass calls its helpers. *)
Definition helperCallOrders : list (list string) :=
  [ [];
    ["ensureServiceForDataPlane"];
    ["ensureServiceForDataPlane"; "ensureDataPlaneServiceStatus"];
    ["ensureServiceForDataPlane"; "Validate"];
    ["ensureServiceForDataPlane"; "Validate"; "ensureCertificate"];
    ["ensureServiceForDataPlane"; "Validate"; "ensureCertificate";
     "ensureDeploymentForDataPlane"] ].

Section GatewayChildren.
Context `{Consts}.

(** The DataPlanes that [ListDataPlanesForGateway] finds for a Gateway. *)
Definition ownedDataPlanes (gateway : Gateway) (c : Cluster) : list DataPlane :=
  filter (λ dataplane, IsOwnedByRefUID (dp_meta dataplane) (UID (gw_meta gateway)))
    (filter (λ o : DataPlane,
               selected (Namespace (gw_meta gateway)) GatewayOperatorControlledLabel
                        GatewayManagedLabelValue o)
            (dataPlanes c)).

(** What a cleanup by namespace and gateway-managed label removes. *)
Definition gatewayManaged (namespace : string) (dataplane : DataPlane) : bool :=
  selected namespace GatewayOperatorControlledLabel GatewayManagedLabelValue dataplane.

(** The objects the Gateway's ensurers generate, with owner reference and
    provenance label. *)
Definition generatedDataPlaneFor (gateway : Gateway) (gatewayConfig : GatewayConfiguration)
  : DataPlane :=
  LabelObjectAsGatewayManaged
    (SetOwnerForObject (GenerateNewDataPlaneForGateway gateway gatewayConfig) gateway).

(** A parametersRef that [getGatewayConfigForGatewayClass] follows. *)
Definition wellFormedParametersRef (ref : ParametersReference) (namespace : string) : Prop :=
  pr_Group ref = SchemeGroup ∧ pr_Kind ref = "GatewayConfiguration"
  ∧ pr_Namespace ref = Some namespace ∧ namespace ≠ "" ∧ pr_Name ref ≠ "".

End GatewayChildren.

Section ControlPlaneChildren.
Context `{Consts} `{ControlPlaneGenerators}.

(** The Deployment [ensureDeploymentForControlPlane] generates, with owner
    reference and provenance label. *)
Definition generatedDeploymentFor (controlplane : ControlPlane) (serviceAccountName : string)
  : Deployment :=
  labelObjForControlPlane
    (SetOwnerForObject (generateNewDeploymentForControlPlane controlplane serviceAccountName)
                       controlplane).

End ControlPlaneChildren.

Section DataPlanePassMore.
Context `{Consts} `{DataPlaneHelpers}.

(** The pass for the DataPlane [namespace/name] started in [w] reaches the
    validator and, the spec being valid and the certificate unchanged, gets
    the Deployment [deployment] back from its ensurer as unchanged, in the
    world [w5]. *)
Definition reachesDeployment (namespace name : string) (w : World) (dataplane : DataPlane)
    (deployment : Deployment) (w5 : World) : Prop :=
  ∃ service w2 w3 certSecret w4,
    reachesValidation namespace name w dataplane service w2
    ∧ call "Validate" (Validate dataplane) w2 = (Ok tt, w3)
    ∧ call "ensureCertificate"
           (ensureCertificate dataplane (Name (svc_meta service))) w3
      = (Ok (false, certSecret), w4)
    ∧ call "ensureDeploymentForDataPlane"
           (ensureDeploymentForDataPlane dataplane (Name (sec_meta certSecret))) w4
      = (Ok (false, deployment), w5).

End DataPlanePassMore.

(* ------------------------------------------------------------------------- *)
(** ** More objects and runs on the example cluster                           *)
(* ------------------------------------------------------------------------- *)

Module Fixtures.

(** The metadata of a Service found under the DataPlane's label, with a label
    of its own and no owner reference yet, and the metadata generated for the
    DataPlane's Service. *)
Definition staleMeta : ObjectMeta :=
  mkObjectMeta "gw-dp-svc" "" "default" "svc-uid" 1
               {[ "app" := "kong" ]} [].

Definition desiredMeta : ObjectMeta :=
  mkObjectMeta "" "gw-dp-" "default" "" 0
               {[ "gateway-operator-controlled" := "managed-by-dataplane" ]}
               (Scenario.ownedBy "DataPlane" "gw-dp" "dp-uid").

Definition mergedMeta : ObjectMeta :=
  (EnsureObjectMetaIsUpdated staleMeta desiredMeta).2.

(** A DataPlane and a ControlPlane that have no condition yet. *)
Definition dataplaneFresh : DataPlane :=
  mkDataPlane Scenario.dataplaneMeta Scenario.dataplaneSpec [].

Definition controlplaneFresh : ControlPlane :=
  mkControlPlane (Scenario.controlplaneMeta "gw-cp" "cp-uid")
                 (Scenario.controlplaneSpec (Some "gw-dp")) (Some "kong") [].

(** A ControlPlane without DataPlane that is Provisioned and carries a
    condition of another type as well. *)
Definition controlplaneUnset : ControlPlane :=
  mkControlPlane (Scenario.controlplaneMeta "gw-cp" "cp-uid")
                 (Scenario.controlplaneSpec None) (Some "kong")
                 [Scenario.scheduled; Scenario.provisionedTrue].

Definition orOf {A} (fallback : A) (r : result A) : A :=
  match r with
  | Ok a => a
  | Err _ => fallback
  end.

(** Runs of the DataPlane's condition functions. *)
Definition startNotReady : World :=
  Scenario.world (Scenario.clusterDataPlane Scenario.dataplaneNotReady Scenario.service).

Definition markNotProvisioned : result DataPlane * World :=
  DataPlaneUtils.ensureDataPlaneIsMarkedNotProvisioned Scenario.dataplaneNotReady
    "ValidationFailed" "image is not supported" startNotReady.

Definition markProvisioned : result DataPlane * World :=
  DataPlaneUtils.ensureDataPlaneIsMarkedProvisioned Scenario.dataplaneNotReady startNotReady.

Definition startFresh : World :=
  Scenario.world (Scenario.clusterDataPlane dataplaneFresh Scenario.service).

Definition markScheduled : result (bool * DataPlane) * World :=
  DataPlaneUtils.ensureDataPlaneIsMarkedScheduled dataplaneFresh startFresh.

Definition scheduledDataPlane : DataPlane :=
  (orOf (false, dataplaneFresh) markScheduled.1).2.

Definition markScheduledProvisioned : result DataPlane * World :=
  DataPlaneUtils.ensureDataPlaneIsMarkedProvisioned scheduledDataPlane markScheduled.2.

(** Runs of the ControlPlane's condition functions. *)
Definition startUnset : World :=
  Scenario.world (Scenario.clusterControlPlane controlplaneUnset (Some 0)).

Definition dataPlaneStatus : result (bool * bool * ControlPlane) * World :=
  ensureDataPlaneStatus controlplaneUnset startUnset.

Definition controlplaneDetached : ControlPlane :=
  (orOf (false, false, controlplaneUnset) dataPlaneStatus.1).2.

Definition startFreshControlPlane : World :=
  Scenario.world (Scenario.clusterControlPlane controlplaneFresh None).

Definition controlplaneScheduledRun : result (bool * ControlPlane) * World :=
  ensureControlPlaneIsMarkedScheduled controlplaneFresh startFreshControlPlane.

Definition controlplaneScheduled : ControlPlane :=
  (orOf (false, controlplaneFresh) controlplaneScheduledRun.1).2.

Definition controlplaneAttachedRun : result (bool * bool * ControlPlane) * World :=
  ensureDataPlaneStatus controlplaneScheduled controlplaneScheduledRun.2.

Definition controlplaneAttached : ControlPlane :=
  (orOf (false, false, controlplaneFresh) controlplaneAttachedRun.1).2.

Definition controlplaneProvisionedRun : result ControlPlane * World :=
  ensureControlPlaneIsMarkedProvisioned controlplaneAttached controlplaneAttachedRun.2.


(** A GatewayClass that points at a stored GatewayConfiguration, and one
    that points at an object of another kind. *)
Definition parametersRef : ParametersReference :=
  mkParametersReference "gateway-operator.example" "GatewayConfiguration"
                        (Some "default") "gw-config".

Definition foreignRef : ParametersReference :=
  mkParametersReference "" "ConfigMap" (Some "default") "gw-config".

Definition classWithRef (ref : ParametersReference) : GatewayClass :=
  mkGatewayClass (mkObjectMeta "kong" "" "" "gwc-uid" 1 ∅ []) "example/operator" (Some ref).

Definition configuredSpec : DeploymentOptions :=
  mkDeploymentOptions (Some 2) (Some "kong:3.1") [mkEnvVar "KONG_DATABASE" "off"] [].

Definition gatewayConfiguration : GatewayConfiguration :=
  mkGatewayConfiguration (mkObjectMeta "gw-config" "" "default" "cfg-uid" 1 ∅ [])
                         (Some configuredSpec) None.

Definition clusterConfigured : Cluster :=
  mkCluster [classWithRef parametersRef] [gatewayConfiguration] [Scenario.gateway]
            [Scenario.dataplane] [] [] [Scenario.service].

(** A cluster in which the Gateway has no child yet. *)
Definition clusterNoChildren : Cluster :=
  mkCluster [Scenario.gatewayClass] [] [Scenario.gateway] [] [] [] [].

(** A twin of the Gateway's DataPlane, and the DataPlane of another Gateway
    of the same namespace. *)
Definition dataplaneTwin : DataPlane :=
  mkDataPlane (mkObjectMeta "gw-dp-twin" "gw-" "default" "dp-twin-uid" 1
                 {[ "gateway-operator-controlled" := "managed-by-gateway" ]}
                 (Scenario.ownedBy "Gateway" "gw" "gw-uid"))
              Scenario.dataplaneSpec [].

Definition dataplaneOfNeighbour : DataPlane :=
  mkDataPlane (mkObjectMeta "neighbour-dp" "neighbour-" "default" "dp-neighbour-uid" 1
                 {[ "gateway-operator-controlled" := "managed-by-gateway" ]}
                 (Scenario.ownedBy "Gateway" "neighbour" "neighbour-uid"))
              Scenario.dataplaneSpec [Scenario.provisionedTrue].

Definition clusterTwoDataPlanes : Cluster :=
  mkCluster [Scenario.gatewayClass] [] [Scenario.gateway]
            [Scenario.dataplane; dataplaneOfNeighbour; dataplaneTwin] [] [] [Scenario.service].

Definition ensureDataPlane (gatewayConfig : GatewayConfiguration) (c : Cluster)
  : result DataPlane * World :=
  ensureDataPlaneForGateway (H := Scenario.consts) (H0 := Scenario.gatewayHelpers)
    Scenario.gateway gatewayConfig (Scenario.world c).

(** Modelled from the spec: the Service generator is not among the sources;
    a generated Service lives in its parent's namespace, has a generated name
    and no ClusterIP yet. *)
Definition dataPlaneServiceGenerators : DataPlaneServiceGenerators := {|
  generateNewServiceForDataplane dp :=
    mkService (generatedMeta (Namespace (dp_meta dp)) (Name (dp_meta dp) +:+ "-")) "" [];
|}.

(** A cluster in which the DataPlane has no child yet. *)
Definition clusterBareDataPlane : Cluster :=
  mkCluster [Scenario.gatewayClass] [] [Scenario.gateway] [Scenario.dataplane] [] [] [].

(** The Gateway before it has been picked up, alone with its class. *)
Definition gatewayUnscheduled : Gateway :=
  mkGateway Scenario.gatewayMeta "kong" (mkGatewayStatus [] []).

Definition clusterUnscheduled : Cluster :=
  mkCluster [Scenario.gatewayClass] [] [gatewayUnscheduled] [] [] [] [].

(** The Deployment of the DataPlane while one of its two replicas is not
    available yet. *)
Definition deploymentRollingOut : Deployment :=
  mkDeployment
    (Scenario.deploymentMeta "gw-dp-deploy" "dpd-uid" "managed-by-dataplane"
                             "DataPlane" "gw-dp" "dp-uid")
    None [mkContainer "proxy" "kong:3" [mkEnvVar "KONG_DATABASE" "off"]]
    (mkDeploymentStatus 2 1).

Definition clusterRollingOut : Cluster :=
  mkCluster [Scenario.gatewayClass] [] [Scenario.gateway] [Scenario.dataplaneNotReady] []
            [deploymentRollingOut] [Scenario.service].

(** Passes of the DataPlane reconciler. *)
Definition passNotReady : (Result * option error) * World :=
  Scenario.reconcileDataPlane None startNotReady.

Definition startNoEnv : World :=
  Scenario.world (Scenario.clusterDataPlane Scenario.dataplaneNoEnv Scenario.service).

Definition defaultsUpdate : result DataPlane * World :=
  Update (setDataPlaneSpec
            (SetDataPlaneDefaults (DataPlaneHelpers := Scenario.dataPlaneHelpers None)
                                  (dp_spec Scenario.dataplaneNoEnv))
            Scenario.dataplaneNoEnv)
         (setTrace ["ensureServiceForDataPlane"] startNoEnv).

(** The metadata of a ClusterRole owned by the ControlPlane, and the world
    in which the watch functions look for its owner. *)
Definition clusterRoleMeta : ObjectMeta :=
  mkObjectMeta "gw-cp-role" "" "" "cr-uid" 1
               {[ "gateway-operator-controlled" := "managed-by-controlplane" ]}
               (Scenario.ownedBy "ControlPlane" "gw-cp" "cp-uid").

Definition startWatch : World :=
  Scenario.world (Scenario.clusterControlPlane Scenario.controlplane (Some 3)).

End Fixtures.


(* ------------------------------------------------------------------------- *)
(** ** The cluster state client: what a call returns and changes              *)
(* ------------------------------------------------------------------------- *)

Lemma apiCall_cases {A} (served : M A) w r w' :
  apiCall served w = (r, w') →
  (∃ e fs, faults w = Some e :: fs ∧ r = Err e ∧ w' = setFaults fs w)
  ∨ (∃ w0, cluster w0 = cluster w ∧ events w0 = events w ∧ trace w0 = trace w
           ∧ clock w0 = clock w ∧ nextID w0 = nextID w
           ∧ faults w0 = tail (faults w)
           ∧ served w0 = (r, w')).
Proof.
  unfold apiCall. destruct (faults w) as [|[e|] fs] eqn:Hf; intros Heq.
  - right. exists w. rewrite Hf. auto 10.
  - left. exists e, fs. inversion Heq. auto.
  - right. exists (setFaults fs w). simpl. auto 10.
Qed.

Lemma apiCall_no_fault {A} (served : M A) w :
  faults w = [] → apiCall served w = served w.
Proof. unfold apiCall. intros ->. done. Qed.

Lemma sameObservables_refl w : sameObservables w w.
Proof. done. Qed.

Lemma sameObservables_trans w1 w2 w3 :
  sameObservables w1 w2 → sameObservables w2 w3 → sameObservables w1 w3.
Proof. unfold sameObservables. intros (?&?&?) (?&?&?). split_and!; congruence. Qed.

Lemma StatusUpdate_cases `{Object K} (o : K) w r w' :
  StatusUpdate o w = (r, w') →
  sameObservables w w' ∧
  ((∃ e, r = Err e ∧ cluster w' = cluster w)
   ∨ (∃ s, find (sameKey o) (items (cluster w)) = Some s
           ∧ r = Ok (withStatus o s)
           ∧ cluster w' =
               setItems (replaceWith (λ s, withStatus o s) o (items (cluster w)))
                        (cluster w))).
Proof.
  unfold StatusUpdate. intros Hc.
  apply apiCall_cases in Hc
    as [(e & fs & _ & -> & ->)|(w0 & Hcl & Hev & Htr & Hck & _ & _ & Hs)].
  - split; [done|]. left. eauto.
  - rewrite Hcl in Hs. destruct (find (sameKey o) (items (cluster w))) as [s|];
      inversion Hs; subst; clear Hs.
    + split; [done|]. right. exists s. done.
    + split; [done|]. left. eauto.
Qed.

Lemma Update_cases `{Object K} (o : K) w r w' :
  Update o w = (r, w') →
  sameObservables w w' ∧
  ((∃ e, r = Err e ∧ cluster w' = cluster w)
   ∨ (∃ s, find (sameKey o) (items (cluster w)) = Some s
           ∧ r = Ok (withStatus s o)
           ∧ cluster w' =
               setItems (replaceWith (λ s, withStatus s o) o (items (cluster w)))
                        (cluster w))).
Proof.
  unfold Update. intros Hc.
  apply apiCall_cases in Hc
    as [(e & fs & _ & -> & ->)|(w0 & Hcl & Hev & Htr & Hck & _ & _ & Hs)].
  - split; [done|]. left. eauto.
  - rewrite Hcl in Hs. destruct (find (sameKey o) (items (cluster w))) as [s|];
      inversion Hs; subst; clear Hs.
    + split; [done|]. right. exists s. done.
    + split; [done|]. left. eauto.
Qed.

Lemma elem_of_replaceWith `{Object K} (f : K → K) (o : K) l x :
  x ∈ replaceWith f o l → x ∈ l ∨ ∃ s, s ∈ l ∧ x = f s.
Proof.
  unfold replaceWith. induction l as [|a l IH]; simpl; intros Hin.
  - inversion Hin.
  - apply elem_of_cons in Hin as [->|Hin].
    + destruct (sameKey o a); [right; exists a|left]; rewrite elem_of_cons; auto.
    + destruct (IH Hin) as [?|(s & ? & ?)]; [left|right; exists s];
        rewrite elem_of_cons; auto.
Qed.

Lemma elem_of_replaceWith_key `{Object K} (f : K → K) (o : K) l x :
  x ∈ replaceWith f o l →
  (x ∈ l ∧ sameKey o x = false) ∨ ∃ s, s ∈ l ∧ sameKey o s = true ∧ x = f s.
Proof.
  unfold replaceWith. induction l as [|a l IH]; simpl; intros Hin.
  - inversion Hin.
  - apply elem_of_cons in Hin as [->|Hin].
    + destruct (sameKey o a) eqn:Ha; [right; exists a|left]; rewrite elem_of_cons; auto.
    + destruct (IH Hin) as [[? ?]|(s & ? & ? & ?)]; [left|right; exists s];
        rewrite elem_of_cons; auto.
Qed.

Lemma List_cases `{Object K} ns key value w r w' :
  List K ns key value w = (r, w') →
  sameObservables w w' ∧ cluster w' = cluster w ∧ nextID w' = nextID w
  ∧ ((∃ e, r = Err e)
     ∨ r = Ok (filter (λ o : K, selected ns key value o) (items (cluster w)))).
Proof.
  unfold List. intros Hc.
  apply apiCall_cases in Hc
    as [(e & fs & _ & -> & ->)|(w0 & Hcl & Hev & Htr & Hck & Hid & _ & Hs)].
  - split_and!; try done. left. eauto.
  - inversion Hs; subst. rewrite Hcl. split_and!; try done. right. done.
Qed.

Lemma find_ext {A} (f g : A → bool) l :
  (∀ x, f x = g x) → find f l = find g l.
Proof. intros Hfg. induction l as [|a l IH]; simpl; [done|]. rewrite Hfg, IH. done. Qed.

Lemma sameKey_of_found `{Object K} (o s : K) :
  sameKey o s = true → ∀ x, sameKey s x = sameKey o x.
Proof.
  unfold sameKey, hasKey. intros Hs x.
  apply andb_true_iff in Hs as [Hns Hn].
  apply bool_decide_eq_true in Hns, Hn. rewrite Hns, Hn. done.
Qed.

Lemma find_replaceWith `{Object K} (f : K → K) (o : K) l s :
  (∀ x, getMeta (f x) = getMeta x) →
  find (sameKey o) l = Some s →
  find (sameKey o) (replaceWith f o l) = Some (f s).
Proof.
  intros Hf. unfold replaceWith. induction l as [|a l IH]; simpl; [discriminate|].
  destruct (sameKey o a) eqn:Ha.
  - intros [= ->]. simpl.
    assert (sameKey o (f s) = true) as ->; [|done].
    unfold sameKey, hasKey in *. rewrite Hf. done.
  - intros Hfind. simpl. rewrite Ha. auto.
Qed.

Lemma StatusUpdate_stored `{Object K} (o : K) w o' w' :
  StatusUpdate o w = (Ok o', w') →
  find (sameKey o') (items (cluster w')) = Some o'
  ∧ ∃ s, find (sameKey o) (items (cluster w)) = Some s ∧ o' = withStatus o s.
Proof.
  intros Hc. apply StatusUpdate_cases in Hc as [_ [(e & [=] & _)|(s & Hfind & [= ->] & Hcl)]].
  split; [|eauto]. rewrite Hcl, items_setItems.
  assert (Hs : sameKey o s = true) by (apply find_some in Hfind; tauto).
  rewrite (find_ext (sameKey (withStatus o s)) (sameKey o)).
  - apply find_replaceWith; [|done]. intros x. apply getMeta_withStatus.
  - intros x. unfold sameKey at 1. rewrite getMeta_withStatus.
    apply (sameKey_of_found o s Hs).
Qed.

Lemma Update_stored `{Object K} (o : K) w o' w' :
  Update o w = (Ok o', w') →
  find (sameKey o') (items (cluster w')) = Some o'
  ∧ ∃ s, find (sameKey o) (items (cluster w)) = Some s ∧ o' = withStatus s o.
Proof.
  intros Hc. apply Update_cases in Hc as [_ [(e & [=] & _)|(s & Hfind & [= ->] & Hcl)]].
  split; [|eauto]. rewrite Hcl, items_setItems.
  assert (Hs : sameKey o s = true) by (apply find_some in Hfind; tauto).
  rewrite (find_ext (sameKey (withStatus s o)) (sameKey o)).
  - unfold replaceWith. clear Hcl. induction (items (cluster w)) as [|a l IH]; simpl in *;
      [discriminate|].
    destruct (sameKey o a) eqn:Ha.
    + injection Hfind as ->. simpl.
      assert (sameKey o (withStatus s o) = true) as ->; [|done].
      unfold sameKey, hasKey. rewrite getMeta_withStatus, !bool_decide_eq_true_2; done.
    + simpl. rewrite Ha. auto.
  - intros x. unfold sameKey at 1. rewrite getMeta_withStatus. done.
Qed.

Lemma DeleteAllOf_cases `{Object K} ns key value w r w' :
  DeleteAllOf K ns key value w = (r, w') →
  sameObservables w w' ∧ nextID w' = nextID w
  ∧ ((∃ e, r = Err e ∧ cluster w' = cluster w)
     ∨ (r = Ok tt
        ∧ cluster w' =
            setItems (filter (λ o : K, negb (selected ns key value o)) (items (cluster w)))
                     (cluster w))).
Proof.
  unfold DeleteAllOf. intros Hc.
  apply apiCall_cases in Hc
    as [(e & fs & _ & -> & ->)|(w0 & Hcl & Hev & Htr & Hck & Hid & _ & Hs)].
  - split_and!; try done. left. eauto.
  - inversion Hs; subst. rewrite Hcl. split_and!; try done. right. done.
Qed.

Lemma Create_cases `{Object K} (o : K) w r w' :
  Create o w = (r, w') →
  sameObservables w w'
  ∧ ((∃ e, r = Err e ∧ cluster w' = cluster w)
     ∨ (∃ o', o' = setMeta (assignIdentity (nextID w) (getMeta o)) o
              ∧ r = Ok o'
              ∧ cluster w' = setItems (items (cluster w) ++ [o']) (cluster w))).
Proof.
  unfold Create. intros Hc.
  apply apiCall_cases in Hc
    as [(e & fs & _ & -> & ->)|(w0 & Hcl & Hev & Htr & Hck & Hid & _ & Hs)].
  - split_and!; try done. left. eauto.
  - inversion Hs; subst. rewrite Hcl, Hid. split_and!; try done. right. eauto.
Qed.

Lemma find_is_Some_elem `{Object K} (o : K) l :
  o ∈ l → is_Some (find (sameKey o) l).
Proof.
  induction l as [|a l IH]; intros Hin; [inversion Hin|]. simpl.
  destruct (sameKey o a) eqn:Ha; [eauto|].
  apply elem_of_cons in Hin as [->|Hin]; [|auto].
  unfold sameKey, hasKey in Ha. rewrite !bool_decide_eq_true_2 in Ha; done.
Qed.

Lemma find_elem_of {A} (f : A → bool) l x : find f l = Some x → x ∈ l.
Proof. intros Hf. apply find_some in Hf as [Hin _]. by apply list_elem_of_In. Qed.

Lemma Update_no_fault `{Object K} (o : K) w :
  faults w = [] → (∃ x, x ∈ items (cluster w) ∧ sameKey o x = true) →
  ∃ o' w', Update o w = (Ok o', w') ∧ faults w' = [].
Proof.
  intros Hf (x & Hx & Hk). unfold Update. rewrite apiCall_no_fault by done.
  destruct (find (sameKey o) (items (cluster w))) as [s|] eqn:Hfind.
  - eauto.
  - exfalso. apply list_elem_of_In in Hx.
    pose proof (find_none _ _ Hfind x Hx). congruence.
Qed.

Lemma Create_no_fault `{Object K} (o : K) w :
  faults w = [] → ∃ o' w', Create o w = (Ok o', w') ∧ faults w' = [].
Proof. intros Hf. unfold Create. rewrite apiCall_no_fault by done. eauto. Qed.

Lemma DeleteAllOf_no_fault `{Object K} ns key value w :
  faults w = [] → ∃ w', DeleteAllOf K ns key value w = (Ok tt, w') ∧ faults w' = [].
Proof. intros Hf. unfold DeleteAllOf. rewrite apiCall_no_fault by done. eauto. Qed.

Lemma EnsureObjectMetaIsUpdated_identity existing generated updated meta :
  EnsureObjectMetaIsUpdated existing generated = (updated, meta) →
  Name meta = Name existing ∧ Namespace meta = Namespace existing
  ∧ (updated = false → meta = existing).
Proof.
  unfold EnsureObjectMetaIsUpdated. simpl.
  repeat case_bool_decide; simpl; intros [= <- <-]; split_and!; try done.
  intros _. destruct existing; simpl in *. unfold SetLabels, SetOwnerReferences; simpl.
  congruence.
Qed.

(** What [EnsureObjectMetaIsUpdated] returns as metadata. *)
Lemma EnsureObjectMetaIsUpdated_meta existing generated :
  (EnsureObjectMetaIsUpdated existing generated).2
  = SetLabels (Labels generated ∪ Labels existing)
              (SetOwnerReferences (OwnerReferences generated) existing).
Proof. unfold EnsureObjectMetaIsUpdated. simpl. by case_match. Qed.

(** The merged metadata keeps the identity of the existing object and is found
    under the namespace, label and owner of the generated one. *)
Lemma merged_meta_owned existing generated ns key value uid :
  InNamespace ns existing = true →
  Labels generated !! key = Some value →
  IsOwnedByRefUID generated uid = true →
  let meta := (EnsureObjectMetaIsUpdated existing generated).2 in
  Name meta = Name existing ∧ Namespace meta = Namespace existing
  ∧ UID meta = UID existing
  ∧ InNamespace ns meta = true ∧ MatchingLabels key value meta = true
  ∧ IsOwnedByRefUID meta uid = true.
Proof.
  intros Hns Hlabel Hown meta. subst meta. rewrite EnsureObjectMetaIsUpdated_meta.
  split_and!; try done.
  unfold MatchingLabels. simpl. apply bool_decide_eq_true.
  by apply lookup_union_Some_l.
Qed.

Lemma setMeta_getMeta_Deployment (d : Deployment) : setMeta (d_meta d) d = d.
Proof. destruct d; done. Qed.

Lemma filter_selected_deleted `{Object K} ns key value (l : list K) :
  filter (λ o : K, selected ns key value o)
         (filter (λ o : K, negb (selected ns key value o)) l) = [].
Proof.
  induction l as [|a l IH]; [done|].
  rewrite (filter_cons (λ o : K, negb (selected ns key value o))).
  destruct (decide (negb (selected ns key value a))) as [Hn|Hn]; [|done].
  rewrite filter_cons. destruct (decide (selected ns key value a)) as [Hs|Hs]; [|done].
  destruct (selected ns key value a); done.
Qed.

Lemma owned_after_recreate `{Object K} ns key value uid (l : list K) (created : K) :
  selected ns key value created = true →
  IsOwnedByRefUID (getMeta created) uid = true →
  filter (λ o : K, IsOwnedByRefUID (getMeta o) uid)
    (filter (λ o : K, selected ns key value o)
       (filter (λ o : K, negb (selected ns key value o)) l ++ [created])) = [created].
Proof.
  intros Hsel Hown.
  rewrite filter_app, filter_selected_deleted. simpl.
  rewrite filter_cons, decide_True by (rewrite Hsel; done).
  rewrite filter_nil, filter_cons, decide_True by (rewrite Hown; done).
  rewrite filter_nil. done.
Qed.

Lemma Get_cases `{Object K} ns name w r w' :
  Get K ns name w = (r, w') →
  sameObservables w w' ∧ cluster w' = cluster w ∧ nextID w' = nextID w
  ∧ ((∃ e, r = Err e)
     ∨ (∃ o, r = Ok o ∧ find (hasKey ns name) (items (cluster w)) = Some o)).
Proof.
  unfold Get. intros Hc.
  apply apiCall_cases in Hc
    as [(e & fs & _ & -> & ->)|(w0 & Hcl & Hev & Htr & Hck & Hid & _ & Hs)].
  - split_and!; try done. left. eauto.
  - rewrite Hcl in Hs. destruct (find _ _) as [o|] eqn:Hfind; inversion Hs; subst;
      split_and!; try done; [right|left]; eauto.
Qed.

Lemma Get_no_fault `{Object K} ns name w :
  faults w = [] →
  Get K ns name w =
    (match find (hasKey ns name) (items (cluster w)) with
     | Some o => Ok o
     | None => Err (notFound name)
     end, w).
Proof.
  intros Hf. unfold Get. rewrite apiCall_no_fault by done.
  destruct (find _ _); done.
Qed.

Lemma gatewaysUntouched_refl w : gatewaysUntouched w w.
Proof. done. Qed.

Lemma gatewaysUntouched_trans w1 w2 w3 :
  gatewaysUntouched w1 w2 → gatewaysUntouched w2 w3 → gatewaysUntouched w1 w3.
Proof. unfold gatewaysUntouched. intros [? ?] [? ?]. split; congruence. Qed.

Lemma same_cluster_untouched w w' :
  sameObservables w w' → cluster w' = cluster w → gatewaysUntouched w w'.
Proof. intros (Hev & _) Hcl. split; [by rewrite Hcl | done]. Qed.

(* ------------------------------------------------------------------------- *)
(** ** Condition lists of the DataPlane                                       *)
(* ------------------------------------------------------------------------- *)

Lemma hasConditionType_elem t cs :
  hasConditionType t cs = true ↔ t ∈ map c_Type cs.
Proof.
  induction cs as [|c cs IH]; simpl.
  - split; [discriminate | intros Hin; inversion Hin].
  - rewrite orb_true_iff, IH, bool_decide_eq_true, elem_of_cons.
    split; (intros [Hc|Hc]; [left|right]); congruence.
Qed.

Lemma hasConditionType_types t cs cs' :
  map c_Type cs' = map c_Type cs → hasConditionType t cs' = hasConditionType t cs.
Proof.
  revert cs. induction cs' as [|c' cs' IH]; intros [|c cs]; simpl; try discriminate; auto.
  intros [= Hc Hrest]. rewrite Hc, (IH _ Hrest). done.
Qed.

Lemma condsUnique_snoc cs c :
  condsUnique cs → hasConditionType (c_Type c) cs = false →
  condsUnique (cs ++ [c]).
Proof.
  unfold condsUnique. intros Hnd Hno. rewrite List.map_app. simpl.
  apply NoDup_app. split; [done|]. split; [|apply NoDup_singleton].
  intros x Hx Hx'. apply list_elem_of_singleton in Hx'. subst x.
  apply hasConditionType_elem in Hx. congruence.
Qed.

Lemma markNotProvisionedLoop_spec np cs :
  c_Type np = DataPlaneConditionTypeProvisioned →
  ∀ found upd cs', markNotProvisionedLoop np cs = (found, upd, cs') →
    map c_Type cs' = map c_Type cs
    ∧ found = hasConditionType DataPlaneConditionTypeProvisioned cs
    ∧ length cs' = length cs.
Proof.
  intros Hnp. induction cs as [|c cs IH]; simpl; intros found upd cs' Heq.
  - inversion Heq; subst. done.
  - destruct (markNotProvisionedLoop np cs) as [[f u] r].
    destruct (IH f u r eq_refl) as (Hty & Hf & Hlen).
    case_bool_decide as Hc.
    + destruct (negb (isSameDataPlaneCondition np c)); inversion Heq; subst; simpl;
        rewrite ?Hnp, ?Hc, Hty, Hlen; done.
    + inversion Heq; subst; simpl. rewrite Hty, Hlen. done.
Qed.

Lemma StatusUpdate_DataPlane_conditions (o : DataPlane) w r w' :
  StatusUpdate o w = (r, w') →
  (∀ d, d ∈ dataPlanes (cluster w') →
        d ∈ dataPlanes (cluster w) ∨ dp_Conditions d = dp_Conditions o)
  ∧ (∀ o', r = Ok o' → dp_Conditions o' = dp_Conditions o).
Proof.
  intros Hc. apply StatusUpdate_cases in Hc as [_ [(e & -> & Hcl)|(s & _ & -> & Hcl)]].
  - rewrite Hcl. split; [auto | discriminate].
  - rewrite Hcl. simpl. split.
    + intros d Hd. apply elem_of_replaceWith in Hd as [?|(s' & _ & ->)]; auto.
    + intros o' Ho. inversion Ho. done.
Qed.

(** C7. Every condition-writing operation of the DataPlane status helpers
    keeps at most one entry per condition type, in the object at hand and in
    the store: marking scheduled appends the Provisioned condition only when
    no entry of that type exists (otherwise it returns the DataPlane as it is
    and writes nothing); marking not-provisioned keeps the sequence of types
    when a Provisioned entry exists, so the entry is replaced in place and
    nothing is appended; marking provisioned keeps the sequence of types. *)
Theorem C7_conditions_unique_per_type (dataplane : DataPlane) (reason message : string)
    (w : World) :
  condsUnique (dp_Conditions dataplane) →
  storedConditionsUnique w →
  (∀ r w',
     DataPlaneUtils.ensureDataPlaneIsMarkedScheduled dataplane w = (r, w') →
     storedConditionsUnique w'
     ∧ (hasConditionType DataPlaneConditionTypeProvisioned (dp_Conditions dataplane)
        = true →
        r = Ok (false, dataplane) ∧ w' = w)
     ∧ ∀ marked dataplane', r = Ok (marked, dataplane') →
         condsUnique (dp_Conditions dataplane'))
  ∧ (∀ r w',
       DataPlaneUtils.ensureDataPlaneIsMarkedNotProvisioned dataplane reason message w
         = (r, w') →
       storedConditionsUnique w'
       ∧ ∀ dataplane', r = Ok dataplane' →
           condsUnique (dp_Conditions dataplane')
           ∧ (hasConditionType DataPlaneConditionTypeProvisioned (dp_Conditions dataplane)
              = true →
              map c_Type (dp_Conditions dataplane') = map c_Type (dp_Conditions dataplane)))
  ∧ (∀ r w',
       DataPlaneUtils.ensureDataPlaneIsMarkedProvisioned dataplane w = (r, w') →
       storedConditionsUnique w'
       ∧ ∀ dataplane', r = Ok dataplane' →
           map c_Type (dp_Conditions dataplane') = map c_Type (dp_Conditions dataplane)).
Proof.
  intros Hu Hst. split_and!.
  - intros r w'. unfold DataPlaneUtils.ensureDataPlaneIsMarkedScheduled.
    fold (hasConditionType DataPlaneConditionTypeProvisioned (dp_Conditions dataplane)).
    destruct (hasConditionType _ _) eqn:Hhas; simpl.
    + unfold ret. intros [= <- <-]. split_and!; [done|done|].
      intros ?? [= <- <-]. done.
    + unfold bind, Now, ret.
      set (dp1 := setDataPlaneConditions _ dataplane).
      assert (Hu1 : condsUnique (dp_Conditions dp1)).
      { apply condsUnique_snoc; done. }
      destruct (StatusUpdate dp1 w) as [[o'|e] w1] eqn:Hupd; intros [= <- <-];
        apply StatusUpdate_DataPlane_conditions in Hupd as [Hst' Ho'].
      * split_and!; [|discriminate|].
        -- intros d Hd. destruct (Hst' d Hd) as [? | ->]; auto.
        -- intros ?? [= <- <-]. rewrite (Ho' _ eq_refl). done.
      * split_and!; [|discriminate|discriminate].
        intros d Hd. destruct (Hst' d Hd) as [? | ->]; auto.
  - intros r w'. unfold DataPlaneUtils.ensureDataPlaneIsMarkedNotProvisioned, bind, Now.
    set (np := mkCondition _ _ _ _ _ _).
    destruct (markNotProvisionedLoop np (dp_Conditions dataplane)) as [[found upd] cs'] eqn:Hloop.
    apply markNotProvisionedLoop_spec in Hloop as (Hty & Hfound & _); [|done].
    set (res := if negb found then _ else _).
    assert (Hres : condsUnique res.2 ∧
              (found = true → map c_Type res.2 = map c_Type (dp_Conditions dataplane))).
    { subst res. destruct found; simpl.
      - unfold condsUnique. rewrite Hty. done.
      - split; [|discriminate]. apply condsUnique_snoc.
        + unfold condsUnique. rewrite Hty. done.
        + simpl.
          rewrite Hfound. apply (hasConditionType_types _ _ _ Hty). }
    destruct Hres as [Hu1 Hkeep].
    destruct res as [upd' conds']. simpl in *.
    destruct upd'.
    + destruct (StatusUpdate _ w) as [[o'|e] w1] eqn:Hupd; intros [= <- <-];
        apply StatusUpdate_DataPlane_conditions in Hupd as [Hst' Ho']; simpl in *.
      * split.
        -- intros d Hd. destruct (Hst' d Hd) as [? | ->]; auto.
        -- intros ? [= <-]. rewrite (Ho' _ eq_refl). split; [done|].
           intros Hhas. apply Hkeep. congruence.
      * split; [|discriminate].
        intros d Hd. destruct (Hst' d Hd) as [? | ->]; auto.
    + unfold ret. intros [= <- <-]. split; [done|].
      intros ? [= <-]. simpl. split; [done|]. intros Hhas. apply Hkeep. congruence.
  - intros r w'. unfold DataPlaneUtils.ensureDataPlaneIsMarkedProvisioned, bind, Now.
    set (cs' := map _ (dp_Conditions dataplane)).
    assert (Hty : map c_Type cs' = map c_Type (dp_Conditions dataplane)).
    { subst cs'. rewrite List.map_map. apply List.map_ext. intros c.
      case_bool_decide; done. }
    intros Hupd. apply StatusUpdate_DataPlane_conditions in Hupd as [Hst' Ho']; simpl in *.
    split.
    + intros d Hd. destruct (Hst' d Hd) as [? | ->]; auto.
      unfold condsUnique. rewrite Hty. done.
    + intros ? ->. rewrite (Ho' _ eq_refl). done.
Qed.

(** The three writers on the DataPlane of the scenario. *)
Lemma C7_witness :
  condsUnique (dp_Conditions Scenario.dataplane)
  ∧ storedConditionsUnique Scenario.start
  ∧ (∀ r w',
       DataPlaneUtils.ensureDataPlaneIsMarkedScheduled Scenario.dataplane Scenario.start
         = (r, w') →
       storedConditionsUnique w'
       ∧ (hasConditionType DataPlaneConditionTypeProvisioned
                           (dp_Conditions Scenario.dataplane) = true →
          r = Ok (false, Scenario.dataplane) ∧ w' = Scenario.start)
       ∧ ∀ marked dataplane', r = Ok (marked, dataplane') →
           condsUnique (dp_Conditions dataplane'))
  ∧ (∀ r w',
       DataPlaneUtils.ensureDataPlaneIsMarkedNotProvisioned Scenario.dataplane
         "ValidationFailed" "image is not supported" Scenario.start = (r, w') →
       storedConditionsUnique w'
       ∧ ∀ dataplane', r = Ok dataplane' →
           condsUnique (dp_Conditions dataplane')
           ∧ (hasConditionType DataPlaneConditionTypeProvisioned
                               (dp_Conditions Scenario.dataplane) = true →
              map c_Type (dp_Conditions dataplane')
              = map c_Type (dp_Conditions Scenario.dataplane)))
  ∧ (∀ r w',
       DataPlaneUtils.ensureDataPlaneIsMarkedProvisioned Scenario.dataplane Scenario.start
         = (r, w') →
       storedConditionsUnique w'
       ∧ ∀ dataplane', r = Ok dataplane' →
           map c_Type (dp_Conditions dataplane')
           = map c_Type (dp_Conditions Scenario.dataplane)).
Proof.
  assert (Hu : condsUnique (dp_Conditions Scenario.dataplane)).
  { unfold condsUnique. simpl. apply NoDup_singleton. }
  assert (Hst : storedConditionsUnique Scenario.start).
  { intros d Hd. simpl in Hd. apply list_elem_of_singleton in Hd. subst d. exact Hu. }
  split; [exact Hu|]. split; [exact Hst|].
  exact (C7_conditions_unique_per_type Scenario.dataplane "ValidationFailed"
           "image is not supported" _ Hu Hst).
Defined.

Lemma call_trace {A} name (m : M A) w r w' :
  call name m w = (r, w') → trace w' = trace w ++ [name].
Proof. unfold call. destruct (m w) as [r0 w0]. intros [= <- <-]. done. Qed.

Lemma isSameDataPlaneCondition_true c1 c2 :
  isSameDataPlaneCondition c1 c2 = true →
  c_Type c2 = c_Type c1 ∧ c_Status c2 = c_Status c1
  ∧ c_Reason c2 = c_Reason c1 ∧ c_Message c2 = c_Message c1.
Proof.
  unfold isSameDataPlaneCondition. rewrite !andb_true_iff, !bool_decide_eq_true.
  intros [[[? ?] ?] ?]. done.
Qed.

Lemma markNotProvisionedLoop_marks np cs found upd cs' :
  c_Type np = DataPlaneConditionTypeProvisioned →
  markNotProvisionedLoop np cs = (found, upd, cs') →
  (∀ c, c ∈ cs' → c_Type c = DataPlaneConditionTypeProvisioned →
        c_Status c = c_Status np ∧ c_Reason c = c_Reason np ∧ c_Message c = c_Message np)
  ∧ (upd = false → cs' = cs).
Proof.
  intros Hnp. revert found upd cs'.
  induction cs as [|c cs IH]; simpl; intros found upd cs' Heq.
  - inversion Heq; subst. split; [|done]. intros c Hc. inversion Hc.
  - destruct (markNotProvisionedLoop np cs) as [[f u] r].
    destruct (IH f u r eq_refl) as (Hall & Hsame).
    case_bool_decide as Hc.
    + destruct (isSameDataPlaneCondition np c) eqn:Hs; simpl in Heq;
        inversion Heq; subst; clear Heq.
      * apply isSameDataPlaneCondition_true in Hs as (_ & ? & ? & ?). split.
        -- intros c' Hc'. apply elem_of_cons in Hc' as [-> | Hc']; [done | auto].
        -- intros Hu. rewrite (Hsame Hu). done.
      * split; [|discriminate].
        intros c' Hc'. apply elem_of_cons in Hc' as [-> | Hc']; [done | auto].
    + inversion Heq; subst; clear Heq. split.
      * intros c' Hc'. apply elem_of_cons in Hc' as [-> | Hc']; [done | auto].
      * intros Hu. rewrite (Hsame Hu). done.
Qed.

Lemma hasConditionType_app t cs1 cs2 :
  hasConditionType t (cs1 ++ cs2) = hasConditionType t cs1 || hasConditionType t cs2.
Proof. unfold hasConditionType. apply existsb_app. Qed.

Lemma setDataPlaneConditions_same dp : setDataPlaneConditions (dp_Conditions dp) dp = dp.
Proof. destruct dp; done. Qed.

Lemma ensureDataPlaneIsMarkedNotProvisioned_spec dataplane reason message w r w' :
  DataPlaneUtils.ensureDataPlaneIsMarkedNotProvisioned dataplane reason message w = (r, w') →
  sameObservables w w'
  ∧ deployments (cluster w') = deployments (cluster w)
  ∧ services (cluster w') = services (cluster w)
  ∧ ∀ dataplane', r = Ok dataplane' →
      markedNotProvisioned reason message (dp_Conditions dataplane')
      ∧ (dataplane' = dataplane
         ∨ find (sameKey dataplane') (dataPlanes (cluster w')) = Some dataplane').
Proof.
  unfold DataPlaneUtils.ensureDataPlaneIsMarkedNotProvisioned, bind, Now.
  set (np := mkCondition _ _ _ _ _ _).
  destruct (markNotProvisionedLoop np (dp_Conditions dataplane)) as [[found upd] cs'] eqn:Hloop.
  pose proof (markNotProvisionedLoop_spec np _ eq_refl _ _ _ Hloop) as (Hty & Hfound & _).
  pose proof (markNotProvisionedLoop_marks np _ _ _ _ eq_refl Hloop) as (Hall & Hsame).
  assert (Hmarked : ∀ cs,
            cs = (if negb found then (true, cs' ++ [np]) else (upd, cs')).2 →
            markedNotProvisioned reason message cs).
  { intros cs ->. destruct found; simpl.
    - split.
      + rewrite (hasConditionType_types _ _ _ Hty). done.
      + intros c Hc Ht. apply (Hall c Hc Ht).
    - split.
      + rewrite hasConditionType_app. simpl. rewrite orb_true_r. done.
      + intros c Hc Ht. apply elem_of_app in Hc as [Hc|Hc].
        * apply (Hall c Hc Ht).
        * apply list_elem_of_singleton in Hc. subst c. done. }
  destruct found; simpl in *.
  - destruct upd.
    + intros Hup. pose proof Hup as Hup'.
      apply StatusUpdate_cases in Hup' as (Hobs & [(e & -> & Hcl)|(s & _ & -> & Hcl)]).
      * rewrite Hcl. do 3 (split; [done|]). intros dp' [=].
      * split; [done|]. split; [by rewrite Hcl|]. split; [by rewrite Hcl|].
        intros dp' [= <-]. apply StatusUpdate_stored in Hup as (Hst & _).
        split; [by apply Hmarked | by right].
    + unfold ret. intros [= <- <-]. do 3 (split; [done|]).
      intros dp' [= <-]. split; [by apply Hmarked|]. left.
      rewrite (Hsame eq_refl). apply setDataPlaneConditions_same.
  - intros Hup. pose proof Hup as Hup'.
    apply StatusUpdate_cases in Hup' as (Hobs & [(e & -> & Hcl)|(s & _ & -> & Hcl)]).
    + rewrite Hcl. do 3 (split; [done|]). intros dp' [=].
    + split; [done|]. split; [by rewrite Hcl|]. split; [by rewrite Hcl|].
      intros dp' [= <-]. apply StatusUpdate_stored in Hup as (Hst & _).
      split; [by apply Hmarked | by right].
Qed.

(* ------------------------------------------------------------------------- *)
(** ** Marking the Gateway ready                                              *)
(* ------------------------------------------------------------------------- *)

Section GatewayReady.
Context `{Consts} `{GatewayHelpers}.

Lemma ListServicesForOwner_cases dataplane w r w' :
  ListServicesForOwner GatewayOperatorControlledLabel DataPlaneManagedLabelValue
    (Namespace (dp_meta dataplane)) (UID (dp_meta dataplane)) w = (r, w') →
  sameObservables w w' ∧ cluster w' = cluster w ∧ nextID w' = nextID w
  ∧ ((∃ e, r = Err e) ∨ r = Ok (ownedServices dataplane (cluster w))).
Proof.
  unfold ListServicesForOwner, bind.
  destruct (List Service _ _ _ w) as [[l|e] w1] eqn:Hl;
    apply List_cases in Hl as (Hobs & Hcl & Hid & Hr); intros [= <- <-].
  - destruct Hr as [(e & [=])|[= ->]]. split_and!; try done. right. done.
  - split_and!; try done. left. eauto.
Qed.

Lemma ensureGatewayMarkedReady_marks gateway dataplane w gateway' w' :
  IsGatewayReady gateway = false →
  ensureGatewayMarkedReady gateway dataplane w = (Ok gateway', w') →
  ∃ svc pruned,
    ownedServices dataplane (cluster w) = [svc]
    ∧ svc_ClusterIP svc ≠ ""
    ∧ pruned = PruneGatewayStatusConds
                 (setGatewayAddresses (gatewayAddressesOf svc) gateway)
    ∧ gw_status gateway' =
        mkGatewayStatus [readyCondition (Generation (gw_meta pruned)) (clock w)]
                        (gws_Addresses (gw_status pruned))
    ∧ find (sameKey gateway') (gateways (cluster w')) = Some gateway'.
Proof.
  intros Hnot. unfold ensureGatewayMarkedReady. rewrite Hnot. simpl.
  unfold bind at 1.
  destruct (ListServicesForOwner _ _ _ _ w) as [[l|e] w1] eqn:Hl; [|discriminate].
  apply ListServicesForOwner_cases in Hl as ((_ & _ & Hck) & Hcl & _ & Hr).
  destruct Hr as [(e & [=])|[= ->]].
  destruct (ownedServices dataplane (cluster w)) as [|svc [|svc2 rest]] eqn:Hown; simpl;
    [discriminate| |discriminate].
  case_bool_decide as Hip; [discriminate|].
  unfold bind, Now. intros Hupd.
  apply StatusUpdate_stored in Hupd as [Hstored (s & _ & ->)].
  exists svc, (PruneGatewayStatusConds (setGatewayAddresses (gatewayAddressesOf svc) gateway)).
  split_and!; try done. simpl. rewrite Hck. done.
Qed.

(** C10. When [ensureGatewayMarkedReady] marks a Gateway ready, the status it
  writes has a condition list of exactly one entry, Ready/True: no other
  entry, the Scheduled condition included, is left, and this is the status
  the store holds afterwards. *)
Theorem C10_ready_replaces_all_conditions gateway dataplane w gateway' w' :
  IsGatewayReady gateway = false →
  ensureGatewayMarkedReady gateway dataplane w = (Ok gateway', w') →
  (∃ generation,
     gws_Conditions (gw_status gateway') = [readyCondition generation (clock w)])
  ∧ length (gws_Conditions (gw_status gateway')) = 1%nat
  ∧ hasConditionType GatewayConditionScheduled
                     (gws_Conditions (gw_status gateway')) = false
  ∧ find (sameKey gateway') (gateways (cluster w')) = Some gateway'.
Proof.
  intros Hnot Hrun.
  destruct (ensureGatewayMarkedReady_marks _ _ _ _ _ Hnot Hrun)
    as (svc & pruned & _ & _ & _ & Hst & Hstored).
  rewrite Hst. simpl. split_and!; eauto.
Qed.

(** C6, amended. When [ensureGatewayMarkedReady] marks a Gateway ready (and
  the pruning of conditions leaves the addresses alone), status.addresses
  is derived from the one Service of the DataPlane: the IP of its first
  load-balancer ingress, if it has one, comes first and the ClusterIP
  follows; without a load-balancer ingress the ClusterIP is the only
  address. *)
Theorem C6_addresses_lb_then_clusterip gateway dataplane w gateway' w' :
  (∀ g, gws_Addresses (gw_status (PruneGatewayStatusConds g))
        = gws_Addresses (gw_status g)) →
  IsGatewayReady gateway = false →
  ensureGatewayMarkedReady gateway dataplane w = (Ok gateway', w') →
  ∃ svc,
    ownedServices dataplane (cluster w) = [svc]
    ∧ gws_Addresses (gw_status gateway') =
        match svc_Ingress svc with
        | ingress :: _ => [ipAddress (lbi_IP ingress); ipAddress (svc_ClusterIP svc)]
        | [] => [ipAddress (svc_ClusterIP svc)]
        end.
Proof.
  intros Hprune Hnot Hrun.
  destruct (ensureGatewayMarkedReady_marks _ _ _ _ _ Hnot Hrun)
    as (svc & pruned & Hown & _ & -> & Hst & _).
  exists svc. split; [done|]. rewrite Hst. simpl. rewrite Hprune. simpl.
  unfold gatewayAddressesOf. destruct (svc_Ingress svc); done.
Qed.

End GatewayReady.

(** Marking the scenario's Gateway ready: its Scheduled condition is gone. *)
Lemma C10_witness :
  IsGatewayReady (GatewayHelpers := Scenario.gatewayHelpers) Scenario.gateway = false
  ∧ Scenario.markReady Scenario.service
    = (Ok (Scenario.markedGateway Scenario.service), (Scenario.markReady Scenario.service).2)
  ∧ (∃ generation,
       gws_Conditions (gw_status (Scenario.markedGateway Scenario.service))
       = [readyCondition generation 100])
  ∧ length (gws_Conditions (gw_status (Scenario.markedGateway Scenario.service))) = 1%nat
  ∧ hasConditionType GatewayConditionScheduled
      (gws_Conditions (gw_status (Scenario.markedGateway Scenario.service))) = false
  ∧ find (sameKey (Scenario.markedGateway Scenario.service))
         (gateways (cluster (Scenario.markReady Scenario.service).2))
    = Some (Scenario.markedGateway Scenario.service).
Proof.
  assert (Hnot : IsGatewayReady (GatewayHelpers := Scenario.gatewayHelpers)
                                Scenario.gateway = false) by (vm_compute; reflexivity).
  assert (Hrun : Scenario.markReady Scenario.service
                 = (Ok (Scenario.markedGateway Scenario.service),
                    (Scenario.markReady Scenario.service).2))
    by (vm_compute; reflexivity).
  split; [exact Hnot|]. split; [exact Hrun|].
  exact (C10_ready_replaces_all_conditions (H := Scenario.consts) _ _ _ _ _ Hnot Hrun).
Defined.

(** C6 as the specification words it fails on a Service with a load-balancer
    address: the Gateway gets both addresses. *)
Lemma C6_counterexample :
  Scenario.markReady Scenario.serviceLB
    = (Ok (Scenario.markedGateway Scenario.serviceLB),
       (Scenario.markReady Scenario.serviceLB).2)
  ∧ gws_Addresses (gw_status (Scenario.markedGateway Scenario.serviceLB))
    = [ipAddress "203.0.113.7"; ipAddress "10.0.0.1"]
  ∧ ¬ addressesFromOneSource Scenario.serviceLB
        (gws_Addresses (gw_status (Scenario.markedGateway Scenario.serviceLB))).
Proof.
  split_and!; [vm_compute; reflexivity | vm_compute; reflexivity |].
  vm_compute. discriminate.
Qed.

(** The same Service through the theorem. *)
Lemma C6_witness :
  (∀ g, gws_Addresses (gw_status (PruneGatewayStatusConds
                                    (GatewayHelpers := Scenario.gatewayHelpers) g))
        = gws_Addresses (gw_status g))
  ∧ IsGatewayReady (GatewayHelpers := Scenario.gatewayHelpers) Scenario.gateway = false
  ∧ Scenario.markReady Scenario.serviceLB
    = (Ok (Scenario.markedGateway Scenario.serviceLB),
       (Scenario.markReady Scenario.serviceLB).2)
  ∧ ∃ svc,
      ownedServices (H := Scenario.consts) Scenario.dataplane
                    (Scenario.clusterWith Scenario.serviceLB) = [svc]
      ∧ gws_Addresses (gw_status (Scenario.markedGateway Scenario.serviceLB)) =
          match svc_Ingress svc with
          | ingress :: _ => [ipAddress (lbi_IP ingress); ipAddress (svc_ClusterIP svc)]
          | [] => [ipAddress (svc_ClusterIP svc)]
          end.
Proof.
  assert (Hprune : ∀ g, gws_Addresses (gw_status (PruneGatewayStatusConds
                                    (GatewayHelpers := Scenario.gatewayHelpers) g))
                        = gws_Addresses (gw_status g)) by reflexivity.
  assert (Hnot : IsGatewayReady (GatewayHelpers := Scenario.gatewayHelpers)
                                Scenario.gateway = false) by (vm_compute; reflexivity).
  assert (Hrun : Scenario.markReady Scenario.serviceLB
                 = (Ok (Scenario.markedGateway Scenario.serviceLB),
                    (Scenario.markReady Scenario.serviceLB).2))
    by (vm_compute; reflexivity).
  split; [exact Hprune|]. split; [exact Hnot|]. split; [exact Hrun|].
  exact (C6_addresses_lb_then_clusterip (H := Scenario.consts) _ _ _ _ _ Hprune Hnot Hrun).
Defined.

(* ------------------------------------------------------------------------- *)
(** ** Owned Deployments                                                      *)
(* ------------------------------------------------------------------------- *)

Section OwnedDeployments.
Context `{Consts}.

Lemma ListDeploymentsForOwner_cases value namespace uid w r w' :
  ListDeploymentsForOwner GatewayOperatorControlledLabel value namespace uid w = (r, w') →
  sameObservables w w' ∧ cluster w' = cluster w ∧ nextID w' = nextID w
  ∧ (faults w = [] → faults w' = [])
  ∧ ((∃ e, r = Err e ∧ faults w ≠ [])
     ∨ r = Ok (ownedDeployments value namespace uid (cluster w))).
Proof.
  unfold ListDeploymentsForOwner, bind, List, apiCall.
  destruct (faults w) as [|[e|] fs] eqn:Hf; simpl; intros [= <- <-]; simpl;
    split_and!; try done; try (right; done).
  left. eauto.
Qed.

Lemma ownedDeployments_elem value namespace uid c d :
  d ∈ ownedDeployments value namespace uid c → d ∈ deployments c.
Proof.
  unfold ownedDeployments. rewrite !list_elem_of_filter. tauto.
Qed.

(** An update of the one owned Deployment, under its own key, leaves the owner
    with Deployments that are the updated one up to their status, and adds or
    removes none. *)
Lemma Update_in_place (target existing : Deployment) value ns uid w1 o' w2 :
  ownedDeployments value ns uid (cluster w1) = [existing] →
  Name (d_meta target) = Name (d_meta existing) →
  Namespace (d_meta target) = Namespace (d_meta existing) →
  selected ns GatewayOperatorControlledLabel value target = true →
  IsOwnedByRefUID (d_meta target) uid = true →
  Update target w1 = (Ok o', w2) →
  d_meta o' = d_meta target ∧ d_Replicas o' = d_Replicas target
  ∧ d_Containers o' = d_Containers target
  ∧ o' ∈ ownedDeployments value ns uid (cluster w2)
  ∧ length (deployments (cluster w2)) = length (deployments (cluster w1))
  ∧ ∀ d, d ∈ ownedDeployments value ns uid (cluster w2) →
      d_meta d = d_meta o' ∧ d_Replicas d = d_Replicas o'
      ∧ d_Containers d = d_Containers o'.
Proof.
  intros Howned Hname Hns Hsel Hown Hup.
  pose proof (Update_stored _ _ _ _ Hup) as [Hst _].
  apply Update_cases in Hup as [_ [(e & [=] & _)|(s & Hfind & Ho & Hcl)]].
  injection Ho as ->.
  assert (Hkey : sameKey target existing = true).
  { unfold sameKey, hasKey. simpl. rewrite Hname, Hns, !bool_decide_eq_true_2; done. }
  split_and!; try done.
  - unfold ownedDeployments. rewrite !list_elem_of_filter. split_and!.
    + change (Is_true (IsOwnedByRefUID (d_meta target) uid)). by rewrite Hown.
    + change (Is_true (selected ns GatewayOperatorControlledLabel value target)).
      by rewrite Hsel.
    + by apply find_elem_of in Hst.
  - rewrite Hcl. simpl. unfold replaceWith. by rewrite length_map.
  - intros d. rewrite Hcl. unfold ownedDeployments. simpl.
    rewrite !list_elem_of_filter. intros (Hd1 & Hd2 & Hd).
    apply elem_of_replaceWith_key in Hd as [[Hin Hk]|(x & _ & _ & ->)]; [|done].
    exfalso. assert (Hd' : d ∈ ownedDeployments value ns uid (cluster w1)).
    { unfold ownedDeployments. rewrite !list_elem_of_filter. done. }
    rewrite Howned in Hd'. apply list_elem_of_singleton in Hd'. subst d. congruence.
Qed.

Section ControlPlaneDeployment.
Context `{ControlPlaneGenerators}.

(** The replicas of the Deployment [ensureDeploymentForControlPlane] returns:
    zero without a DataPlane reference, unset once the reference is set on a
    Deployment of zero replicas; the Deployment is in the store, and the call
    succeeds when the API calls are served. *)
Lemma ensureDeploymentForControlPlane_replicas controlplane serviceAccountName w :
  (dataplaneIsSet controlplane = false →
 (∀ changed deployment w',
    ensureDeploymentForControlPlane controlplane serviceAccountName w
      = (Ok (changed, deployment), w') →
    d_Replicas deployment = Some 0 ∧ deployment ∈ deployments (cluster w'))
 ∧ (faults w = [] →
    ∃ changed deployment w',
      ensureDeploymentForControlPlane controlplane serviceAccountName w
        = (Ok (changed, deployment), w')))
  ∧ (dataplaneIsSet controlplane = true →
 ∀ existing,
   ownedDeployments ControlPlaneManagedLabelValue (Namespace (cp_meta controlplane))
                    (UID (cp_meta controlplane)) (cluster w) = [existing] →
   d_Replicas existing = Some 0 →
   (∀ changed deployment w',
      ensureDeploymentForControlPlane controlplane serviceAccountName w
        = (Ok (changed, deployment), w') →
      changed = true ∧ d_Replicas deployment = None
      ∧ deployment ∈ deployments (cluster w'))
   ∧ (faults w = [] → d_Containers existing ≠ [] →
      ∃ deployment w',
        ensureDeploymentForControlPlane controlplane serviceAccountName w
          = (Ok (true, deployment), w'))).
Proof.
    split.
    - intros Hunset. split.
  + intros changed deployment w'. unfold ensureDeploymentForControlPlane.
    rewrite Hunset. simpl. unfold bind at 1.
    destruct (ListDeploymentsForOwner _ _ _ _ w) as [[l|e] w1] eqn:Hl; [|discriminate].
    apply ListDeploymentsForOwner_cases in Hl as (_ & Hcl & _ & _ & [(e & [=] & _)|[= ->]]).
    set (owned := ownedDeployments _ _ _ _) in *.
    assert (Howned : ∀ d, d ∈ owned → d ∈ deployments (cluster w1)).
    { intros d Hd. rewrite Hcl. by eapply ownedDeployments_elem. }
    clearbody owned.
    destruct owned as [|existing [|second rest]]; simpl.
    * unfold bind, ret.
      destruct (Create _ w1) as [[o'|e] w2] eqn:Hcr; [|discriminate].
      apply Create_cases in Hcr as (_ & [(e & [=] & _)|(o'' & -> & [= ->] & Hcl2)]).
      intros [= <- <- <-]. split; [done|].
      rewrite Hcl2. simpl. apply elem_of_app. right. apply list_elem_of_singleton. done.
    * destruct (EnsureObjectMetaIsUpdated _ _) as [updated meta] eqn:Hmeta.
      apply EnsureObjectMetaIsUpdated_identity in Hmeta as (_ & _ & Hsame).
      simpl. unfold bind at 1.
      destruct (d_Replicas existing) as [n|] eqn:Hrep; simpl.
      -- destruct (n =? numReplicasWhenNoDataplane) eqn:Hn; simpl.
         ++ apply Z.eqb_eq in Hn. subst n. unfold ret at 1.
            destruct updated.
            ** unfold bind, ret.
               destruct (Update _ w1) as [[o'|e] w2] eqn:Hup; [|discriminate].
               apply Update_stored in Hup as (Hst & s & _ & ->).
               intros [= <- <- <-]. split; [done|].
               by apply find_elem_of in Hst.
            ** unfold ret. intros [= <- <- <-]. simpl. split; [done|].
               rewrite (Hsame eq_refl), <- Hrep.
               replace (mkDeployment (d_meta existing) (d_Replicas existing)
                          (d_Containers existing) (d_status existing)) with existing
                 by (destruct existing; done).
               apply Howned. apply elem_of_cons. auto.
         ++ unfold ret at 1. unfold bind, ret.
            destruct (Update _ w1) as [[o'|e] w2] eqn:Hup; [|discriminate].
            apply Update_stored in Hup as (Hst & s & _ & ->).
            intros [= <- <- <-]. split; [done|].
            by apply find_elem_of in Hst.
      -- unfold ret at 1. unfold bind, ret.
         destruct (Update _ w1) as [[o'|e] w2] eqn:Hup; [|discriminate].
         apply Update_stored in Hup as (Hst & s & _ & ->).
         intros [= <- <- <-]. split; [done|].
         by apply find_elem_of in Hst.
    * unfold bind at 1.
      destruct (DeleteAllOf _ _ _ _ w1) as [[[]|e] w2] eqn:Hdel; [|discriminate].
      unfold bind, ret.
      destruct (Create _ w2) as [[o'|e] w3] eqn:Hcr; [|discriminate].
      apply Create_cases in Hcr as (_ & [(e & [=] & _)|(o'' & -> & [= ->] & Hcl2)]).
      intros [= <- <- <-]. split; [done|].
      rewrite Hcl2. simpl. apply elem_of_app. right. apply list_elem_of_singleton. done.
  + intros Hf. unfold ensureDeploymentForControlPlane.
    rewrite Hunset. simpl. unfold bind at 1.
    destruct (ListDeploymentsForOwner _ _ _ _ w) as [r w1] eqn:Hl.
    apply ListDeploymentsForOwner_cases in Hl
      as (_ & Hcl & _ & Hf1 & [(e & _ & Hne)| ->]); [done|].
    specialize (Hf1 Hf).
    set (owned := ownedDeployments _ _ _ _) in *.
    assert (Howned : ∀ d, d ∈ owned → d ∈ deployments (cluster w1)).
    { intros d Hd. rewrite Hcl. by eapply ownedDeployments_elem. }
    clearbody owned.
    destruct owned as [|existing [|second rest]]; simpl.
    * unfold bind, ret.
      match goal with
      | |- context [Create ?o w1] =>
          destruct (Create_no_fault o w1 Hf1) as (o' & w2 & -> & _)
      end. eauto.
    * destruct (EnsureObjectMetaIsUpdated _ _) as [updated meta] eqn:Hmeta.
      apply EnsureObjectMetaIsUpdated_identity in Hmeta as (Hname & Hns & _).
      assert (Hup : ∀ o : Deployment,
                Name (d_meta o) = Name (d_meta existing) →
                Namespace (d_meta o) = Namespace (d_meta existing) →
                ∃ o' w', Update o w1 = (Ok o', w') ∧ faults w' = []).
      { intros o Hn Hs. apply Update_no_fault; [done|]. exists existing. split.
        - apply Howned, elem_of_cons. auto.
        - unfold sameKey, hasKey. simpl. rewrite Hn, Hs.
          rewrite !bool_decide_eq_true_2; done. }
      simpl. unfold bind at 1.
      destruct (d_Replicas existing) as [n|] eqn:Hrep; simpl;
        [destruct (n =? numReplicasWhenNoDataplane) eqn:Hn; simpl|];
        unfold ret at 1; try (destruct updated; [|unfold ret; eauto]);
        unfold bind, ret;
        match goal with
        | |- context [Update ?o w1] =>
            destruct (Hup o) as (o' & w2 & -> & _); [done|done|eauto]
        end.
    * unfold bind at 1.
      destruct (DeleteAllOf_no_fault (K := Deployment) (Namespace (cp_meta controlplane))
                  GatewayOperatorControlledLabel ControlPlaneManagedLabelValue w1 Hf1)
        as (w2 & -> & Hf2).
      unfold bind, ret.
      match goal with
      | |- context [Create ?o w2] =>
          destruct (Create_no_fault o w2 Hf2) as (o' & w3 & -> & _)
      end. eauto.
    - intros Hset existing Hown Hzero. split.
  + intros changed deployment w'. unfold ensureDeploymentForControlPlane.
    rewrite Hset. simpl. unfold bind at 1.
    destruct (ListDeploymentsForOwner _ _ _ _ w) as [[l|e] w1] eqn:Hl; [|discriminate].
    apply ListDeploymentsForOwner_cases in Hl as (_ & Hcl & _ & _ & [(e & [=] & _)|[= ->]]).
    rewrite Hown. simpl.
    destruct (EnsureObjectMetaIsUpdated _ _) as [updated meta] eqn:Hmeta.
    simpl. rewrite Hzero. simpl. unfold bind at 1.
    destruct (d_Containers existing) as [|container0 others]; [discriminate|].
    unfold ret at 1. unfold bind, ret.
    destruct (Update _ w1) as [[o'|e] w2] eqn:Hup; [|discriminate].
    apply Update_stored in Hup as (Hst & s & _ & ->).
    intros [= <- <- <-]. split_and!; [done| |by apply find_elem_of in Hst].
    simpl. destruct (0 <? length (ct_Env container0))%nat; done.
  + intros Hf Hcont. unfold ensureDeploymentForControlPlane.
    rewrite Hset. simpl. unfold bind at 1.
    destruct (ListDeploymentsForOwner _ _ _ _ w) as [r w1] eqn:Hl.
    apply ListDeploymentsForOwner_cases in Hl
      as (_ & Hcl & _ & Hf1 & [(e & _ & Hne)| ->]); [done|].
    specialize (Hf1 Hf). rewrite Hown. simpl.
    destruct (EnsureObjectMetaIsUpdated _ _) as [updated meta] eqn:Hmeta.
    apply EnsureObjectMetaIsUpdated_identity in Hmeta as (Hname & Hns & _).
    simpl. rewrite Hzero. simpl. unfold bind at 1.
    destruct (d_Containers existing) as [|container0 others] eqn:Hcs; [done|].
    unfold ret at 1. unfold bind, ret.
    match goal with
    | |- context [Update ?o w1] =>
        destruct (Update_no_fault o w1 Hf1) as (o' & w2 & -> & _); [|eauto]
    end.
    exists existing. split.
    * rewrite Hcl. eapply ownedDeployments_elem. rewrite Hown.
      apply elem_of_cons. auto.
    * unfold sameKey, hasKey.
      destruct (0 <? length (ct_Env container0))%nat; simpl;
        rewrite Hname, Hns, !bool_decide_eq_true_2; done.
Qed.

(** With exactly one owned Deployment the call works on that Deployment, in
    place. *)
Lemma ensureDeploymentForControlPlane_in_place controlplane serviceAccountName existing
    w changed deployment w' :
  ownedDeployments ControlPlaneManagedLabelValue (Namespace (cp_meta controlplane))
                   (UID (cp_meta controlplane)) (cluster w) = [existing] →
  ensureDeploymentForControlPlane controlplane serviceAccountName w
    = (Ok (changed, deployment), w') →
  (Name (d_meta deployment) = Name (d_meta existing)
   ∧ Namespace (d_meta deployment) = Namespace (d_meta existing)
   ∧ UID (d_meta deployment) = UID (d_meta existing))
  ∧ deployment ∈ ownedDeployments ControlPlaneManagedLabelValue
                   (Namespace (cp_meta controlplane)) (UID (cp_meta controlplane))
                   (cluster w')
  ∧ length (deployments (cluster w')) = length (deployments (cluster w))
  ∧ (∀ d, d ∈ ownedDeployments ControlPlaneManagedLabelValue
                (Namespace (cp_meta controlplane)) (UID (cp_meta controlplane))
                (cluster w') →
          d_meta d = d_meta deployment ∧ d_Replicas d = d_Replicas deployment
          ∧ d_Containers d = d_Containers deployment)
  ∧ (dataplaneIsSet controlplane = false →
     d_Replicas deployment = Some 0
     ∧ d_Containers deployment = d_Containers existing
     ∧ (d_Replicas existing ≠ Some 0 → changed = true))
  ∧ (dataplaneIsSet controlplane = true → d_Replicas existing = Some 0 →
     changed = true ∧ d_Replicas deployment = None).
Proof.
  intros Hown. unfold ensureDeploymentForControlPlane. unfold bind at 1.
  destruct (ListDeploymentsForOwner _ _ _ _ w) as [[l|e] w1] eqn:Hl; [|discriminate].
  apply ListDeploymentsForOwner_cases in Hl as (_ & Hcl & _ & _ & [(e & [=] & _)|[= ->]]).
  rewrite Hown. simpl. rewrite <- Hcl in Hown |- *.
  assert (Hexisting : existing ∈ ownedDeployments ControlPlaneManagedLabelValue
            (Namespace (cp_meta controlplane)) (UID (cp_meta controlplane)) (cluster w1)).
  { rewrite Hown. apply list_elem_of_here. }
  pose proof Hexisting as Hsel. unfold ownedDeployments in Hsel.
  rewrite !list_elem_of_filter in Hsel. destruct Hsel as (_ & Hsel & _).
  apply Is_true_true in Hsel. unfold selected in Hsel.
  apply andb_true_iff in Hsel as [Hns _].
  match goal with
  | |- context [EnsureObjectMetaIsUpdated ?e ?g] =>
      pose proof (merged_meta_owned e g (Namespace (cp_meta controlplane))
                    GatewayOperatorControlledLabel ControlPlaneManagedLabelValue
                    (UID (cp_meta controlplane)) Hns) as Hmerged;
      pose proof (EnsureObjectMetaIsUpdated_identity e g) as Hid;
      destruct (EnsureObjectMetaIsUpdated e g) as [updated meta] eqn:Hmeta
  end.
  simpl in Hmerged.
  destruct Hmerged as (Hname & Hnamespace & Huid & Hin & Hmatch & Howner).
  { simpl. apply lookup_insert_eq. }
  { unfold IsOwnedByRefUID. simpl. rewrite bool_decide_eq_true_2; done. }
  destruct (Hid _ _ eq_refl) as (_ & _ & Hsame). clear Hid.
  assert (Htarget : ∀ target o' w2,
            d_meta target = meta →
            Update target w1 = (Ok o', w2) →
            (Name (d_meta o') = Name (d_meta existing)
             ∧ Namespace (d_meta o') = Namespace (d_meta existing)
             ∧ UID (d_meta o') = UID (d_meta existing))
            ∧ o' ∈ ownedDeployments ControlPlaneManagedLabelValue
                     (Namespace (cp_meta controlplane)) (UID (cp_meta controlplane))
                     (cluster w2)
            ∧ length (deployments (cluster w2)) = length (deployments (cluster w1))
            ∧ (∀ d, d ∈ ownedDeployments ControlPlaneManagedLabelValue
                          (Namespace (cp_meta controlplane)) (UID (cp_meta controlplane))
                          (cluster w2) →
                    d_meta d = d_meta o' ∧ d_Replicas d = d_Replicas o'
                    ∧ d_Containers d = d_Containers o')
            ∧ d_Replicas o' = d_Replicas target
            ∧ d_Containers o' = d_Containers target).
  { intros target o' w2 Hm Hup.
    destruct (Update_in_place target existing ControlPlaneManagedLabelValue
                (Namespace (cp_meta controlplane)) (UID (cp_meta controlplane))
                w1 o' w2 Hown) as (Hm' & Hr & Hc & Hin' & Hlen & Hall); try done.
    - by rewrite Hm.
    - by rewrite Hm.
    - unfold selected. simpl. rewrite Hm, Hin, Hmatch. done.
    - by rewrite Hm.
    - split_and!; try done; rewrite Hm', Hm; done. }
  assert (Hkept : ∀ replicas, updated = false → d_Replicas existing = replicas →
            mkDeployment meta replicas (d_Containers existing) (d_status existing)
            = existing).
  { intros replicas Hu <-. rewrite (Hsame Hu). by destruct existing. }
  assert (Hall : ∀ d, d ∈ ownedDeployments ControlPlaneManagedLabelValue
                          (Namespace (cp_meta controlplane)) (UID (cp_meta controlplane))
                          (cluster w1) →
                 d_meta d = d_meta existing ∧ d_Replicas d = d_Replicas existing
                 ∧ d_Containers d = d_Containers existing).
  { intros d Hd. rewrite Hown in Hd. apply list_elem_of_singleton in Hd. by subst d. }
  simpl. unfold bind at 1.
  destruct (dataplaneIsSet controlplane) eqn:Hset; simpl.
  - destruct (d_Replicas existing) as [n|] eqn:Hrep; simpl;
      [destruct (n =? numReplicasWhenNoDataplane) eqn:Hn; simpl|].
    + apply Z.eqb_eq in Hn. subst n.
      destruct (d_Containers existing) as [|container0 others]; [discriminate|].
      unfold ret at 1. unfold bind, ret.
      match goal with
      | |- context [Update ?o w1] =>
          destruct (Update o w1) as [[o'|e] w2] eqn:Hup; [|discriminate];
          destruct (Htarget o o' w2) as ((Hk1 & Hk2 & Hk3) & Hin' & Hlen & Hall' & Hr & Hc);
            [by destruct (0 <? length (ct_Env container0))%nat|done|]
      end.
      intros [= <- <- <-]. split_and!; try done.
      intros _ _. split; [done|]. rewrite Hr.
      by destruct (0 <? length (ct_Env container0))%nat.
    + unfold ret at 1. destruct updated.
      * unfold bind, ret.
        match goal with
        | |- context [Update ?o w1] =>
            destruct (Update o w1) as [[o'|e] w2] eqn:Hup; [|discriminate];
            destruct (Htarget o o' w2) as ((Hk1 & Hk2 & Hk3) & Hin' & Hlen & Hall' & Hr & Hc);
              [done|done|]
        end.
        intros [= <- <- <-]. split_and!; try done.
        intros _ [= ->]. by rewrite Z.eqb_refl in Hn.
      * unfold ret. intros [= <- <- <-].
        rewrite (Hkept _ eq_refl eq_refl). split_and!; try done;
          try (intros d Hd; rewrite Hrep; by apply Hall).
        intros _ [= ->]. by rewrite Z.eqb_refl in Hn.
    + unfold ret at 1. destruct updated.
      * unfold bind, ret.
        match goal with
        | |- context [Update ?o w1] =>
            destruct (Update o w1) as [[o'|e] w2] eqn:Hup; [|discriminate];
            destruct (Htarget o o' w2) as ((Hk1 & Hk2 & Hk3) & Hin' & Hlen & Hall' & Hr & Hc);
              [done|done|]
        end.
        intros [= <- <- <-]. split_and!; done.
      * unfold ret. intros [= <- <- <-].
        rewrite (Hkept _ eq_refl eq_refl). split_and!; try done;
          try (intros d Hd; rewrite Hrep; by apply Hall).
  - destruct (d_Replicas existing) as [n|] eqn:Hrep; simpl;
      [destruct (n =? numReplicasWhenNoDataplane) eqn:Hn; simpl|].
    + apply Z.eqb_eq in Hn. subst n. unfold ret at 1. destruct updated.
      * unfold bind, ret.
        match goal with
        | |- context [Update ?o w1] =>
            destruct (Update o w1) as [[o'|e] w2] eqn:Hup; [|discriminate];
            destruct (Htarget o o' w2) as ((Hk1 & Hk2 & Hk3) & Hin' & Hlen & Hall' & Hr & Hc);
              [done|done|]
        end.
        intros [= <- <- <-]. split_and!; done.
      * unfold ret. intros [= <- <- <-].
        rewrite (Hkept _ eq_refl eq_refl). split_and!; try done;
          try (intros d Hd; rewrite Hrep; by apply Hall).
    + unfold ret at 1. unfold bind, ret.
      match goal with
      | |- context [Update ?o w1] =>
          destruct (Update o w1) as [[o'|e] w2] eqn:Hup; [|discriminate];
          destruct (Htarget o o' w2) as ((Hk1 & Hk2 & Hk3) & Hin' & Hlen & Hall' & Hr & Hc);
            [done|done|]
      end.
      intros [= <- <- <-]. split_and!; done.
    + unfold ret at 1. unfold bind, ret.
      match goal with
      | |- context [Update ?o w1] =>
          destruct (Update o w1) as [[o'|e] w2] eqn:Hup; [|discriminate];
          destruct (Htarget o o' w2) as ((Hk1 & Hk2 & Hk3) & Hin' & Hlen & Hall' & Hr & Hc);
            [done|done|]
      end.
      intros [= <- <- <-]. split_and!; done.
Qed.

(** With no owned Deployment, or several, the call creates one, which is the
    only Deployment the ControlPlane can own afterwards. *)
Lemma ensureDeploymentForControlPlane_created controlplane serviceAccountName
    w changed deployment w' :
  length (ownedDeployments ControlPlaneManagedLabelValue (Namespace (cp_meta controlplane))
                           (UID (cp_meta controlplane)) (cluster w)) ≠ 1%nat →
  ensureDeploymentForControlPlane controlplane serviceAccountName w
    = (Ok (changed, deployment), w') →
  changed = true
  ∧ (∀ d, d ∈ ownedDeployments ControlPlaneManagedLabelValue
                (Namespace (cp_meta controlplane)) (UID (cp_meta controlplane))
                (cluster w') → d = deployment)
  ∧ (Namespace (d_meta (generateNewDeploymentForControlPlane controlplane
                          serviceAccountName)) = Namespace (cp_meta controlplane) →
     ownedDeployments ControlPlaneManagedLabelValue (Namespace (cp_meta controlplane))
                      (UID (cp_meta controlplane)) (cluster w') = [deployment]).
Proof.
  intros Hcount. unfold ensureDeploymentForControlPlane. unfold bind at 1.
  destruct (ListDeploymentsForOwner _ _ _ _ w) as [[l|e] w1] eqn:Hl; [|discriminate].
  apply ListDeploymentsForOwner_cases in Hl as (_ & Hcl & _ & _ & [(e & [=] & _)|[= ->]]).
  rewrite <- Hcl in Hcount |- *.
  assert (Hcreated : ∀ (generated : Deployment) l,
            filter (λ o : Deployment,
                      IsOwnedByRefUID (d_meta o) (UID (cp_meta controlplane)))
              (filter (λ o : Deployment,
                         selected (Namespace (cp_meta controlplane))
                                  GatewayOperatorControlledLabel
                                  ControlPlaneManagedLabelValue o) l) = [] →
            Labels (d_meta generated) !! GatewayOperatorControlledLabel
              = Some ControlPlaneManagedLabelValue →
            IsOwnedByRefUID (d_meta generated) (UID (cp_meta controlplane)) = true →
            ∀ n : nat,
            let created := setMeta (assignIdentity n (d_meta generated)) generated in
            (∀ d, d ∈ ownedDeployments ControlPlaneManagedLabelValue
                        (Namespace (cp_meta controlplane)) (UID (cp_meta controlplane))
                        (setItems (l ++ [created]) (cluster w1)) → d = created)
            ∧ (Namespace (d_meta generated) = Namespace (cp_meta controlplane) →
               ownedDeployments ControlPlaneManagedLabelValue
                 (Namespace (cp_meta controlplane)) (UID (cp_meta controlplane))
                 (setItems (l ++ [created]) (cluster w1)) = [created])).
  { intros generated l0 Hnone Hlabel Howner n created.
    unfold ownedDeployments. simpl. rewrite !filter_app, Hnone. simpl. split.
    - intros d. rewrite !list_elem_of_filter. intros (_ & _ & Hd).
      by apply list_elem_of_singleton in Hd.
    - intros Hns.
      rewrite (filter_cons (λ o : Deployment, selected _ _ _ o)), decide_True.
      + rewrite filter_nil, filter_cons, decide_True; [by rewrite filter_nil|].
        subst created. simpl. unfold IsOwnedByRefUID in *. simpl. by rewrite Howner.
      + subst created. unfold selected, InNamespace, MatchingLabels. simpl.
        rewrite Hns, Hlabel.
        rewrite (bool_decide_eq_true_2
                   (Namespace (cp_meta controlplane) = Namespace (cp_meta controlplane)))
          by done.
        rewrite orb_true_r. by rewrite bool_decide_eq_true_2. }
  set (owned := ownedDeployments _ _ _ (cluster w1)) in *.
  assert (Howned : owned = ownedDeployments ControlPlaneManagedLabelValue
                     (Namespace (cp_meta controlplane)) (UID (cp_meta controlplane))
                     (cluster w1)) by done.
  clearbody owned.
  destruct owned as [|existing [|second rest]]; simpl in Hcount; [|done|]; simpl.
  - unfold bind, ret.
    destruct (Create _ w1) as [[o'|e] w2] eqn:Hcr; [|discriminate].
    apply Create_cases in Hcr as (_ & [(e & [=] & _)|(o'' & -> & [= ->] & Hcl2)]).
    intros [= <- <- <-]. split; [done|]. rewrite Hcl2.
    match goal with
    | |- context [assignIdentity ?n (getMeta ?g)] =>
        assert (Hlabel : Labels (d_meta g) !! GatewayOperatorControlledLabel
                         = Some ControlPlaneManagedLabelValue)
          by (destruct (dataplaneIsSet controlplane); simpl; apply lookup_insert_eq);
        assert (Howner : IsOwnedByRefUID (d_meta g) (UID (cp_meta controlplane)) = true)
          by (destruct (dataplaneIsSet controlplane); unfold IsOwnedByRefUID; simpl;
              rewrite bool_decide_eq_true_2; done);
        destruct (Hcreated g (deployments (cluster w1)) (eq_sym Howned) Hlabel Howner n)
          as [Hall Hone]
    end.
    split; [exact Hall|]. intros Hns. apply Hone.
    by destruct (dataplaneIsSet controlplane).
  - unfold bind at 1.
    destruct (DeleteAllOf _ _ _ _ w1) as [[[]|e] w2] eqn:Hdel; [|discriminate].
    apply DeleteAllOf_cases in Hdel as (_ & _ & [(e & [=] & _)|(_ & Hcl1)]).
    unfold bind, ret.
    destruct (Create _ w2) as [[o'|e] w3] eqn:Hcr; [|discriminate].
    apply Create_cases in Hcr as (_ & [(e & [=] & _)|(o'' & -> & [= ->] & Hcl2)]).
    intros [= <- <- <-]. split; [done|]. rewrite Hcl2, Hcl1.
    assert (Hnone : filter (λ o : Deployment,
                              IsOwnedByRefUID (d_meta o) (UID (cp_meta controlplane)))
                      (filter (λ o : Deployment,
                                 selected (Namespace (cp_meta controlplane))
                                          GatewayOperatorControlledLabel
                                          ControlPlaneManagedLabelValue o)
                         (filter (λ o : Deployment,
                                    negb (selected (Namespace (cp_meta controlplane))
                                            GatewayOperatorControlledLabel
                                            ControlPlaneManagedLabelValue o))
                                 (deployments (cluster w1)))) = [])
      by (by rewrite filter_selected_deleted).
    match goal with
    | |- context [assignIdentity ?n (getMeta ?g)] =>
        assert (Hlabel : Labels (d_meta g) !! GatewayOperatorControlledLabel
                         = Some ControlPlaneManagedLabelValue)
          by (destruct (dataplaneIsSet controlplane); simpl; apply lookup_insert_eq);
        assert (Howner : IsOwnedByRefUID (d_meta g) (UID (cp_meta controlplane)) = true)
          by (destruct (dataplaneIsSet controlplane); unfold IsOwnedByRefUID; simpl;
              rewrite bool_decide_eq_true_2; done);
        destruct (Hcreated g _ Hnone Hlabel Howner n) as [Hall Hone]
    end.
    split; [exact Hall|]. intros Hns. apply Hone.
    by destruct (dataplaneIsSet controlplane).
Qed.

(** C5. For a ControlPlane without a DataPlane reference (nil or empty),
    [ensureDeploymentForControlPlane] yields a Deployment with zero replicas
    whatever the configured count, and it does yield one when the API calls
    are served.  Every Deployment the ControlPlane owns afterwards is that
    Deployment up to its status, so none is left with another count.  When
    the ControlPlane owned exactly one Deployment, the one returned is that
    Deployment scaled in place: it has its name, namespace, UID and
    containers, no Deployment is added or removed, and a change is reported
    unless its replicas were zero already.  Otherwise the Deployment is a new
    one, and the only one owned if it is generated in the ControlPlane's
    namespace.  For a ControlPlane with a DataPlane reference whose one owned
    Deployment has zero replicas, the call unsets the replicas of that
    Deployment, in place, and reports the change. *)
Theorem C5_dormant_until_dataplane_set controlplane serviceAccountName w :
  let owned := ownedDeployments ControlPlaneManagedLabelValue
                 (Namespace (cp_meta controlplane)) (UID (cp_meta controlplane)) in
  (dataplaneIsSet controlplane = false →
   (∀ changed deployment w',
      ensureDeploymentForControlPlane controlplane serviceAccountName w
        = (Ok (changed, deployment), w') →
      d_Replicas deployment = Some 0 ∧ deployment ∈ deployments (cluster w')
      ∧ (∀ d, d ∈ owned (cluster w') →
           d_meta d = d_meta deployment ∧ d_Replicas d = Some 0
           ∧ d_Containers d = d_Containers deployment)
      ∧ (∀ existing, owned (cluster w) = [existing] →
           Name (d_meta deployment) = Name (d_meta existing)
           ∧ Namespace (d_meta deployment) = Namespace (d_meta existing)
           ∧ UID (d_meta deployment) = UID (d_meta existing)
           ∧ d_Containers deployment = d_Containers existing
           ∧ deployment ∈ owned (cluster w')
           ∧ length (deployments (cluster w')) = length (deployments (cluster w))
           ∧ (d_Replicas existing ≠ Some 0 → changed = true))
      ∧ (length (owned (cluster w)) ≠ 1%nat →
           changed = true
           ∧ (Namespace (d_meta (generateNewDeploymentForControlPlane controlplane
                                   serviceAccountName))
              = Namespace (cp_meta controlplane) →
              owned (cluster w') = [deployment])))
   ∧ (faults w = [] →
      ∃ changed deployment w',
        ensureDeploymentForControlPlane controlplane serviceAccountName w
          = (Ok (changed, deployment), w')))
  ∧ (dataplaneIsSet controlplane = true →
     ∀ existing,
       owned (cluster w) = [existing] →
       d_Replicas existing = Some 0 →
       (∀ changed deployment w',
          ensureDeploymentForControlPlane controlplane serviceAccountName w
            = (Ok (changed, deployment), w') →
          changed = true ∧ d_Replicas deployment = None
          ∧ deployment ∈ deployments (cluster w')
          ∧ Name (d_meta deployment) = Name (d_meta existing)
          ∧ Namespace (d_meta deployment) = Namespace (d_meta existing)
          ∧ UID (d_meta deployment) = UID (d_meta existing)
          ∧ deployment ∈ owned (cluster w')
          ∧ length (deployments (cluster w')) = length (deployments (cluster w))
          ∧ (∀ d, d ∈ owned (cluster w') →
               d_meta d = d_meta deployment ∧ d_Replicas d = None
               ∧ d_Containers d = d_Containers deployment))
       ∧ (faults w = [] → d_Containers existing ≠ [] →
          ∃ deployment w',
            ensureDeploymentForControlPlane controlplane serviceAccountName w
              = (Ok (true, deployment), w'))).
Proof.
  intros owned.
  destruct (ensureDeploymentForControlPlane_replicas controlplane serviceAccountName w)
    as [Hdormant Hwoken].
  split.
  - intros Hunset. destruct (Hdormant Hunset) as [Hzero Hserved].
    split; [|exact Hserved].
    intros changed deployment w' Hrun.
    destruct (Hzero _ _ _ Hrun) as [Hreplicas Hstored].
    split; [exact Hreplicas|]. split; [exact Hstored|].
    split; [|split].
    + intros d Hd.
      destruct (owned (cluster w)) as [|existing [|second rest]] eqn:Howned.
      * destruct (ensureDeploymentForControlPlane_created controlplane serviceAccountName
                    w changed deployment w') as (_ & Hall & _); [|done|].
        { fold owned. by rewrite Howned. }
        by rewrite (Hall d Hd).
      * destruct (ensureDeploymentForControlPlane_in_place controlplane serviceAccountName
                    existing w changed deployment w' Howned Hrun)
          as (_ & _ & _ & Hall & _).
        destruct (Hall d Hd) as (Hm & Hr & Hc). rewrite Hr. done.
      * destruct (ensureDeploymentForControlPlane_created controlplane serviceAccountName
                    w changed deployment w') as (_ & Hall & _); [|done|].
        { fold owned. by rewrite Howned. }
        by rewrite (Hall d Hd).
    + intros existing Howned.
      destruct (ensureDeploymentForControlPlane_in_place controlplane serviceAccountName
                  existing w changed deployment w' Howned Hrun)
        as ((Hname & Hns & Huid) & Hin & Hlen & _ & Hscaled & _).
      destruct (Hscaled Hunset) as (_ & Hcontainers & Hchanged).
      split_and!; done.
    + intros Hcount.
      destruct (ensureDeploymentForControlPlane_created controlplane serviceAccountName
                  w changed deployment w' Hcount Hrun) as (Hchanged & _ & Hone).
      split; done.
  - intros Hset existing Howned Hzero.
    destruct (Hwoken Hset existing Howned Hzero) as [Hunsets Hserved].
    split; [|exact Hserved].
    intros changed deployment w' Hrun.
    destruct (Hunsets _ _ _ Hrun) as (Hchanged & Hreplicas & Hstored).
    destruct (ensureDeploymentForControlPlane_in_place controlplane serviceAccountName
                existing w changed deployment w' Howned Hrun)
      as ((Hname & Hns & Huid) & Hin & Hlen & Hall & _).
    split_and!; try done.
    intros d Hd. destruct (Hall d Hd) as (Hm & Hr & Hc). rewrite Hr. done.
Qed.
End ControlPlaneDeployment.

Section DataPlaneDeployment.
Context `{DataPlaneGenerators}.

Lemma created_is_owned (generated : Deployment) (owner : DataPlane) value n :
  Namespace (d_meta generated) = Namespace (dp_meta owner) →
  let created :=
    setMeta (assignIdentity n
               (d_meta (labelObj GatewayOperatorControlledLabel value
                          (SetOwnerForObject generated owner))))
            (labelObj GatewayOperatorControlledLabel value
               (SetOwnerForObject generated owner)) in
  selected (Namespace (dp_meta owner)) GatewayOperatorControlledLabel value created = true
  ∧ IsOwnedByRefUID (d_meta created) (UID (dp_meta owner)) = true.
Proof.
  intros Hns. simpl. unfold selected, InNamespace, MatchingLabels, IsOwnedByRefUID. simpl.
  rewrite Hns, lookup_insert_eq.
  rewrite (bool_decide_eq_true_2 (Namespace (dp_meta owner) = Namespace (dp_meta owner)))
    by done.
  rewrite (bool_decide_eq_true_2 (Some value = Some value)) by done.
  rewrite (bool_decide_eq_true_2 (UID (dp_meta owner) = UID (dp_meta owner))) by done.
  rewrite orb_true_r. done.
Qed.

(** The DataPlane half of C2: with more than one owned Deployment (and the
    API calls served), [ensureDeploymentForDataPlane] deletes the Deployments
    under the DataPlane's provenance label and creates one, which is then the
    only Deployment the DataPlane owns. *)
Lemma ensureDeploymentForDataPlane_deduplicates dataplane w :
  faults w = [] →
  (1 < length (ownedDeployments DataPlaneManagedLabelValue (Namespace (dp_meta dataplane))
                                (UID (dp_meta dataplane)) (cluster w)))%nat →
  Namespace (d_meta (generateNewDeploymentForDataPlane dataplane))
    = Namespace (dp_meta dataplane) →
  ∃ created w',
    DataPlaneUtils.ensureDeploymentForDataPlane dataplane w = (Ok created, w')
    ∧ ownedDeployments DataPlaneManagedLabelValue (Namespace (dp_meta dataplane))
                       (UID (dp_meta dataplane)) (cluster w') = [created].
Proof.
  intros Hf Hmany Hns. unfold DataPlaneUtils.ensureDeploymentForDataPlane.
  unfold bind at 1.
  destruct (ListDeploymentsForOwner _ _ _ _ w) as [r w1] eqn:Hl.
  apply ListDeploymentsForOwner_cases in Hl
    as (_ & Hcl & _ & Hf1 & [(e & _ & Hne)| ->]); [done|].
  specialize (Hf1 Hf).
  destruct (ownedDeployments _ _ _ (cluster w)) as [|first [|second rest]];
    simpl in Hmany; [lia|lia|]. simpl.
  unfold bind at 1. unfold DeleteAllOf. rewrite apiCall_no_fault by done.
  unfold Create. rewrite apiCall_no_fault by done.
  eexists _, _. split; [reflexivity|].
  pose proof (created_is_owned (generateNewDeploymentForDataPlane dataplane) dataplane
                DataPlaneManagedLabelValue (nextID w1) Hns) as [Hsel Hown].
  exact (owned_after_recreate (K := Deployment) (Namespace (dp_meta dataplane))
           GatewayOperatorControlledLabel DataPlaneManagedLabelValue
           (UID (dp_meta dataplane)) (deployments (cluster w1)) _ Hsel Hown).
Qed.
End DataPlaneDeployment.

End OwnedDeployments.

(** The dormant ControlPlane scales its Deployment of three replicas to zero,
    in place; the attached one unsets the zero, in place. *)
Lemma C5_witness :
  (dataplaneIsSet Scenario.controlplaneDormant = false
   ∧ ownedDeployments (H := Scenario.consts)
       (ControlPlaneManagedLabelValue (Consts := Scenario.consts))
       (Namespace (cp_meta Scenario.controlplaneDormant))
       (UID (cp_meta Scenario.controlplaneDormant))
       (cluster (Scenario.world
                   (Scenario.clusterControlPlane Scenario.controlplaneDormant (Some 3))))
     = [Scenario.controlplaneDeployment (Some 3)]
   ∧ Scenario.changedBy Scenario.ensureDormant = true
   ∧ d_Replicas (Scenario.ensuredDeployment Scenario.ensureDormant) = Some 0
   ∧ Scenario.ensuredDeployment Scenario.ensureDormant
     ∈ deployments (cluster Scenario.ensureDormant.2)
   ∧ UID (d_meta (Scenario.ensuredDeployment Scenario.ensureDormant))
     = UID (d_meta (Scenario.controlplaneDeployment (Some 3)))
   ∧ length (deployments (cluster Scenario.ensureDormant.2)) = 1%nat
   ∧ ∀ d, d ∈ ownedDeployments (H := Scenario.consts)
                (ControlPlaneManagedLabelValue (Consts := Scenario.consts))
                (Namespace (cp_meta Scenario.controlplaneDormant))
                (UID (cp_meta Scenario.controlplaneDormant))
                (cluster Scenario.ensureDormant.2) →
          d_Replicas d = Some 0)
  ∧ (dataplaneIsSet Scenario.controlplane = true
     ∧ d_Replicas (Scenario.controlplaneDeployment (Some 0)) = Some 0
     ∧ d_Replicas (Scenario.ensuredDeployment Scenario.ensureWoken) = None
     ∧ Scenario.ensuredDeployment Scenario.ensureWoken
       ∈ deployments (cluster Scenario.ensureWoken.2)
     ∧ UID (d_meta (Scenario.ensuredDeployment Scenario.ensureWoken))
       = UID (d_meta (Scenario.controlplaneDeployment (Some 0)))
     ∧ length (deployments (cluster Scenario.ensureWoken.2)) = 1%nat
     ∧ ∀ d, d ∈ ownedDeployments (H := Scenario.consts)
                  (ControlPlaneManagedLabelValue (Consts := Scenario.consts))
                  (Namespace (cp_meta Scenario.controlplane))
                  (UID (cp_meta Scenario.controlplane))
                  (cluster Scenario.ensureWoken.2) →
            d_Replicas d = None).
Proof.
  pose proof (C5_dormant_until_dataplane_set (H := Scenario.consts)
                (H0 := Scenario.controlPlaneGenerators) Scenario.controlplaneDormant
                "gw-cp-sa"
                (Scenario.world (Scenario.clusterControlPlane Scenario.controlplaneDormant
                                   (Some 3)))) as [Hdormant _].
  pose proof (C5_dormant_until_dataplane_set (H := Scenario.consts)
                (H0 := Scenario.controlPlaneGenerators) Scenario.controlplane
                "gw-cp-sa"
                (Scenario.world (Scenario.clusterControlPlane Scenario.controlplane
                                   (Some 0)))) as [_ Hwoken].
  assert (Hunset : dataplaneIsSet Scenario.controlplaneDormant = false)
    by (vm_compute; reflexivity).
  assert (Hset : dataplaneIsSet Scenario.controlplane = true)
    by (vm_compute; reflexivity).
  assert (Hrun1 : Scenario.ensureDormant
                  = (Ok (Scenario.changedBy Scenario.ensureDormant,
                         Scenario.ensuredDeployment Scenario.ensureDormant),
                     Scenario.ensureDormant.2)) by (vm_compute; reflexivity).
  assert (Hrun2 : Scenario.ensureWoken
                  = (Ok (Scenario.changedBy Scenario.ensureWoken,
                         Scenario.ensuredDeployment Scenario.ensureWoken),
                     Scenario.ensureWoken.2)) by (vm_compute; reflexivity).
  assert (Howned1 : ownedDeployments (H := Scenario.consts)
       (ControlPlaneManagedLabelValue (Consts := Scenario.consts))
       (Namespace (cp_meta Scenario.controlplaneDormant))
       (UID (cp_meta Scenario.controlplaneDormant))
       (cluster (Scenario.world
                   (Scenario.clusterControlPlane Scenario.controlplaneDormant (Some 3))))
     = [Scenario.controlplaneDeployment (Some 3)]) by (vm_compute; reflexivity).
  assert (Howned2 : ownedDeployments (H := Scenario.consts)
       (ControlPlaneManagedLabelValue (Consts := Scenario.consts))
       (Namespace (cp_meta Scenario.controlplane))
       (UID (cp_meta Scenario.controlplane))
       (cluster (Scenario.world
                   (Scenario.clusterControlPlane Scenario.controlplane (Some 0))))
     = [Scenario.controlplaneDeployment (Some 0)]) by (vm_compute; reflexivity).
  split.
  - destruct (Hdormant Hunset) as [Hzero _].
    destruct (Hzero _ _ _ Hrun1) as (Hreplicas & Hstored & Hall & Hplace & _).
    destruct (Hplace _ Howned1) as (_ & _ & Huid & _ & _ & Hlen & Hchanged).
    split_and!; [exact Hunset | exact Howned1 | apply Hchanged; discriminate
                | exact Hreplicas | exact Hstored | exact Huid | exact Hlen |].
    intros d Hd. by destruct (Hall d Hd) as (_ & ? & _).
  - destruct (Hwoken Hset (Scenario.controlplaneDeployment (Some 0)) Howned2 eq_refl)
      as [Hnone _].
    destruct (Hnone _ _ _ Hrun2) as (_ & Hreplicas & Hstored & _ & _ & Huid & _ & Hlen & Hall).
    split_and!; [exact Hset | reflexivity | exact Hreplicas | exact Hstored | exact Huid
                | exact Hlen |].
    intros d Hd. by destruct (Hall d Hd) as (_ & ? & _).
Defined.

(* ------------------------------------------------------------------------- *)
(** ** Owned ControlPlanes of a Gateway                                       *)
(* ------------------------------------------------------------------------- *)

(** C2, on the ControlPlanes of a Gateway.  The Gateway of the scenario owns
    two ControlPlanes and one DataPlane.  [ensureControlPlaneForGateway]
    deletes the DataPlanes under the Gateway's provenance label, not the
    ControlPlanes, and creates one more ControlPlane: afterwards the Gateway
    owns three ControlPlanes and no DataPlane. *)
Theorem C2_controlplane_duplicates_survive :
  length (ownedControlPlanes (H := Scenario.consts) Scenario.gateway
                             Scenario.clusterTwoControlPlanes) = 2%nat
  ∧ dataPlanes Scenario.clusterTwoControlPlanes = [Scenario.dataplane]
  ∧ ∃ created w',
      Scenario.ensureWithTwoControlPlanes = (Ok created, w')
      ∧ controlPlanes (cluster w')
        = [Scenario.controlplane; Scenario.controlplaneTwin; created]
      ∧ length (ownedControlPlanes (H := Scenario.consts) Scenario.gateway (cluster w'))
        = 3%nat
      ∧ dataPlanes (cluster w') = [].
Proof.
  split_and!; [vm_compute; reflexivity | reflexivity |].
  eexists _, _. split_and!; vm_compute; reflexivity.
Qed.

(** The DataPlane of the scenario with two owned Deployments: one pass of
    its Deployment ensurer leaves exactly one, a fresh one. *)
Example ensureDeploymentForDataPlane_two_become_one :
  let twin :=
    mkDeployment (Scenario.deploymentMeta "gw-dp-deploy-twin" "dpd-twin-uid"
                    "managed-by-dataplane" "DataPlane" "gw-dp" "dp-uid")
                 None [] (mkDeploymentStatus 0 0) in
  let c := mkCluster [] [] [] [Scenario.dataplane] []
                     [Scenario.dataplaneDeployment; twin] [Scenario.service] in
  let out := DataPlaneUtils.ensureDeploymentForDataPlane (H := Scenario.consts)
               (H0 := Scenario.dataPlaneGenerators) Scenario.dataplane (Scenario.world c) in
  length (ownedDeployments (H := Scenario.consts) "managed-by-dataplane" "default" "dp-uid" c)
  = 2%nat
  ∧ ∃ created, out.1 = Ok created
      ∧ Name (d_meta created) = "gw-dp-0"
      ∧ ownedDeployments (H := Scenario.consts) "managed-by-dataplane" "default" "dp-uid"
                         (cluster out.2) = [created].
Proof.
  split; [vm_compute; reflexivity|].
  eexists. split_and!; vm_compute; reflexivity.
Qed.

(* ------------------------------------------------------------------------- *)
(** ** The Gateway reconcile pass                                             *)
(* ------------------------------------------------------------------------- *)

Section GatewayPassProperties.
Context `{Consts} `{GatewayHelpers}.

Lemma verifyGatewayClassSupport_frame gateway w r w' :
  verifyGatewayClassSupport gateway w = (r, w') →
  sameObservables w w' ∧ cluster w' = cluster w.
Proof.
  unfold verifyGatewayClassSupport. case_bool_decide.
  - intros [= <- <-]. done.
  - unfold bind. destruct (Get GatewayClass _ _ w) as [[gwc|e] w1] eqn:Hget;
      apply Get_cases in Hget as (Hobs & Hcl & _).
    + destruct (negb _); intros [= <- <-]; done.
    + intros [= <- <-]. done.
Qed.

Lemma getOrCreateGatewayConfiguration_frame gatewayClass w r w' :
  getOrCreateGatewayConfiguration gatewayClass w = (r, w') →
  sameObservables w w' ∧ cluster w' = cluster w.
Proof.
  unfold getOrCreateGatewayConfiguration, catch, getGatewayConfigForGatewayClass.
  destruct (gwc_ParametersRef gatewayClass) as [ref|]; simpl.
  - destruct (negb _ || negb _); simpl.
    + intros [= <- <-]. done.
    + destruct (pr_Namespace ref) as [ns|]; simpl.
      * destruct (bool_decide _ || bool_decide _); simpl.
        -- intros [= <- <-]. done.
        -- destruct (Get GatewayConfiguration _ _ w) as [[cfg|e] w1] eqn:Hget;
             apply Get_cases in Hget as (Hobs & Hcl & _).
           ++ intros [= <- <-]. done.
           ++ destruct (errors_Is _ _); intros [= <- <-]; done.
      * intros [= <- <-]. done.
  - intros [= <- <-]. done.
Qed.

Lemma Update_untouched `{Object K} (o : K) w r w' :
  (∀ l c, gateways (setItems (K := K) l c) = gateways c) →
  Update o w = (r, w') → gatewaysUntouched w w'.
Proof.
  intros Hk Hu. apply Update_cases in Hu as ((Hev & _) & [(e & _ & Hcl)|(s & _ & _ & Hcl)]);
    split; try done; rewrite Hcl; auto.
Qed.

Lemma Create_untouched `{Object K} (o : K) w r w' :
  (∀ l c, gateways (setItems (K := K) l c) = gateways c) →
  Create o w = (r, w') → gatewaysUntouched w w'.
Proof.
  intros Hk Hu. apply Create_cases in Hu as ((Hev & _) & [(e & _ & Hcl)|(s & _ & _ & Hcl)]);
    split; try done; rewrite Hcl; auto.
Qed.

Lemma DeleteAllOf_untouched `{Object K} ns key value w r w' :
  (∀ l c, gateways (setItems (K := K) l c) = gateways c) →
  DeleteAllOf K ns key value w = (r, w') → gatewaysUntouched w w'.
Proof.
  intros Hk Hu.
  apply DeleteAllOf_cases in Hu as ((Hev & _) & _ & [(e & _ & Hcl)|(_ & Hcl)]);
    split; try done; rewrite Hcl; auto.
Qed.

Lemma List_untouched `{Object K} ns key value w r w' :
  List K ns key value w = (r, w') → gatewaysUntouched w w'.
Proof.
  intros Hl. apply List_cases in Hl as (Hobs & Hcl & _). by apply same_cluster_untouched.
Qed.

Lemma ensureDataPlaneForGateway_frame gateway gatewayConfig w r w' :
  ensureDataPlaneForGateway gateway gatewayConfig w = (r, w') → gatewaysUntouched w w'.
Proof.
  unfold ensureDataPlaneForGateway, ListDataPlanesForGateway.
  unfold bind at 1. unfold bind at 1.
  destruct (List DataPlane _ _ _ w) as [[l|e] w1] eqn:Hl;
    apply List_untouched in Hl; [|intros [= <- <-]; done].
  unfold ret at 1. unfold bind at 1.
  set (owned := filter _ l). clearbody owned.
  destruct owned as [|existing [|second rest]]; simpl.
  - intros Hc. apply Create_untouched in Hc; [|done].
    by eapply gatewaysUntouched_trans.
  - destruct (EnsureObjectMetaIsUpdated _ _) as [updated meta].
    destruct (gcfg_DataPlaneDeploymentOptions gatewayConfig) as [opts|];
      [destruct (negb _)|]; try destruct updated;
      try (intros [= <- <-]; done);
      intros Hc; apply Update_untouched in Hc; try done;
      by eapply gatewaysUntouched_trans.
  - destruct (DeleteAllOf DataPlane _ _ _ w1) as [[[]|e] w2] eqn:Hdel;
      apply DeleteAllOf_untouched in Hdel; try done.
    + intros Hc. apply Create_untouched in Hc; [|done].
      eapply gatewaysUntouched_trans; [|done]. by eapply gatewaysUntouched_trans.
    + intros [= <- <-]. by eapply gatewaysUntouched_trans.
Qed.

Lemma ensureControlPlaneForGateway_frame gatewayClass gateway gatewayConfig name w r w' :
  ensureControlPlaneForGateway gatewayClass gateway gatewayConfig name w = (r, w') →
  gatewaysUntouched w w'.
Proof.
  unfold ensureControlPlaneForGateway, ListControlPlanesForGateway.
  unfold bind at 1. unfold bind at 1.
  destruct (List ControlPlane _ _ _ w) as [[l|e] w1] eqn:Hl;
    apply List_untouched in Hl; [|intros [= <- <-]; done].
  unfold ret at 1. unfold bind at 1.
  set (owned := filter _ l). clearbody owned.
  destruct owned as [|existing [|second rest]]; simpl.
  - intros Hc. apply Create_untouched in Hc; [|done].
    by eapply gatewaysUntouched_trans.
  - destruct (EnsureObjectMetaIsUpdated _ _) as [updated meta].
    destruct (gcfg_ControlPlaneDeploymentOptions gatewayConfig) as [opts|];
      [destruct (negb _)|]; try destruct updated;
      try (intros [= <- <-]; done);
      intros Hc; apply Update_untouched in Hc; try done;
      by eapply gatewaysUntouched_trans.
  - destruct (DeleteAllOf DataPlane _ _ _ w1) as [[[]|e] w2] eqn:Hdel;
      apply DeleteAllOf_untouched in Hdel; try done.
    + intros Hc. apply Create_untouched in Hc; [|done].
      eapply gatewaysUntouched_trans; [|done]. by eapply gatewaysUntouched_trans.
    + intros [= <- <-]. by eapply gatewaysUntouched_trans.
Qed.


Lemma ensuresDataPlane_untouched namespace name w gateway gatewayClass gatewayConfig
    dataplane w4 :
  ensuresDataPlane namespace name w gateway gatewayClass gatewayConfig dataplane w4 →
  gatewaysUntouched w w4.
Proof.
  intros (w1 & w2 & config & w3 & Hget & Hver & _ & Hcfg & _ & Hdp).
  apply Get_cases in Hget as (Ho1 & Hc1 & _).
  apply verifyGatewayClassSupport_frame in Hver as (Ho2 & Hc2).
  apply getOrCreateGatewayConfiguration_frame in Hcfg as (Ho3 & Hc3).
  apply ensureDataPlaneForGateway_frame in Hdp.
  eapply gatewaysUntouched_trans; [|exact Hdp].
  eapply gatewaysUntouched_trans; [|by apply same_cluster_untouched].
  eapply gatewaysUntouched_trans; by apply same_cluster_untouched.
Qed.

Lemma ensuresControlPlane_untouched gateway gatewayClass gatewayConfig dataplane w4
    controlplane w6 :
  ensuresControlPlane gateway gatewayClass gatewayConfig dataplane w4 controlplane w6 →
  gatewaysUntouched w4 w6.
Proof.
  intros (service0 & w5 & Hl & Hcp).
  apply ListServicesForOwner_cases in Hl as (Ho & Hc & _).
  apply ensureControlPlaneForGateway_frame in Hcp.
  eapply gatewaysUntouched_trans; [by apply same_cluster_untouched | done].
Qed.

(** C1, amended. A Gateway reconcile pass writes the Gateway's status only
    when it marks the Gateway scheduled or when it has seen, in this pass, the
    condition Provisioned/True on the DataPlane it ensured and on the
    ControlPlane it ensured; it then ends with [ensureGatewayMarkedReady].
    When the DataPlane, or else the ControlPlane, is not Provisioned/True, the
    pass asks for an immediate requeue and leaves the stored Gateways and the
    events as they were: a Ready/True written by an earlier pass stays. *)
Theorem C1_ready_written_only_when_both_provisioned namespace name w :
  (∀ gateway gatewayClass gatewayConfig dataplane w4,
     ensuresDataPlane namespace name w gateway gatewayClass gatewayConfig dataplane w4 →
     (hasConditionTrue DataPlaneConditionTypeProvisioned (dp_Conditions dataplane) = false →
      GatewayReconcile namespace name w
        = ((mkResult true requeueWithoutBackoff, None), w4)
      ∧ gatewaysUntouched w w4)
     ∧ (hasConditionTrue DataPlaneConditionTypeProvisioned (dp_Conditions dataplane) = true →
        ∀ controlplane w6,
          ensuresControlPlane gateway gatewayClass gatewayConfig dataplane w4
                              controlplane w6 →
          (hasConditionTrue ControlPlaneConditionTypeProvisioned
                            (cp_Conditions controlplane) = false →
           GatewayReconcile namespace name w
             = ((mkResult true requeueWithoutBackoff, None), w6)
           ∧ gatewaysUntouched w w6)
          ∧ (hasConditionTrue ControlPlaneConditionTypeProvisioned
                              (cp_Conditions controlplane) = true →
             GatewayReconcile namespace name w = finishWithReady gateway dataplane w6
             ∧ gatewaysUntouched w w6)))
  ∧ (∀ res w',
       GatewayReconcile namespace name w = (res, w') →
       gatewaysUntouched w w'
       ∨ (∃ gateway w1,
            Get Gateway namespace name w = (Ok gateway, w1)
            ∧ IsGatewayScheduled gateway = false)
       ∨ (∃ gateway gatewayClass gatewayConfig dataplane w4 controlplane w6,
            ensuresDataPlane namespace name w gateway gatewayClass gatewayConfig
                             dataplane w4
            ∧ ensuresControlPlane gateway gatewayClass gatewayConfig dataplane w4
                                  controlplane w6
            ∧ hasConditionTrue DataPlaneConditionTypeProvisioned
                               (dp_Conditions dataplane) = true
            ∧ hasConditionTrue ControlPlaneConditionTypeProvisioned
                               (cp_Conditions controlplane) = true
            ∧ (res, w') = finishWithReady gateway dataplane w6)).
Proof.
  split.
  - intros gateway gatewayClass gatewayConfig dataplane w4 Hdp.
    pose proof (ensuresDataPlane_untouched _ _ _ _ _ _ _ _ Hdp) as Hun4.
    destruct Hdp as (w1 & w2 & config & w3 & Hget & Hver & Hsched & Hcfg & -> & Hdp).
    split.
    + intros Hnot. split; [|done].
      unfold GatewayReconcile, handle, bindR.
      rewrite Hget, Hver, Hsched. simpl. rewrite Hcfg, Hdp, Hnot. done.
    + intros Hready controlplane w6 Hcp.
      pose proof (ensuresControlPlane_untouched _ _ _ _ _ _ _ Hcp) as Hun6.
      destruct Hcp as (service0 & w5 & Hl & Hcp).
      split; intros Hc; (split; [|by eapply gatewaysUntouched_trans]);
        unfold GatewayReconcile, handle, bindR;
        rewrite Hget, Hver, Hsched; simpl; rewrite Hcfg, Hdp, Hready; simpl;
        rewrite Hl; simpl; rewrite Hcp, Hc; simpl; [done|].
      unfold finishWithReady. destruct (ensureGatewayMarkedReady _ _ _) as [[?|?] ?]; done.
  - intros res w'. unfold GatewayReconcile, handle.
    destruct (Get Gateway namespace name w) as [[gateway|e] w1] eqn:Hget.
    2:{ apply Get_cases in Hget as (Ho1 & Hc1 & _).
        destruct (IsNotFound e); intros [= <- <-]; left; by apply same_cluster_untouched. }
    pose proof Hget as Hget'. apply Get_cases in Hget' as (Ho1 & Hc1 & _).
    pose proof (same_cluster_untouched _ _ Ho1 Hc1) as Hun1.
    destruct (verifyGatewayClassSupport gateway w1) as [[gatewayClass|e] w2] eqn:Hver.
    2:{ apply verifyGatewayClassSupport_frame in Hver as (Ho2 & Hc2).
        destruct (errors_Is e _); intros [= <- <-]; left;
          (eapply gatewaysUntouched_trans; [exact Hun1 | by apply same_cluster_untouched]). }
    pose proof Hver as Hver'. apply verifyGatewayClassSupport_frame in Hver' as (Ho2 & Hc2).
    pose proof (gatewaysUntouched_trans _ _ _ Hun1 (same_cluster_untouched _ _ Ho2 Hc2))
      as Hun2.
    destruct (IsGatewayScheduled gateway) eqn:Hsched; simpl.
    2:{ intros _. right. left. eauto. }
    unfold bindR at 1.
    destruct (getOrCreateGatewayConfiguration gatewayClass w2) as [[config|e] w3] eqn:Hcfg.
    2:{ apply getOrCreateGatewayConfiguration_frame in Hcfg as (Ho3 & Hc3).
        intros [= <- <-]. left.
        eapply gatewaysUntouched_trans; [exact Hun2 | by apply same_cluster_untouched]. }
    pose proof Hcfg as Hcfg'.
    apply getOrCreateGatewayConfiguration_frame in Hcfg' as (Ho3 & Hc3).
    pose proof (gatewaysUntouched_trans _ _ _ Hun2 (same_cluster_untouched _ _ Ho3 Hc3))
      as Hun3.
    unfold bindR at 1.
    destruct (ensureDataPlaneForGateway gateway _ w3) as [[dataplane|e] w4] eqn:Hdp.
    2:{ apply ensureDataPlaneForGateway_frame in Hdp. intros [= <- <-]. left.
        exact (gatewaysUntouched_trans _ _ _ Hun3 Hdp). }
    assert (Hens : ensuresDataPlane namespace name w gateway gatewayClass
                     (setDataplaneGatewayConfigDefaults config) dataplane w4).
    { exists w1, w2, config, w3. done. }
    pose proof (ensuresDataPlane_untouched _ _ _ _ _ _ _ _ Hens) as Hun4.
    destruct (hasConditionTrue DataPlaneConditionTypeProvisioned (dp_Conditions dataplane))
      eqn:Hready; simpl.
    2:{ intros [= <- <-]. left. done. }
    unfold bindR at 1.
    destruct (ListServicesForOwner _ _ _ _ w4) as [[services|e] w5] eqn:Hl.
    2:{ apply ListServicesForOwner_cases in Hl as (Ho5 & Hc5 & _). intros [= <- <-]. left.
        eapply gatewaysUntouched_trans; [exact Hun4 | by apply same_cluster_untouched]. }
    pose proof Hl as Hl'. apply ListServicesForOwner_cases in Hl' as (Ho5 & Hc5 & _).
    pose proof (gatewaysUntouched_trans _ _ _ Hun4 (same_cluster_untouched _ _ Ho5 Hc5))
      as Hun5.
    destruct services as [|service0 [|service1 rest]]; simpl.
    1:{ intros [= <- <-]; left; done. }
    2:{ intros [= <- <-]; left; done. }
    unfold bindR at 1.
    destruct (ensureControlPlaneForGateway _ _ _ _ w5) as [[controlplane|e] w6] eqn:Hcp.
    2:{ apply ensureControlPlaneForGateway_frame in Hcp. intros [= <- <-]. left.
        exact (gatewaysUntouched_trans _ _ _ Hun5 Hcp). }
    assert (Hens' : ensuresControlPlane gateway gatewayClass
                      (setDataplaneGatewayConfigDefaults config) dataplane w4
                      controlplane w6).
    { exists service0, w5. done. }
    pose proof (ensuresControlPlane_untouched _ _ _ _ _ _ _ Hens') as Hun6.
    destruct (hasConditionTrue ControlPlaneConditionTypeProvisioned
                               (cp_Conditions controlplane)) eqn:Hcready; simpl.
    2:{ intros [= <- <-]. left. exact (gatewaysUntouched_trans _ _ _ Hun4 Hun6). }
    intros Hfin. right. right.
    exists gateway, gatewayClass, (setDataplaneGatewayConfigDefaults config), dataplane, w4,
           controlplane, w6.
    split_and!; done.
Qed.

(** C8, amended. With the API calls served, a Gateway whose class name is
    empty, or whose GatewayClass names another controller, is ignored: the
    pass returns no error and leaves the world as it is (no event, no write).
    A Gateway whose GatewayClass is absent from the cluster is not ignored:
    the pass returns the NotFound error of the lookup to the caller, again
    without event or write. *)
Theorem C8_unsupported_ignored_absent_reported namespace name w gateway :
  faults w = [] →
  find (hasKey namespace name) (gateways (cluster w)) = Some gateway →
  ((gw_GatewayClassName gateway = ""
    ∨ ∃ gwc, find (hasKey "" (gw_GatewayClassName gateway)) (gatewayClasses (cluster w))
             = Some gwc
             ∧ gwc_ControllerName gwc ≠ ControllerName) →
   GatewayReconcile namespace name w = ((noResult, None), w))
  ∧ (gw_GatewayClassName gateway ≠ "" →
     find (hasKey "" (gw_GatewayClassName gateway)) (gatewayClasses (cluster w)) = None →
     GatewayReconcile namespace name w
     = ((noResult, Some (notFound (gw_GatewayClassName gateway))), w)).
Proof.
  intros Hf Hgw. unfold GatewayReconcile, handle.
  rewrite (Get_no_fault (K := Gateway)) by done. simpl. rewrite Hgw.
  unfold verifyGatewayClassSupport. split.
  - intros [Hempty|(gwc & Hfind & Hne)].
    + rewrite bool_decide_eq_true_2 by done. done.
    + case_bool_decide; [done|]. unfold bind.
      rewrite (Get_no_fault (K := GatewayClass)) by done. simpl. rewrite Hfind.
      rewrite bool_decide_eq_false_2 by done. done.
  - intros Hne Hnone. rewrite bool_decide_eq_false_2 by done. unfold bind.
    rewrite (Get_no_fault (K := GatewayClass)) by done. simpl. rewrite Hnone. done.
Qed.
End GatewayPassProperties.

(** C1 as the specification words it fails on the scenario's stale cluster:
    the DataPlane's Provisioned condition is False, the pass requeues, and
    the stored Gateway is Ready/True after the pass as it was before. *)
Lemma C1_counterexample :
  let after := cluster (Scenario.reconcileGateway Scenario.clusterStale).2 in
  (Scenario.reconcileGateway Scenario.clusterStale).1 = (mkResult true 1, None)
  ∧ gateways after = [Scenario.gatewayReady]
  ∧ dataPlanes after = [Scenario.dataplaneNotReady]
  ∧ controlPlanes after = [Scenario.controlplane]
  ∧ ¬ (hasConditionTrue GatewayConditionReady
                        (gws_Conditions (gw_status Scenario.gatewayReady)) = true
       ↔ hasConditionTrue DataPlaneConditionTypeProvisioned
                          (dp_Conditions Scenario.dataplaneNotReady) = true
         ∧ hasConditionTrue ControlPlaneConditionTypeProvisioned
                            (cp_Conditions Scenario.controlplane) = true).
Proof.
  split_and!; try (vm_compute; reflexivity).
  intros [Hready _]. destruct (Hready eq_refl) as [Hdp _].
  vm_compute in Hdp. discriminate.
Qed.

(** The stale pass of the scenario, through the theorem. *)
Lemma C1_witness :
  ensuresDataPlane (H := Scenario.consts) (H0 := Scenario.gatewayHelpers)
    "default" "gw" (Scenario.world Scenario.clusterStale)
    Scenario.gatewayReady Scenario.gatewayClass emptyGatewayConfiguration
    Scenario.dataplaneNotReady (Scenario.world Scenario.clusterStale)
  ∧ hasConditionTrue DataPlaneConditionTypeProvisioned
                     (dp_Conditions Scenario.dataplaneNotReady) = false
  ∧ Scenario.reconcileGateway Scenario.clusterStale
    = ((mkResult true 1, None), Scenario.world Scenario.clusterStale)
  ∧ gatewaysUntouched (Scenario.world Scenario.clusterStale)
                      (Scenario.world Scenario.clusterStale).
Proof.
  assert (Hpath : ensuresDataPlane (H := Scenario.consts) (H0 := Scenario.gatewayHelpers)
            "default" "gw" (Scenario.world Scenario.clusterStale)
            Scenario.gatewayReady Scenario.gatewayClass emptyGatewayConfiguration
            Scenario.dataplaneNotReady (Scenario.world Scenario.clusterStale)).
  { exists (Scenario.world Scenario.clusterStale), (Scenario.world Scenario.clusterStale),
           emptyGatewayConfiguration, (Scenario.world Scenario.clusterStale).
    split_and!; vm_compute; reflexivity. }
  assert (Hnot : hasConditionTrue DataPlaneConditionTypeProvisioned
                   (dp_Conditions Scenario.dataplaneNotReady) = false)
    by (vm_compute; reflexivity).
  split; [exact Hpath|]. split; [exact Hnot|].
  destruct (C1_ready_written_only_when_both_provisioned (H := Scenario.consts)
              (H0 := Scenario.gatewayHelpers) "default" "gw"
              (Scenario.world Scenario.clusterStale)) as [Hpaths _].
  destruct (Hpaths _ _ _ _ _ Hpath) as [Hstale _].
  exact (Hstale Hnot).
Defined.

(** C8 as the specification words it fails when the GatewayClass is absent:
    the pass returns the NotFound error of the lookup instead of success. *)
Lemma C8_counterexample :
  find (hasKey "" (gw_GatewayClassName Scenario.gateway))
       (gatewayClasses Scenario.clusterWithoutClass) = None
  ∧ (Scenario.reconcileGateway Scenario.clusterWithoutClass).1
    = (noResult, Some (StatusError StatusReasonNotFound "kong"))
  ∧ (Scenario.reconcileGateway Scenario.clusterWithoutClass).1.2 ≠ None.
Proof.
  split_and!; [vm_compute; reflexivity | vm_compute; reflexivity |].
  vm_compute. discriminate.
Qed.

(** A foreign class is ignored, an absent class is reported. *)
Lemma C8_witness :
  (faults (Scenario.world Scenario.clusterForeignClass) = []
   ∧ find (hasKey "default" "gw")
          (gateways (cluster (Scenario.world Scenario.clusterForeignClass)))
     = Some Scenario.gateway
   ∧ Scenario.reconcileGateway Scenario.clusterForeignClass
     = ((noResult, None), Scenario.world Scenario.clusterForeignClass))
  ∧ (faults (Scenario.world Scenario.clusterWithoutClass) = []
     ∧ find (hasKey "default" "gw")
            (gateways (cluster (Scenario.world Scenario.clusterWithoutClass)))
       = Some Scenario.gateway
     ∧ Scenario.reconcileGateway Scenario.clusterWithoutClass
       = ((noResult, Some (notFound "kong")), Scenario.world Scenario.clusterWithoutClass)).
Proof.
  split.
  - assert (Hgw : find (hasKey "default" "gw")
                    (gateways (cluster (Scenario.world Scenario.clusterForeignClass)))
                  = Some Scenario.gateway) by (vm_compute; reflexivity).
    split; [reflexivity|]. split; [exact Hgw|].
    destruct (C8_unsupported_ignored_absent_reported (H := Scenario.consts)
                (H0 := Scenario.gatewayHelpers) "default" "gw"
                (Scenario.world Scenario.clusterForeignClass) Scenario.gateway
                eq_refl Hgw) as [Hignored _].
    apply Hignored. right. exists Scenario.foreignClass.
    split; [vm_compute; reflexivity | vm_compute; discriminate].
  - assert (Hgw : find (hasKey "default" "gw")
                    (gateways (cluster (Scenario.world Scenario.clusterWithoutClass)))
                  = Some Scenario.gateway) by (vm_compute; reflexivity).
    split; [reflexivity|]. split; [exact Hgw|].
    destruct (C8_unsupported_ignored_absent_reported (H := Scenario.consts)
                (H0 := Scenario.gatewayHelpers) "default" "gw"
                (Scenario.world Scenario.clusterWithoutClass) Scenario.gateway
                eq_refl Hgw) as [_ Habsent].
    apply Habsent; [vm_compute; discriminate | vm_compute; reflexivity].
Defined.

(** A full pass on the scenario: Gateway scheduled, DataPlane and
    ControlPlane Provisioned/True, one Service.  The pass marks the Gateway
    ready and stores the Service's address. *)
Example GatewayReconcile_marks_ready :
  Scenario.reconcileGateway
    (mkCluster [Scenario.gatewayClass] [] [Scenario.gateway] [Scenario.dataplane]
               [Scenario.controlplane] [] [Scenario.service])
  = ((noResult, None),
     Scenario.world
       (mkCluster [Scenario.gatewayClass] []
                  [mkGateway Scenario.gatewayMeta "kong"
                             (mkGatewayStatus [readyCondition 1 100] [ipAddress "10.0.0.1"])]
                  [Scenario.dataplane] [Scenario.controlplane] [] [Scenario.service])).
Proof. vm_compute. reflexivity. Qed.

(* ------------------------------------------------------------------------- *)
(** ** The DataPlane reconcile pass                                           *)
(* ------------------------------------------------------------------------- *)

Ltac trace_absurd :=
  exfalso;
  repeat match goal with
         | H : _ ∈ _ ++ _ |- _ => apply elem_of_app in H as [H|H]
         | H : _ ∈ _ :: _ |- _ => apply elem_of_cons in H as [H|H]
         | H : _ ∈ [] |- _ => by apply elem_of_nil in H
         end;
  try done; try discriminate.

Section DataPlanePassProperties.
Context `{Consts} `{DataPlaneHelpers}.

Lemma updateStatus_observables updated w r w' :
  updateStatus updated w = (r, w') → sameObservables w w'.
Proof.
  unfold updateStatus, bind, catch.
  destruct (Get DataPlane _ _ w) as [[current|e] w1] eqn:Hget;
    apply Get_cases in Hget as (Hobs & _).
  - destruct (NeedsUpdate current updated).
    + destruct (StatusUpdate updated w1) as [[o|e] w2] eqn:Hup;
        apply StatusUpdate_cases in Hup as (Hobs2 & _);
        intros [= <- <-]; by eapply sameObservables_trans.
    + intros [= <- <-]. done.
  - destruct (negb (IsNotFound e)); [intros [= <- <-]; done|]. unfold ret.
    destruct (NeedsUpdate emptyDataPlane updated).
    + destruct (StatusUpdate updated w1) as [[o|e'] w2] eqn:Hup;
        apply StatusUpdate_cases in Hup as (Hobs2 & _);
        intros [= <- <-]; by eapply sameObservables_trans.
    + intros [= <- <-]. done.
Qed.

Lemma passesService_trace namespace name w dataplane service w2 :
  passesService namespace name w dataplane service w2 →
  trace w2 = trace w ++ ["ensureServiceForDataPlane"].
Proof.
  intros (stored & w1 & Hget & _ & Hcall).
  apply Get_cases in Hget as ((_ & Htr & _) & _).
  apply call_trace in Hcall. congruence.
Qed.

Lemma reconcile_at_validation namespace name w dataplane service w2 :
  reachesValidation namespace name w dataplane service w2 →
  DataPlaneReconcile namespace name w
  = handle (call "Validate" (Validate dataplane))
      (λ err w,
         returning noResult
           (DataPlaneUtils.ensureDataPlaneIsMarkedNotProvisioned dataplane
              DataPlaneConditionValidationFailed (errorText err))
           (recordEvent (validationFailedEvent dataplane err) w))
      (λ _,
         try! (createdOrUpdated, certSecret) :=
           call "ensureCertificate"
                (ensureCertificate dataplane (Name (svc_meta service))) in
         if createdOrUpdated : bool then returns noResult None else
         try! (createdOrUpdated, dataplaneDeployment) :=
           call "ensureDeploymentForDataPlane"
                (ensureDeploymentForDataPlane dataplane (Name (sec_meta certSecret))) in
         if createdOrUpdated : bool then returns noResult None else
         if (ds_Replicas (d_status dataplaneDeployment) =? 0)
            || (ds_AvailableReplicas (d_status dataplaneDeployment)
                <? ds_Replicas (d_status dataplaneDeployment))
         then returns noResult None
         else
           handle (updateStatus (ensureIsMarkedProvisioned dataplane))
             (λ err, if IsConflict err
                     then returns (mkResult true requeueWithoutBackoff) None
                     else returns noResult (Some err))
             (λ _, returns noResult None)) w2.
Proof.
  intros ((stored & w1 & Hget & Hsched & Hsvc) & Hip & Henv).
  unfold DataPlaneReconcile. unfold handle at 1. rewrite Hget, Hsched.
  unfold bindR at 1. rewrite Hsvc.
  rewrite bool_decide_eq_false_2 by done.
  assert ((length (do_Env (dp_spec dataplane)) =? 0)%nat
          && (length (do_EnvFrom (dp_spec dataplane)) =? 0)%nat = false) as ->; [|done].
  apply not_true_is_false. intros Hb. apply Henv.
  apply andb_true_iff in Hb as [H1 H2]. apply Nat.eqb_eq in H1, H2.
  split; by apply length_zero_iff_nil.
Qed.

Lemma reconcile_on_validation_failure namespace name w dataplane service w2 err w3
    marked w' :
  reachesValidation namespace name w dataplane service w2 →
  call "Validate" (Validate dataplane) w2 = (Err err, w3) →
  DataPlaneUtils.ensureDataPlaneIsMarkedNotProvisioned dataplane
    DataPlaneConditionValidationFailed (errorText err)
    (recordEvent (validationFailedEvent dataplane err) w3) = (marked, w') →
  DataPlaneReconcile namespace name w = ((noResult, errorOf marked), w')
  ∧ trace w' = trace w ++ ["ensureServiceForDataPlane"; "Validate"].
Proof.
  intros Hreach Hval Hmark.
  pose proof (ensureDataPlaneIsMarkedNotProvisioned_spec _ _ _ _ _ _ Hmark)
    as ((_ & Htr & _) & _).
  split.
  - rewrite (reconcile_at_validation _ _ _ _ _ _ Hreach). unfold handle.
    rewrite Hval. unfold returning. rewrite Hmark. destruct marked; done.
  - rewrite Htr. simpl. apply call_trace in Hval. rewrite Hval.
    destruct Hreach as (Hpass & _). rewrite (passesService_trace _ _ _ _ _ _ Hpass).
    rewrite <- app_assoc. done.
Qed.




(** C4. In a DataPlane reconcile pass, when the Service ensurer returns a
    Service without ClusterIP the pass returns at once, without error, in the
    world the ensurer left; and a pass in which the Deployment ensurer is
    called has found the Service with a ClusterIP and has had the validator
    return nil before. *)
Theorem C4_deployment_after_clusterip_and_validation namespace name w :
  (∀ dataplane service w2,
     passesService namespace name w dataplane service w2 →
     svc_ClusterIP service = "" →
     DataPlaneReconcile namespace name w = ((noResult, None), w2))
  ∧ (∀ res w',
       DataPlaneReconcile namespace name w = (res, w') →
       "ensureDeploymentForDataPlane" ∉ trace w →
       "ensureDeploymentForDataPlane" ∈ trace w' →
       ∃ dataplane service w2 w3,
         reachesValidation namespace name w dataplane service w2
         ∧ call "Validate" (Validate dataplane) w2 = (Ok tt, w3)).
Proof.
  split.
  - intros dataplane service w2 (stored & w1 & Hget & Hsched & Hsvc) Hip.
    unfold DataPlaneReconcile. unfold handle at 1. rewrite Hget, Hsched.
    unfold bindR at 1. rewrite Hsvc.
    rewrite bool_decide_eq_true_2 by done. done.
  - intros res w' Hrun Hnot Hin. revert Hrun.
    unfold DataPlaneReconcile. unfold handle at 1.
    destruct (Get DataPlane namespace name w) as [[stored|e] w1] eqn:Hget.
    2:{ apply Get_cases in Hget as ((_ & Htr & _) & _).
        destruct (IsNotFound e); intros [= <- <-]; rewrite Htr in Hin; done. }
    pose proof Hget as Hget'. apply Get_cases in Hget' as ((_ & Htr1 & _) & _).
    destruct (ensureIsMarkedScheduled (InitReady stored)) as [marked dataplane] eqn:Hsched.
    destruct marked.
    { unfold returning.
      destruct (updateStatus dataplane w1) as [[?|?] w2] eqn:Hup;
        apply updateStatus_observables in Hup as (_ & Htr2 & _);
        intros [= <- <-]; rewrite Htr2, Htr1 in Hin; done. }
    unfold bindR at 1.
    destruct (call "ensureServiceForDataPlane" _ w1) as [[[changed service]|e] w2] eqn:Hsvc.
    2:{ apply call_trace in Hsvc. intros [= <- <-]. rewrite Hsvc, Htr1 in Hin.
        trace_absurd. }
    pose proof (call_trace _ _ _ _ _ Hsvc) as Htr2. rewrite Htr1 in Htr2.
    destruct changed.
    { unfold returning.
      destruct (call "ensureDataPlaneServiceStatus" _ w2) as [[?|?] w3] eqn:Hst;
        apply call_trace in Hst; intros [= <- <-]; rewrite Hst, Htr2 in Hin;
        trace_absurd. }
    case_bool_decide as Hip.
    { intros [= <- <-]. rewrite Htr2 in Hin. trace_absurd. }
    destruct ((length (do_Env (dp_spec dataplane)) =? 0)%nat
              && (length (do_EnvFrom (dp_spec dataplane)) =? 0)%nat) eqn:Henv.
    { unfold handle.
      destruct (Update _ w2) as [[?|e] w3] eqn:Hup;
        apply Update_cases in Hup as ((_ & Htr3 & _) & _);
        [|destruct (IsConflict e)]; intros [= <- <-]; rewrite Htr3, Htr2 in Hin;
        trace_absurd. }
    assert (Hreach : reachesValidation namespace name w dataplane service w2).
    { split; [exists stored, w1; done|]. split; [done|].
      intros [Hnil1 Hnil2]. rewrite Hnil1, Hnil2 in Henv. discriminate. }
    unfold handle at 1.
    destruct (call "Validate" (Validate dataplane) w2) as [[[]|e] w3] eqn:Hval.
    { intros _. exists dataplane, service, w2, w3. done. }
    destruct (DataPlaneUtils.ensureDataPlaneIsMarkedNotProvisioned dataplane
                DataPlaneConditionValidationFailed (errorText e)
                (recordEvent (validationFailedEvent dataplane e) w3))
      as [marked w''] eqn:Hmark.
    destruct (reconcile_on_validation_failure _ _ _ _ _ _ _ _ _ _ Hreach Hval Hmark)
      as [_ Htr].
    unfold returning. rewrite Hmark.
    destruct marked; intros [= <- <-]; rewrite Htr in Hin; trace_absurd.
Qed.

Lemma reconcile_at_provisioned namespace name w dataplane w5 :
  reachesProvisioned namespace name w dataplane w5 →
  DataPlaneReconcile namespace name w
  = handle (updateStatus (ensureIsMarkedProvisioned dataplane))
      (λ err, if IsConflict err
              then returns (mkResult true requeueWithoutBackoff) None
              else returns noResult (Some err))
      (λ _, returns noResult None) w5.
Proof.
  intros (service & w2 & w3 & certSecret & w4 & deployment
          & Hreach & Hval & Hcert & Hdep & Hrep & Hav).
  rewrite (reconcile_at_validation _ _ _ _ _ _ Hreach).
  unfold handle at 1. rewrite Hval. unfold bindR at 1. rewrite Hcert.
  unfold bindR at 1. rewrite Hdep.
  assert ((ds_Replicas (d_status deployment) =? 0)
          || (ds_AvailableReplicas (d_status deployment)
              <? ds_Replicas (d_status deployment)) = false) as ->; [|done].
  apply orb_false_iff. split; [by apply Z.eqb_neq | by apply Z.ltb_ge].
Qed.

(** C9, amended. In the DataPlane reconcile pass a conflict on the spec
    update that applies the defaults, or on the final status update that
    marks the DataPlane Provisioned, gives an immediate requeue
    (requeueWithoutBackoff) and no error, and any other error of these two
    updates is returned to the caller.  An error of the status update that
    marks the DataPlane scheduled, or of the one that records
    ValidationFailed, is returned to the caller as it is, a conflict
    included. *)
Theorem C9_conflict_requeues_at_two_updates namespace name w :
  (∀ dataplane service w2 err w3,
     passesService namespace name w dataplane service w2 →
     svc_ClusterIP service ≠ "" →
     hasNoEnv dataplane →
     Update (setDataPlaneSpec (SetDataPlaneDefaults (dp_spec dataplane)) dataplane) w2
       = (Err err, w3) →
     DataPlaneReconcile namespace name w
     = (if IsConflict err
        then (mkResult true requeueWithoutBackoff, None)
        else (noResult, Some err), w3))
  ∧ (∀ dataplane w5 err w6,
       reachesProvisioned namespace name w dataplane w5 →
       updateStatus (ensureIsMarkedProvisioned dataplane) w5 = (Err err, w6) →
       DataPlaneReconcile namespace name w
       = (if IsConflict err
          then (mkResult true requeueWithoutBackoff, None)
          else (noResult, Some err), w6))
  ∧ (∀ stored w1 dataplane err w2,
       Get DataPlane namespace name w = (Ok stored, w1) →
       ensureIsMarkedScheduled (InitReady stored) = (true, dataplane) →
       updateStatus dataplane w1 = (Err err, w2) →
       DataPlaneReconcile namespace name w = ((noResult, Some err), w2))
  ∧ (∀ dataplane service w2 invalid w3 err w4,
       reachesValidation namespace name w dataplane service w2 →
       call "Validate" (Validate dataplane) w2 = (Err invalid, w3) →
       DataPlaneUtils.ensureDataPlaneIsMarkedNotProvisioned dataplane
         DataPlaneConditionValidationFailed (errorText invalid)
         (recordEvent (validationFailedEvent dataplane invalid) w3) = (Err err, w4) →
       DataPlaneReconcile namespace name w = ((noResult, Some err), w4)).
Proof.
  split_and!.
  - intros dataplane service w2 err w3 (stored & w1 & Hget & Hsched & Hsvc) Hip
           [Henv1 Henv2] Hup.
    unfold DataPlaneReconcile. unfold handle at 1. rewrite Hget, Hsched.
    unfold bindR at 1. rewrite Hsvc.
    rewrite bool_decide_eq_false_2 by done. rewrite Henv1, Henv2. simpl.
    unfold handle. rewrite Hup. destruct (IsConflict err); done.
  - intros dataplane w5 err w6 Hreach Hup.
    rewrite (reconcile_at_provisioned _ _ _ _ _ Hreach). unfold handle. rewrite Hup.
    destruct (IsConflict err); done.
  - intros stored w1 dataplane err w2 Hget Hsched Hup.
    unfold DataPlaneReconcile. unfold handle at 1. rewrite Hget, Hsched.
    unfold returning. rewrite Hup. done.
  - intros dataplane service w2 invalid w3 err w4 Hreach Hval Hmark.
    destruct (reconcile_on_validation_failure _ _ _ _ _ _ _ _ _ _ Hreach Hval Hmark)
      as [Hrun _].
    exact Hrun.
Qed.

End DataPlanePassProperties.

(** C9 as the specification words it fails at the status update that records
    ValidationFailed: the API server answers it with a conflict, and the pass
    returns the conflict as an error instead of asking for a requeue. *)
Lemma C9_counterexample :
  let out := Scenario.reconcileDataPlane (Some Scenario.invalid)
               (Scenario.withFaults [None; None; Some Scenario.conflict]
                  (Scenario.clusterDataPlane Scenario.dataplaneNotReady Scenario.service)) in
  IsConflict Scenario.conflict = true
  ∧ out.1 = (noResult, Some Scenario.conflict)
  ∧ out.1 ≠ (mkResult true 1, None).
Proof.
  split_and!; [vm_compute; reflexivity | vm_compute; reflexivity |].
  vm_compute. discriminate.
Qed.


(** A pass that stops at the Service without ClusterIP, and a full pass that
    reaches the Deployment ensurer. *)
Lemma C4_witness :
  (let w := Scenario.world
              (Scenario.clusterDataPlane Scenario.dataplaneNotReady Scenario.serviceNoIP) in
   let w2 := setTrace ["ensureServiceForDataPlane"] w in
   passesService (H0 := Scenario.dataPlaneHelpers None)
     "default" "gw-dp" w Scenario.dataplaneNotReady Scenario.serviceNoIP w2
   ∧ svc_ClusterIP Scenario.serviceNoIP = ""
   ∧ Scenario.reconcileDataPlane None w = ((noResult, None), w2)
   ∧ cluster w2 = cluster w)
  ∧ (let w := Scenario.world
                (Scenario.clusterDataPlane Scenario.dataplaneNotReady Scenario.service) in
     let out := Scenario.reconcileDataPlane None w in
     Scenario.reconcileDataPlane None w = (out.1, out.2)
     ∧ ("ensureDeploymentForDataPlane" ∉ trace w)
     ∧ ("ensureDeploymentForDataPlane" ∈ trace out.2)
     ∧ ∃ dataplane service w2 w3,
         reachesValidation (H0 := Scenario.dataPlaneHelpers None)
           "default" "gw-dp" w dataplane service w2
         ∧ call "Validate" (Validate (DataPlaneHelpers := Scenario.dataPlaneHelpers None)
                                     dataplane) w2 = (Ok tt, w3)).
Proof.
  split.
  - intros w w2.
    assert (Hpass : passesService (H0 := Scenario.dataPlaneHelpers None)
              "default" "gw-dp" w Scenario.dataplaneNotReady Scenario.serviceNoIP w2).
    { exists Scenario.dataplaneNotReady, w. split_and!; vm_compute; reflexivity. }
    split; [exact Hpass|]. split; [reflexivity|]. split; [|reflexivity].
    destruct (C4_deployment_after_clusterip_and_validation (H := Scenario.consts)
                (H0 := Scenario.dataPlaneHelpers None) "default" "gw-dp" w)
      as [Hnoip _].
    exact (Hnoip _ _ _ Hpass eq_refl).
  - intros w out.
    assert (Hrun : Scenario.reconcileDataPlane None w = (out.1, out.2))
      by (vm_compute; reflexivity).
    assert (Hnot : "ensureDeploymentForDataPlane" ∉ trace w).
    { intros Hin. vm_compute in Hin. by apply elem_of_nil in Hin. }
    assert (Hin : "ensureDeploymentForDataPlane" ∈ trace out.2).
    { assert (Htrace : trace out.2
                       = ["ensureServiceForDataPlane"; "Validate"; "ensureCertificate";
                          "ensureDeploymentForDataPlane"]) by (vm_compute; reflexivity).
      rewrite Htrace. do 3 (apply elem_of_cons; right). apply elem_of_cons. left.
      reflexivity. }
    split; [exact Hrun|]. split; [exact Hnot|]. split; [exact Hin|].
    destruct (C4_deployment_after_clusterip_and_validation (H := Scenario.consts)
                (H0 := Scenario.dataPlaneHelpers None) "default" "gw-dp" w)
      as [_ Hafter].
    exact (Hafter _ _ Hrun Hnot Hin).
Defined.

(** A conflict on the defaults update and one on the final status update:
    both passes ask for a requeue. *)
Lemma C9_witness :
  (let w := Scenario.withFaults [None; None; Some Scenario.conflict]
              (Scenario.clusterDataPlane Scenario.dataplaneNoEnv Scenario.service) in
   let w2 := setTrace ["ensureServiceForDataPlane"]
               (Scenario.withFaults [Some Scenario.conflict]
                  (Scenario.clusterDataPlane Scenario.dataplaneNoEnv Scenario.service)) in
   let w3 := setTrace ["ensureServiceForDataPlane"]
               (Scenario.world
                  (Scenario.clusterDataPlane Scenario.dataplaneNoEnv Scenario.service)) in
   passesService (H0 := Scenario.dataPlaneHelpers None)
     "default" "gw-dp" w Scenario.dataplaneNoEnv Scenario.service w2
   ∧ svc_ClusterIP Scenario.service ≠ ""
   ∧ hasNoEnv Scenario.dataplaneNoEnv
   ∧ Update (setDataPlaneSpec
               (SetDataPlaneDefaults (DataPlaneHelpers := Scenario.dataPlaneHelpers None)
                                     (dp_spec Scenario.dataplaneNoEnv))
               Scenario.dataplaneNoEnv) w2
     = (Err Scenario.conflict, w3)
   ∧ Scenario.reconcileDataPlane None w = ((mkResult true 1, None), w3))
  ∧ (let w := Scenario.withFaults [None; None; None; None; Some Scenario.conflict]
                (Scenario.clusterDataPlane Scenario.dataplaneNotReady Scenario.service) in
     let w5 := setTrace ["ensureServiceForDataPlane"; "Validate"; "ensureCertificate";
                         "ensureDeploymentForDataPlane"]
                 (Scenario.withFaults [None; Some Scenario.conflict]
                    (Scenario.clusterDataPlane Scenario.dataplaneNotReady Scenario.service)) in
     let w6 := setTrace ["ensureServiceForDataPlane"; "Validate"; "ensureCertificate";
                         "ensureDeploymentForDataPlane"]
                 (Scenario.world
                    (Scenario.clusterDataPlane Scenario.dataplaneNotReady Scenario.service)) in
     reachesProvisioned (H0 := Scenario.dataPlaneHelpers None)
       "default" "gw-dp" w Scenario.dataplaneNotReady w5
     ∧ updateStatus (H0 := Scenario.dataPlaneHelpers None)
         (ensureIsMarkedProvisioned (DataPlaneHelpers := Scenario.dataPlaneHelpers None)
                                    Scenario.dataplaneNotReady) w5
       = (Err Scenario.conflict, w6)
     ∧ Scenario.reconcileDataPlane None w = ((mkResult true 1, None), w6)).
Proof.
  split.
  - intros w w2 w3.
    assert (Hpass : passesService (H0 := Scenario.dataPlaneHelpers None)
              "default" "gw-dp" w Scenario.dataplaneNoEnv Scenario.service w2).
    { exists Scenario.dataplaneNoEnv,
             (Scenario.withFaults [None; Some Scenario.conflict]
                (Scenario.clusterDataPlane Scenario.dataplaneNoEnv Scenario.service)).
      split_and!; vm_compute; reflexivity. }
    assert (Hip : svc_ClusterIP Scenario.service ≠ "") by (vm_compute; discriminate).
    assert (Henv : hasNoEnv Scenario.dataplaneNoEnv) by (split; reflexivity).
    assert (Hup : Update (setDataPlaneSpec
               (SetDataPlaneDefaults (DataPlaneHelpers := Scenario.dataPlaneHelpers None)
                                     (dp_spec Scenario.dataplaneNoEnv))
               Scenario.dataplaneNoEnv) w2
             = (Err Scenario.conflict, w3)) by (vm_compute; reflexivity).
    split; [exact Hpass|]. split; [exact Hip|]. split; [exact Henv|]. split; [exact Hup|].
    destruct (C9_conflict_requeues_at_two_updates (H := Scenario.consts)
                (H0 := Scenario.dataPlaneHelpers None) "default" "gw-dp" w)
      as [Hdefaults _].
    exact (Hdefaults _ _ _ _ _ Hpass Hip Henv Hup).
  - intros w w5 w6.
    assert (Hreach : reachesProvisioned (H0 := Scenario.dataPlaneHelpers None)
              "default" "gw-dp" w Scenario.dataplaneNotReady w5).
    { exists Scenario.service,
             (setTrace ["ensureServiceForDataPlane"]
                (Scenario.withFaults [None; None; Some Scenario.conflict]
                   (Scenario.clusterDataPlane Scenario.dataplaneNotReady Scenario.service))),
             (setTrace ["ensureServiceForDataPlane"; "Validate"]
                (Scenario.withFaults [None; None; Some Scenario.conflict]
                   (Scenario.clusterDataPlane Scenario.dataplaneNotReady Scenario.service))),
             (mkSecret (generatedMeta "default" "certificate")),
             (setTrace ["ensureServiceForDataPlane"; "Validate"; "ensureCertificate"]
                (Scenario.withFaults [None; None; Some Scenario.conflict]
                   (Scenario.clusterDataPlane Scenario.dataplaneNotReady Scenario.service))),
             Scenario.dataplaneDeployment.
      split_and!; try (vm_compute; reflexivity).
      - split; [|split].
        + exists Scenario.dataplaneNotReady,
                 (Scenario.withFaults [None; None; None; Some Scenario.conflict]
                    (Scenario.clusterDataPlane Scenario.dataplaneNotReady Scenario.service)).
          split_and!; vm_compute; reflexivity.
        + vm_compute. discriminate.
        + intros [Henv _]. vm_compute in Henv. discriminate.
      - vm_compute. discriminate.
      - vm_compute. discriminate. }
    assert (Hup : updateStatus (H0 := Scenario.dataPlaneHelpers None)
              (ensureIsMarkedProvisioned (DataPlaneHelpers := Scenario.dataPlaneHelpers None)
                                         Scenario.dataplaneNotReady) w5
            = (Err Scenario.conflict, w6)) by (vm_compute; reflexivity).
    split; [exact Hreach|]. split; [exact Hup|].
    destruct (C9_conflict_requeues_at_two_updates (H := Scenario.consts)
                (H0 := Scenario.dataPlaneHelpers None) "default" "gw-dp" w)
      as (_ & Hfinal & _).
    exact (Hfinal _ _ _ _ Hreach Hup).
Defined.

(* ------------------------------------------------------------------------- *)
(** ** Object metadata (internal/utils/kubernetes/metadata.go)           *)
(* ------------------------------------------------------------------------- *)

Lemma EnsureObjectMetaIsUpdated_updated existing generated :
  (EnsureObjectMetaIsUpdated existing generated).1
  = negb (bool_decide (OwnerReferences existing = OwnerReferences generated))
    || negb (bool_decide (Labels existing = Labels generated ∪ Labels existing)).
Proof. unfold EnsureObjectMetaIsUpdated. simpl. by case_match. Qed.

(** X1. [EnsureObjectMetaIsUpdated] returns the existing metadata with the
    generated owner references in place of its own and the generated labels
    laid over its labels: every generated label is in the result with the
    generated value, every other label is kept, and the name, generated-name
    prefix, namespace, UID and generation are those of the existing object.
    (Go writes into the existing label map, so the map must not be nil.) *)
Theorem X1_metadata_takes_generated_owner_and_labels existing generated updated meta :
  Labels existing ≠ ∅ →
  EnsureObjectMetaIsUpdated existing generated = (updated, meta) →
  OwnerReferences meta = OwnerReferences generated
  ∧ (∀ key value, Labels generated !! key = Some value → Labels meta !! key = Some value)
  ∧ (∀ key, Labels generated !! key = None → Labels meta !! key = Labels existing !! key)
  ∧ Name meta = Name existing ∧ GenerateName meta = GenerateName existing
  ∧ Namespace meta = Namespace existing ∧ UID meta = UID existing
  ∧ Generation meta = Generation existing.
Proof.
  intros _ Hrun.
  assert (meta = (EnsureObjectMetaIsUpdated existing generated).2) as -> by by rewrite Hrun.
  rewrite EnsureObjectMetaIsUpdated_meta. simpl.
  split; [done|]. split.
  - intros key value Hkey. by apply lookup_union_Some_l.
  - split; [|done]. intros key Hkey. by apply lookup_union_r.
Qed.

(** X2. [EnsureObjectMetaIsUpdated] reports an update exactly when the owner
    references differ from the generated ones or some generated label is
    missing from the existing labels or has another value; when it reports
    none, the metadata it returns is the existing one; and run again on its own
    result with the same generated metadata it reports no update and
    returns that result.  (Go's DeepEqual tells nil from empty: the statement
    is for a non-nil label map and generated owner references.) *)
Theorem X2_metadata_update_flag_and_idempotence existing generated updated meta :
  Labels existing ≠ ∅ →
  OwnerReferences generated ≠ [] →
  EnsureObjectMetaIsUpdated existing generated = (updated, meta) →
  (updated = false ↔
     OwnerReferences existing = OwnerReferences generated
     ∧ Labels generated ⊆ Labels existing)
  ∧ (updated = false → meta = existing)
  ∧ EnsureObjectMetaIsUpdated meta generated = (false, meta).
Proof.
  intros _ _ Hrun.
  assert (meta = (EnsureObjectMetaIsUpdated existing generated).2) as Hmeta by by rewrite Hrun.
  assert (updated = (EnsureObjectMetaIsUpdated existing generated).1) as Hupd by by rewrite Hrun.
  rewrite EnsureObjectMetaIsUpdated_meta in Hmeta.
  rewrite EnsureObjectMetaIsUpdated_updated in Hupd.
  assert (updated = false ↔
            OwnerReferences existing = OwnerReferences generated
            ∧ Labels generated ⊆ Labels existing) as Hiff.
  { rewrite Hupd, orb_false_iff, !negb_false_iff, !bool_decide_eq_true.
    split; intros [Hrefs Hlabels]; (split; [done|]).
    - rewrite Hlabels. apply map_union_subseteq_l.
    - symmetry. by apply map_subseteq_union. }
  split; [done|]. split.
  - intros [Hrefs Hlabels]%Hiff. subst meta. destruct existing. simpl in *.
    unfold SetLabels, SetOwnerReferences. simpl. f_equal; [|done].
    by apply map_subseteq_union.
  - apply injective_projections.
    + rewrite EnsureObjectMetaIsUpdated_updated. subst meta. simpl.
      rewrite orb_false_iff, !negb_false_iff, !bool_decide_eq_true. split; [done|].
      by rewrite (assoc_L (∪)), (idemp_L (∪)).
    + rewrite EnsureObjectMetaIsUpdated_meta. subst meta. simpl.
      unfold SetLabels, SetOwnerReferences. simpl.
      by rewrite (assoc_L (∪)), (idemp_L (∪)).
Qed.

(* ------------------------------------------------------------------------- *)
(** ** Owner listings and the ControlPlane watch functions               *)
(* ------------------------------------------------------------------------- *)

Lemma IsOwnedByRefUID_spec m uid :
  IsOwnedByRefUID m uid = true
  ↔ ∃ ownerRef, ownerRef ∈ OwnerReferences m ∧ or_UID ownerRef = uid.
Proof.
  unfold IsOwnedByRefUID. rewrite existsb_exists. split.
  - intros (ref & Hin & Huid%bool_decide_eq_true). exists ref. split; [|done].
    by apply list_elem_of_In.
  - intros (ref & Hin & Huid). exists ref. split; [by apply list_elem_of_In|].
    by apply bool_decide_eq_true.
Qed.

Lemma selected_spec `{Object K} ns key value (o : K) :
  selected ns key value o = true ↔
  (ns = "" ∨ Namespace (getMeta o) = ns) ∧ Labels (getMeta o) !! key = Some value.
Proof.
  unfold selected, InNamespace, MatchingLabels.
  rewrite andb_true_iff, orb_true_iff, !bool_decide_eq_true. done.
Qed.

Lemma listForOwner_spec `{Object K} requiredLabel requiredValue namespace uid w r w' :
  (let! l := List K namespace requiredLabel requiredValue in
   ret (filter (λ o : K, IsOwnedByRefUID (getMeta o) uid) l)) w = (r, w') →
  cluster w' = cluster w
  ∧ (faults w = [] → w' = w ∧ ∃ found, r = Ok found)
  ∧ ∀ found, r = Ok found →
      found `sublist_of` items (cluster w)
      ∧ ∀ o, o ∈ found ↔
             o ∈ items (cluster w)
             ∧ ownedChild requiredLabel requiredValue namespace uid (getMeta o).
Proof.
  unfold bind. destruct (List K _ _ _ w) as [[l|e] w1] eqn:Hl; unfold ret; cbn beta;
    intros [= <- <-].
  - pose proof Hl as Hl'. apply List_cases in Hl' as (_ & Hcl & _ & [(e & [=])|[= ->]]).
    split; [done|]. split.
    { intros Hf. unfold List in Hl. rewrite apiCall_no_fault in Hl by done.
      injection Hl as <-. eauto. }
    intros found [= <-]. split.
    + etrans; apply sublist_filter.
    + intros o. rewrite !list_elem_of_filter. unfold ownedChild.
      rewrite Is_true_true, IsOwnedByRefUID_spec, Is_true_true, selected_spec. tauto.
  - pose proof Hl as Hl'. apply List_cases in Hl' as (_ & Hcl & _ & _).
    split; [done|]. split; [|done].
    intros Hf. unfold List in Hl. by rewrite apiCall_no_fault in Hl.
Qed.

(** X3. [ListDeploymentsForOwner] and [ListServicesForOwner] leave the cluster
    as it is and, when the listing is served, return in store order exactly
    the stored objects that are in the namespace (in any namespace when it
    is empty), carry the required label with the required value and have an
    owner reference with the UID. *)
Theorem X3_owner_listings_find_exactly_the_owned requiredLabel requiredValue namespace uid w :
  (∀ r w',
     ListDeploymentsForOwner requiredLabel requiredValue namespace uid w = (r, w') →
     cluster w' = cluster w
     ∧ ∀ found, r = Ok found →
         found `sublist_of` deployments (cluster w)
         ∧ ∀ deployment, deployment ∈ found ↔
             deployment ∈ deployments (cluster w)
             ∧ ownedChild requiredLabel requiredValue namespace uid (d_meta deployment))
  ∧ (∀ r w',
       ListServicesForOwner requiredLabel requiredValue namespace uid w = (r, w') →
       cluster w' = cluster w
       ∧ ∀ found, r = Ok found →
           found `sublist_of` services (cluster w)
           ∧ ∀ service, service ∈ found ↔
               service ∈ services (cluster w)
               ∧ ownedChild requiredLabel requiredValue namespace uid (svc_meta service)).
Proof.
  split; intros r w' Hrun.
  - pose proof (listForOwner_spec (K := Deployment) _ _ _ _ _ _ _ Hrun)
      as (Hcl & _ & Hfound). done.
  - pose proof (listForOwner_spec (K := Service) _ _ _ _ _ _ _ Hrun)
      as (Hcl & _ & Hfound). done.
Qed.

Lemma ListAll_cases `{Object K} w :
  (∃ e fs, faults w = Some e :: fs ∧ ListAll K w = (Err e, setFaults fs w))
  ∨ (∃ w', ListAll K w = (Ok (items (cluster w)), w') ∧ cluster w' = cluster w
           ∧ events w' = events w ∧ trace w' = trace w).
Proof.
  unfold ListAll, apiCall. destruct (faults w) as [|[e|] fs] eqn:Hf.
  - right. eauto.
  - left. eauto.
  - right. eexists. split; [done|]. done.
Qed.

(** X19. On the same world [objHasControlplaneOwner] answers true exactly when
    [getControlplaneRequestFromRefUID] yields a request; there is at most
    one request and it names a stored ControlPlane whose UID is among the
    object's owner references; both make the same single listing and leave
    the cluster as it is. *)
Theorem X19_watch_predicate_and_map_function_agree obj w :
  let answer := objHasControlplaneOwner obj w in
  let requests := getControlplaneRequestFromRefUID obj w in
  answer.2 = requests.2
  ∧ cluster answer.2 = cluster w
  ∧ (answer.1 = true ↔ requests.1 ≠ [])
  ∧ (requests.1 = []
     ∨ ∃ controlplane,
         controlplane ∈ controlPlanes (cluster w)
         ∧ IsOwnedByRefUID obj (UID (cp_meta controlplane)) = true
         ∧ requests.1 = [mkRequest (Namespace (cp_meta controlplane))
                                   (Name (cp_meta controlplane))]).
Proof.
  unfold objHasControlplaneOwner, getControlplaneRequestFromRefUID.
  destruct (ListAll_cases (K := ControlPlane) w) as [(e & fs & Hf & ->)|(w' & -> & Hcl & _)];
    simpl.
  - split; [done|]. split; [done|]. split; [done|]. by left.
  - split; [done|]. split; [done|].
    destruct (find _ (controlPlanes (cluster w))) as [cp|] eqn:Hfind.
    + pose proof (find_elem_of _ _ _ Hfind) as Hin.
      apply find_some in Hfind as [_ Hown].
      split.
      * split; [done|]. intros _. apply existsb_exists. exists cp.
        split; [by apply list_elem_of_In|done].
      * right. exists cp. done.
    + split; [|by left]. split; [|done]. intros (cp & Hin & Hown)%existsb_exists.
      by rewrite (find_none _ _ Hfind cp Hin) in Hown.
Qed.

(** X20. The ClusterRole predicate answers true only for a ClusterRole that a
    stored ControlPlane owns and only when the listing of ControlPlanes was
    served (a failed listing is answered with false, so the event is
    dropped); likewise the ClusterRoleBinding predicate; and the two map
    functions yield requests only for an object of their own kind. *)
Theorem X20_watch_functions_need_kind_and_listing watched w :
  ((clusterRoleHasControlplaneOwner watched w).1 = true →
   (∀ err rest, faults w ≠ Some err :: rest)
   ∧ ∃ clusterRole controlplane,
       watched = ClusterRoleObject clusterRole
       ∧ controlplane ∈ controlPlanes (cluster w)
       ∧ IsOwnedByRefUID clusterRole (UID (cp_meta controlplane)) = true)
  ∧ ((clusterRoleBindingHasControlplaneOwner watched w).1 = true →
     (∀ err rest, faults w ≠ Some err :: rest)
     ∧ ∃ clusterRoleBinding controlplane,
         watched = ClusterRoleBindingObject clusterRoleBinding
         ∧ controlplane ∈ controlPlanes (cluster w)
         ∧ IsOwnedByRefUID clusterRoleBinding (UID (cp_meta controlplane)) = true)
  ∧ (∀ request, request ∈ (getControlplaneForClusterRole watched w).1 →
       ∃ clusterRole, watched = ClusterRoleObject clusterRole)
  ∧ (∀ request, request ∈ (getControlplaneForClusterRoleBinding watched w).1 →
       ∃ clusterRoleBinding, watched = ClusterRoleBindingObject clusterRoleBinding).
Proof.
  assert (∀ obj, (objHasControlplaneOwner obj w).1 = true →
            (∀ err rest, faults w ≠ Some err :: rest)
            ∧ ∃ controlplane,
                controlplane ∈ controlPlanes (cluster w)
                ∧ IsOwnedByRefUID obj (UID (cp_meta controlplane)) = true) as Hobj.
  { intros obj. unfold objHasControlplaneOwner.
    destruct (ListAll_cases (K := ControlPlane) w) as [(e & fs & Hf & ->)|(w' & Hl & _)];
      [done|].
    rewrite Hl. simpl. intros (cp & Hin & Hown)%existsb_exists. split.
    - intros err rest Hf. unfold ListAll, apiCall in Hl. by rewrite Hf in Hl.
    - exists cp. split; [by apply list_elem_of_In|done]. }
  split; [|split; [|split]].
  - destruct watched as [m|m|k m]; simpl; [|done|done].
    intros [Hserved (cp & Hin & Hown)]%Hobj. split; [done|]. by exists m, cp.
  - destruct watched as [m|m|k m]; simpl; [done| |done].
    intros [Hserved (cp & Hin & Hown)]%Hobj. split; [done|]. by exists m, cp.
  - destruct watched as [m|m|k m]; simpl; [eauto|by intros ? ?%elem_of_nil..].
  - destruct watched as [m|m|k m]; simpl; [by intros ? ?%elem_of_nil|eauto|
                                             by intros ? ?%elem_of_nil].
Qed.

(* ------------------------------------------------------------------------- *)
(** ** DataPlane conditions                                              *)
(* ------------------------------------------------------------------------- *)

Lemma isSameDataPlaneCondition_iff c1 c2 :
  isSameDataPlaneCondition c1 c2 = true ↔
  c_Type c1 = c_Type c2 ∧ c_Status c1 = c_Status c2
  ∧ c_Reason c1 = c_Reason c2 ∧ c_Message c1 = c_Message c2.
Proof.
  unfold isSameDataPlaneCondition. rewrite !andb_true_iff, !bool_decide_eq_true. tauto.
Qed.

Lemma markNotProvisionedLoop_settled np cs :
  c_Type np = DataPlaneConditionTypeProvisioned →
  (∀ c, c ∈ cs → c_Type c = DataPlaneConditionTypeProvisioned →
        c_Status c = c_Status np ∧ c_Reason c = c_Reason np ∧ c_Message c = c_Message np) →
  markNotProvisionedLoop np cs
  = (hasConditionType DataPlaneConditionTypeProvisioned cs, false, cs).
Proof.
  intros Hnp. induction cs as [|c cs IH]; simpl; intros Hall; [done|].
  rewrite IH; [|intros c' Hc'; apply Hall; by right].
  case_bool_decide as Hc; simpl; [|done].
  assert (isSameDataPlaneCondition np c = true) as ->; [|done].
  apply isSameDataPlaneCondition_iff.
  destruct (Hall c) as (? & ? & ?); [by left|done|]. by rewrite Hnp, Hc.
Qed.

Lemma markedNotProvisioned_settled dataplane reason message w :
  markedNotProvisioned reason message (dp_Conditions dataplane) →
  DataPlaneUtils.ensureDataPlaneIsMarkedNotProvisioned dataplane reason message w
  = (Ok dataplane, w).
Proof.
  intros [Hhas Hall].
  unfold DataPlaneUtils.ensureDataPlaneIsMarkedNotProvisioned, bind, Now.
  rewrite markNotProvisionedLoop_settled; [|done|done].
  rewrite Hhas. simpl. by rewrite setDataPlaneConditions_same.
Qed.

(** X4. Once [ensureDataPlaneIsMarkedNotProvisioned] has returned a DataPlane,
    calling it again on that DataPlane with the same reason and message
    returns the same DataPlane and makes no API call, at whatever time and
    whatever the API server would answer: the condition, its
    LastTransitionTime included, is left as it was written. *)
Theorem X4_not_provisioned_is_written_once dataplane reason message
    w dataplane' w' :
  DataPlaneUtils.ensureDataPlaneIsMarkedNotProvisioned dataplane reason message w
    = (Ok dataplane', w') →
  ∀ later,
    DataPlaneUtils.ensureDataPlaneIsMarkedNotProvisioned dataplane' reason message later
    = (Ok dataplane', later).
Proof.
  intros Hrun later.
  apply ensureDataPlaneIsMarkedNotProvisioned_spec in Hrun as (_ & _ & _ & Hmarked).
  destruct (Hmarked dataplane' eq_refl) as [Hm _].
  by apply markedNotProvisioned_settled.
Qed.

Lemma hasConditionTrue_marked (f : Condition → Condition) t cs :
  (∀ c, c_Type c = t → c_Type (f c) = t ∧ c_Status (f c) = ConditionTrue) →
  hasConditionTrue t
    (map (λ c, if bool_decide (c_Type c = t) then f c else c) cs)
  = hasConditionType t cs.
Proof.
  intros Hf. unfold hasConditionTrue, hasConditionType.
  induction cs as [|c cs IH]; simpl; [done|]. rewrite IH. f_equal.
  destruct (decide (c_Type c = t)) as [Hc|Hc].
  - rewrite (bool_decide_eq_true_2 _ Hc). destruct (Hf c Hc) as [-> ->].
    by rewrite !bool_decide_eq_true_2.
  - by rewrite !(bool_decide_eq_false_2 _ Hc).
Qed.

Lemma ensureDataPlaneIsMarkedProvisioned_cases dataplane w dataplane' w' :
  DataPlaneUtils.ensureDataPlaneIsMarkedProvisioned dataplane w = (Ok dataplane', w') →
  dp_Conditions dataplane'
  = map (λ condition,
           if bool_decide (c_Type condition = DataPlaneConditionTypeProvisioned)
           then podsReady (Generation (dp_meta dataplane)) (clock w)
           else condition) (dp_Conditions dataplane)
  ∧ find (sameKey dataplane') (dataPlanes (cluster w')) = Some dataplane'.
Proof.
  unfold DataPlaneUtils.ensureDataPlaneIsMarkedProvisioned, bind, Now. intros Hup.
  apply StatusUpdate_stored in Hup as (Hst & s & _ & Heq).
  split; [|done]. rewrite Heq. simpl. apply map_ext. intros c.
  case_bool_decide as Hc; [|done]. unfold podsReady. by rewrite Hc.
Qed.

(** X5. [ensureDataPlaneIsMarkedProvisioned] turns every Provisioned entry
    into Provisioned/True with reason PodsReady, the DataPlane's generation
    and the current time, and leaves the other entries alone; it adds none,
    so the result is Provisioned/True exactly when the DataPlane had a
    Provisioned entry before.  What it returns is what the store holds. *)
Theorem X5_provisioned_rewrites_existing_entries_only dataplane w dataplane' w' :
  DataPlaneUtils.ensureDataPlaneIsMarkedProvisioned dataplane w = (Ok dataplane', w') →
  dp_Conditions dataplane'
  = map (λ condition,
           if bool_decide (c_Type condition = DataPlaneConditionTypeProvisioned)
           then podsReady (Generation (dp_meta dataplane)) (clock w)
           else condition) (dp_Conditions dataplane)
  ∧ hasConditionTrue DataPlaneConditionTypeProvisioned (dp_Conditions dataplane')
    = hasConditionType DataPlaneConditionTypeProvisioned (dp_Conditions dataplane)
  ∧ find (sameKey dataplane') (dataPlanes (cluster w')) = Some dataplane'.
Proof.
  intros (Hconds & Hst)%ensureDataPlaneIsMarkedProvisioned_cases.
  split; [done|]. split; [|done]. rewrite Hconds.
  by apply hasConditionTrue_marked.
Qed.

(** X6. A DataPlane that has gone through [ensureDataPlaneIsMarkedScheduled]
    and then [ensureDataPlaneIsMarkedProvisioned] carries Provisioned/True,
    which is what the Gateway reconciler's readiness test looks for, and the
    store holds it. *)
Theorem X6_scheduled_then_provisioned_is_ready dataplane w marked scheduled w1
    provisioned w2 :
  DataPlaneUtils.ensureDataPlaneIsMarkedScheduled dataplane w = (Ok (marked, scheduled), w1) →
  DataPlaneUtils.ensureDataPlaneIsMarkedProvisioned scheduled w1 = (Ok provisioned, w2) →
  hasConditionTrue DataPlaneConditionTypeProvisioned (dp_Conditions provisioned) = true
  ∧ find (sameKey provisioned) (dataPlanes (cluster w2)) = Some provisioned.
Proof.
  intros Hsched Hprov.
  assert (hasConditionType DataPlaneConditionTypeProvisioned (dp_Conditions scheduled) = true)
    as Hhas.
  { revert Hsched. unfold DataPlaneUtils.ensureDataPlaneIsMarkedScheduled.
    fold (hasConditionType DataPlaneConditionTypeProvisioned (dp_Conditions dataplane)).
    destruct (hasConditionType _ (dp_Conditions dataplane)) eqn:Hhas; simpl.
    - unfold ret. by intros [= <- <- <-].
    - unfold bind, Now, ret.
      destruct (StatusUpdate _ w) as [[stored|e] w0] eqn:Hup; [|discriminate].
      intros [= <- <- <-].
      apply StatusUpdate_stored in Hup as (_ & s & _ & ->). simpl.
      rewrite hasConditionType_app. simpl. by rewrite orb_true_r. }
  apply ensureDataPlaneIsMarkedProvisioned_cases in Hprov as (Hconds & Hst).
  split; [|done]. rewrite Hconds.
  by rewrite hasConditionTrue_marked.
Qed.

(* ------------------------------------------------------------------------- *)
(** ** ControlPlane conditions                                           *)
(* ------------------------------------------------------------------------- *)

Lemma dataPlaneStatusLoop_entries set g n cs c :
  c ∈ dataPlaneStatusLoop set g n cs →
  c_Type c = ControlPlaneConditionTypeProvisioned
  ∧ c_Status c = ConditionFalse
  ∧ c_Reason c = dataPlaneStatusReason set
  ∧ c_ObservedGeneration c = g ∧ c_LastTransitionTime c = n.
Proof.
  induction cs as [|c0 cs IH]; simpl; [by intros ?%elem_of_nil|].
  case_bool_decide as Ht; [|done].
  destruct set; simpl; case_bool_decide as Hr; simpl; try done.
  - intros [->|?]%elem_of_cons; [done|auto].
  - intros [->|?]%elem_of_cons; [done|auto].
Qed.

Lemma dataPlaneStatusLoop_settled set g n cs :
  (∀ c, c ∈ cs → c_Type c = ControlPlaneConditionTypeProvisioned →
        c_Reason c = dataPlaneStatusReason set) →
  dataPlaneStatusLoop set g n cs = [].
Proof.
  induction cs as [|c0 cs IH]; simpl; intros Hall; [done|].
  rewrite IH; [|intros c Hc; apply Hall; by right].
  case_bool_decide as Ht; [|done].
  rewrite (Hall c0); [|by left|done].
  by destruct set.
Qed.

Lemma dataPlaneStatusLoop_empty set g n g' n' cs :
  dataPlaneStatusLoop set g n cs = [] → dataPlaneStatusLoop set g' n' cs = [].
Proof.
  induction cs as [|c0 cs IH]; simpl; [done|].
  case_bool_decide as Ht; [|done].
  destruct (negb set && _); [done|]. destruct (set && _); [done|]. done.
Qed.

Lemma dataPlaneStatusLoop_length set g n cs :
  (length (dataPlaneStatusLoop set g n cs)
   ≤ length (filter (λ c, c_Type c = ControlPlaneConditionTypeProvisioned) cs))%nat.
Proof.
  induction cs as [|c0 cs IH]; simpl; [done|].
  rewrite filter_cons. case_bool_decide as Ht.
  - rewrite decide_True by done. simpl.
    destruct (negb set && _); simpl; [lia|]. destruct (set && _); simpl; lia.
  - rewrite decide_False by done. done.
Qed.

Lemma setControlPlaneConditions_same cp : setControlPlaneConditions (cp_Conditions cp) cp = cp.
Proof. by destruct cp. Qed.

Lemma ensureDataPlaneStatus_cases controlplane w changed isSet controlplane' w' :
  ensureDataPlaneStatus controlplane w = (Ok (changed, isSet, controlplane'), w') →
  isSet = dataplaneIsSet controlplane
  ∧ ((changed = false ∧ controlplane' = controlplane ∧ w' = w
      ∧ dataPlaneStatusLoop isSet (Generation (cp_meta controlplane)) (clock w)
                            (cp_Conditions controlplane) = [])
     ∨ (changed = true
        ∧ cp_Conditions controlplane'
          = dataPlaneStatusLoop isSet (Generation (cp_meta controlplane)) (clock w)
                                (cp_Conditions controlplane)
        ∧ cp_Conditions controlplane' ≠ []
        ∧ find (sameKey controlplane') (controlPlanes (cluster w')) = Some controlplane')).
Proof.
  unfold ensureDataPlaneStatus, bind, Now.
  destruct (dataPlaneStatusLoop _ _ _ _) as [|c cs] eqn:Hloop; simpl.
  - unfold ret. intros [= <- <- <- <-]. split; [done|]. left. done.
  - destruct (StatusUpdate _ w) as [[stored|e] w0] eqn:Hup; [|discriminate].
    unfold ret. intros [= <- <- <- <-]. split; [done|]. right.
    apply StatusUpdate_stored in Hup as (Hst & s & _ & Heq).
    split; [done|]. rewrite Heq in *. simpl. rewrite Hloop. done.
Qed.

(** X14. [ensureDataPlaneStatus] reports whether spec.dataplane is set.  When
    it reports no change it has made no API call and the ControlPlane is as
    before.  When it reports a change, the status holds only Provisioned
    entries, each False with reason NoDataplane (DataPlane not set) or
    PodsNotReady (DataPlane set): conditions of every other type have been
    dropped, there is at least one entry and no more than there were
    Provisioned entries, and the store holds the result. *)
Theorem X14_dataplane_status_moves_and_drops controlplane w changed isSet controlplane' w' :
  ensureDataPlaneStatus controlplane w = (Ok (changed, isSet, controlplane'), w') →
  isSet = dataplaneIsSet controlplane
  ∧ (changed = false → controlplane' = controlplane ∧ w' = w)
  ∧ (changed = true →
       cp_Conditions controlplane' ≠ []
       ∧ (∀ condition, condition ∈ cp_Conditions controlplane' →
            c_Type condition = ControlPlaneConditionTypeProvisioned
            ∧ c_Status condition = ConditionFalse
            ∧ c_Reason condition = dataPlaneStatusReason isSet)
       ∧ (length (cp_Conditions controlplane')
          ≤ length (filter (λ c, c_Type c = ControlPlaneConditionTypeProvisioned)
                           (cp_Conditions controlplane)))%nat
       ∧ find (sameKey controlplane') (controlPlanes (cluster w')) = Some controlplane').
Proof.
  intros (Hset & [(-> & -> & -> & _)|(-> & Hconds & Hne & Hst)])%ensureDataPlaneStatus_cases.
  - split; [done|]. split; [done|discriminate].
  - split; [done|]. split; [discriminate|]. intros _. split; [done|]. split.
    + intros c Hc. rewrite Hconds in Hc.
      apply dataPlaneStatusLoop_entries in Hc as (? & ? & ? & _). done.
    + split; [|done]. rewrite Hconds. apply dataPlaneStatusLoop_length.
Qed.

(** X15. After [ensureDataPlaneStatus] has returned a ControlPlane, and
    with spec.dataplane set or unset as before, a further call on the result
    reports no change and makes no API call. *)
Theorem X15_dataplane_status_is_stable controlplane w changed isSet controlplane' w' :
  ensureDataPlaneStatus controlplane w = (Ok (changed, isSet, controlplane'), w') →
  dataplaneIsSet controlplane' = dataplaneIsSet controlplane →
  ∀ later, ensureDataPlaneStatus controlplane' later = (Ok (false, isSet, controlplane'), later).
Proof.
  intros (Hset & Hcases)%ensureDataPlaneStatus_cases Hsame later.
  unfold ensureDataPlaneStatus, bind, Now. rewrite Hsame, <- Hset.
  assert (dataPlaneStatusLoop isSet (Generation (cp_meta controlplane')) (clock later)
                              (cp_Conditions controlplane') = []) as ->; [|done].
  destruct Hcases as [(_ & -> & _ & Hloop)|(_ & Hconds & _ & _)].
  - by eapply dataPlaneStatusLoop_empty.
  - apply dataPlaneStatusLoop_settled. intros c Hc _. rewrite Hconds in Hc.
    by apply dataPlaneStatusLoop_entries in Hc as (_ & _ & ? & _).
Qed.

Lemma hasConditionType_Provisioned_nonempty cs :
  cs ≠ [] → (∀ c, c ∈ cs → c_Type c = ControlPlaneConditionTypeProvisioned) →
  hasConditionType ControlPlaneConditionTypeProvisioned cs = true.
Proof.
  destruct cs as [|c cs]; [done|]. intros _ Hall. simpl.
  rewrite bool_decide_eq_true_2; [done|]. apply Hall. by left.
Qed.

Lemma ensureControlPlaneIsMarkedProvisioned_cases controlplane w controlplane' w' :
  ensureControlPlaneIsMarkedProvisioned controlplane w = (Ok controlplane', w') →
  cp_Conditions controlplane'
  = map (λ condition,
           if bool_decide (c_Type condition = ControlPlaneConditionTypeProvisioned)
           then controlPlanePodsReady (Generation (cp_meta controlplane)) (clock w)
           else condition) (cp_Conditions controlplane)
  ∧ find (sameKey controlplane') (controlPlanes (cluster w')) = Some controlplane'.
Proof.
  unfold ensureControlPlaneIsMarkedProvisioned, bind, Now. intros Hup.
  apply StatusUpdate_stored in Hup as (Hst & s & _ & Heq).
  split; [|done]. rewrite Heq. simpl. apply map_ext. intros c.
  case_bool_decide as Hc; [|done]. unfold controlPlanePodsReady. by rewrite Hc.
Qed.

Lemma ensureControlPlaneIsMarkedScheduled_has controlplane w marked scheduled w1 :
  ensureControlPlaneIsMarkedScheduled controlplane w = (Ok (marked, scheduled), w1) →
  hasConditionType ControlPlaneConditionTypeProvisioned (cp_Conditions scheduled) = true
  ∧ (marked = false → scheduled = controlplane ∧ w1 = w)
  ∧ (marked = true →
     hasConditionType ControlPlaneConditionTypeProvisioned (cp_Conditions controlplane)
     = false
     ∧ cp_Conditions scheduled
       = cp_Conditions controlplane
         ++ [mkCondition ControlPlaneConditionTypeProvisioned ConditionFalse
               ControlPlaneConditionReasonPodsNotReady
               "ControlPlane resource is scheduled for provisioning"
               (Generation (cp_meta controlplane)) (clock w)]
     ∧ find (sameKey scheduled) (controlPlanes (cluster w1)) = Some scheduled).
Proof.
  unfold ensureControlPlaneIsMarkedScheduled.
  fold (hasConditionType ControlPlaneConditionTypeProvisioned (cp_Conditions controlplane)).
  destruct (hasConditionType _ (cp_Conditions controlplane)) eqn:Hhas; simpl.
  - unfold ret. intros [= <- <- <-]. done.
  - unfold bind, Now, ret.
    destruct (StatusUpdate _ w) as [[stored|e] w0] eqn:Hup; [|discriminate].
    intros [= <- <- <-].
    apply StatusUpdate_stored in Hup as (Hst & s & _ & Heq).
    assert (cp_Conditions stored
            = cp_Conditions controlplane
              ++ [mkCondition ControlPlaneConditionTypeProvisioned ConditionFalse
                    ControlPlaneConditionReasonPodsNotReady
                    "ControlPlane resource is scheduled for provisioning"
                    (Generation (cp_meta controlplane)) (clock w)]) as Hconds
      by by rewrite Heq.
    split; [|done].
    rewrite Hconds, hasConditionType_app. simpl. by rewrite orb_true_r.
Qed.

(** X16. A ControlPlane taken through [ensureControlPlaneIsMarkedScheduled],
    [ensureDataPlaneStatus] and [ensureControlPlaneIsMarkedProvisioned], in
    this order, ends with Provisioned/True, whether or not its DataPlane is
    set: marking it provisioned overrides the NoDataplane reason as well. *)
Theorem X16_controlplane_status_ends_provisioned controlplane w marked scheduled w1
    changed isSet attached w2 provisioned w3 :
  ensureControlPlaneIsMarkedScheduled controlplane w = (Ok (marked, scheduled), w1) →
  ensureDataPlaneStatus scheduled w1 = (Ok (changed, isSet, attached), w2) →
  ensureControlPlaneIsMarkedProvisioned attached w2 = (Ok provisioned, w3) →
  hasConditionTrue ControlPlaneConditionTypeProvisioned (cp_Conditions provisioned) = true
  ∧ find (sameKey provisioned) (controlPlanes (cluster w3)) = Some provisioned.
Proof.
  intros (Hhas & _)%ensureControlPlaneIsMarkedScheduled_has
         (_ & Hstatus)%ensureDataPlaneStatus_cases
         (Hconds & Hst)%ensureControlPlaneIsMarkedProvisioned_cases.
  split; [|done]. rewrite Hconds.
  rewrite hasConditionTrue_marked; [|done].
  destruct Hstatus as [(_ & -> & _)|(_ & Hloop & Hne & _)]; [done|].
  apply hasConditionType_Provisioned_nonempty; [done|].
  intros c Hc. rewrite Hloop in Hc. by apply dataPlaneStatusLoop_entries in Hc as (? & _).
Qed.

(* ------------------------------------------------------------------------- *)
(** ** Gateway configuration                                             *)
(* ------------------------------------------------------------------------- *)

Section GatewayConfig.
Context `{Consts} `{GatewayHelpers}.

Lemma getGatewayConfigForGatewayClass_wellFormed gatewayClass ref namespace :
  gwc_ParametersRef gatewayClass = Some ref →
  wellFormedParametersRef ref namespace →
  getGatewayConfigForGatewayClass gatewayClass
  = Get GatewayConfiguration namespace (pr_Name ref).
Proof.
  intros Href (Hg & Hk & Hns & Hne & Hname).
  unfold getGatewayConfigForGatewayClass. rewrite Href, Hns.
  rewrite (bool_decide_eq_true_2 _ Hg), (bool_decide_eq_true_2 _ Hk). simpl.
  by rewrite (bool_decide_eq_false_2 _ Hne), (bool_decide_eq_false_2 _ Hname).
Qed.

Lemma getGatewayConfigForGatewayClass_malformed gatewayClass ref w :
  gwc_ParametersRef gatewayClass = Some ref →
  (∀ namespace, ¬ wellFormedParametersRef ref namespace) →
  ∃ err, getGatewayConfigForGatewayClass gatewayClass w = (Err err, w)
         ∧ errors_Is err ErrObjectMissingParametersRef = false
         ∧ ((pr_Group ref ≠ SchemeGroup ∨ pr_Kind ref ≠ "GatewayConfiguration") →
            ∃ msg, err = StatusError StatusReasonInvalid msg)
         ∧ (pr_Group ref = SchemeGroup → pr_Kind ref = "GatewayConfiguration" →
            ∃ msg, err = Errorf msg).
Proof.
  intros Href Hbad. unfold getGatewayConfigForGatewayClass. rewrite Href.
  destruct (decide (pr_Group ref = SchemeGroup)) as [Hg|Hg];
    [destruct (decide (pr_Kind ref = "GatewayConfiguration")) as [Hk|Hk]|].
  - rewrite (bool_decide_eq_true_2 _ Hg), (bool_decide_eq_true_2 _ Hk). simpl.
    destruct (pr_Namespace ref) as [ns|] eqn:Hns.
    + destruct (decide (ns = "")) as [Hne|Hne].
      * rewrite (bool_decide_eq_true_2 _ Hne). simpl. eexists. split; [done|].
        split; [done|]. split; [intros [?|?]; done|]. eauto.
      * destruct (decide (pr_Name ref = "")) as [Hname|Hname].
        -- rewrite (bool_decide_eq_true_2 _ Hname), orb_true_r. eexists. split; [done|].
           split; [done|]. split; [intros [?|?]; done|]. eauto.
        -- by destruct (Hbad ns).
    + eexists. split; [done|]. split; [done|]. split; [intros [?|?]; done|]. eauto.
  - rewrite (bool_decide_eq_true_2 _ Hg), (bool_decide_eq_false_2 _ Hk). simpl.
    eexists. split; [done|]. split; [done|]. split; [eauto|done].
  - rewrite (bool_decide_eq_false_2 _ Hg). simpl.
    eexists. split; [done|]. split; [done|]. split; [eauto|done].
Qed.

Lemma wellFormedParametersRef_dec ref :
  (∃ namespace, wellFormedParametersRef ref namespace)
  ∨ (∀ namespace, ¬ wellFormedParametersRef ref namespace).
Proof.
  unfold wellFormedParametersRef.
  destruct (decide (pr_Group ref = SchemeGroup)) as [Hg|Hg];
    [|right; intros ns (? & _); done].
  destruct (decide (pr_Kind ref = "GatewayConfiguration")) as [Hk|Hk];
    [|right; intros ns (_ & ? & _); done].
  destruct (pr_Namespace ref) as [ns|]; [|right; intros ns (_ & _ & ? & _); done].
  destruct (decide (ns = "")) as [Hns|Hns];
    [right; intros ns' (_ & _ & [= <-] & ? & _); done|].
  destruct (decide (pr_Name ref = "")) as [Hname|Hname];
    [right; intros ns' (_ & _ & _ & _ & ?); done|].
  left. by exists ns.
Qed.

(** X21. The configuration [getOrCreateGatewayConfiguration] returns is either
    the empty one, for a GatewayClass without parametersRef and without any
    API call, or the stored GatewayConfiguration that a well-formed
    parametersRef (the operator's group, kind GatewayConfiguration,
    non-empty namespace and name) names.  The cluster is left as it is. *)
Theorem X21_configuration_is_default_or_referenced gatewayClass w gatewayConfig w' :
  serverErrorsOnly w →
  getOrCreateGatewayConfiguration gatewayClass w = (Ok gatewayConfig, w') →
  cluster w' = cluster w
  ∧ ((gwc_ParametersRef gatewayClass = None
      ∧ gatewayConfig = emptyGatewayConfiguration ∧ w' = w)
     ∨ ∃ ref namespace,
         gwc_ParametersRef gatewayClass = Some ref
         ∧ wellFormedParametersRef ref namespace
         ∧ find (hasKey namespace (pr_Name ref)) (gatewayConfigurations (cluster w))
           = Some gatewayConfig).
Proof.
  intros Hserver Hrun. split.
  { by apply getOrCreateGatewayConfiguration_frame in Hrun as [_ ?]. }
  revert Hrun. unfold getOrCreateGatewayConfiguration, catch.
  destruct (gwc_ParametersRef gatewayClass) as [ref|] eqn:Href.
  - destruct (wellFormedParametersRef_dec ref) as [[ns Hwf]|Hbad].
    + rewrite (getGatewayConfigForGatewayClass_wellFormed _ _ _ Href Hwf).
      destruct (Get GatewayConfiguration ns (pr_Name ref) w) as [[cfg|e] w1] eqn:Hget.
      * intros [= <- <-]. right. exists ref, ns. split; [done|]. split; [done|].
        apply Get_cases in Hget as (_ & _ & _ & [(e & [=])|(o & [= <-] & Hfind)]). done.
      * assert (errors_Is e ErrObjectMissingParametersRef = false) as ->.
        { unfold Get in Hget. apply apiCall_cases in Hget
            as [(e' & fs & Hf & He & _)|(w0 & Hcl & _ & _ & _ & _ & _ & Hserved)].
          - injection He as ->. apply Hserver. rewrite Hf. by left.
          - destruct (find _ _); [discriminate|]. by inversion Hserved. }
        discriminate.
    + destruct (getGatewayConfigForGatewayClass_malformed gatewayClass ref w Href)
        as (err & -> & -> & _); [done|discriminate].
  - unfold getGatewayConfigForGatewayClass. rewrite Href. simpl.
    unfold ret. intros [= <- <-]. by left.
Qed.

(** X22. A parametersRef is never replaced by the default configuration: one
    of another group or kind is answered with an Invalid status error, one
    without namespace or name with an error, both without an API call; a
    well-formed one that names no stored GatewayConfiguration with the
    NotFound error of the lookup. *)
Theorem X22_bad_parameters_ref_is_an_error gatewayClass ref w :
  gwc_ParametersRef gatewayClass = Some ref →
  ((pr_Group ref ≠ SchemeGroup ∨ pr_Kind ref ≠ "GatewayConfiguration") →
   ∃ msg, getOrCreateGatewayConfiguration gatewayClass w
          = (Err (StatusError StatusReasonInvalid msg), w))
  ∧ (pr_Group ref = SchemeGroup → pr_Kind ref = "GatewayConfiguration" →
     (pr_Namespace ref = None ∨ pr_Namespace ref = Some "" ∨ pr_Name ref = "") →
     ∃ msg, getOrCreateGatewayConfiguration gatewayClass w = (Err (Errorf msg), w))
  ∧ (∀ namespace,
       wellFormedParametersRef ref namespace → faults w = [] →
       find (hasKey namespace (pr_Name ref)) (gatewayConfigurations (cluster w)) = None →
       getOrCreateGatewayConfiguration gatewayClass w = (Err (notFound (pr_Name ref)), w)).
Proof.
  intros Href. unfold getOrCreateGatewayConfiguration, catch. split; [|split].
  - intros Hbad.
    destruct (getGatewayConfigForGatewayClass_malformed gatewayClass ref w Href)
      as (err & -> & -> & Hinvalid & _).
    { intros ns (Hg & Hk & _). destruct Hbad; done. }
    destruct (Hinvalid Hbad) as [msg ->]. eauto.
  - intros Hg Hk Hbad.
    destruct (getGatewayConfigForGatewayClass_malformed gatewayClass ref w Href)
      as (err & -> & -> & _ & Herrorf).
    { intros ns (_ & _ & Hns & Hne & Hname). destruct Hbad as [Hb|[Hb|Hb]]; [| |done].
      - by rewrite Hb in Hns.
      - rewrite Hb in Hns. by injection Hns as <-. }
    destruct (Herrorf Hg Hk) as [msg ->]. eauto.
  - intros ns Hwf Hf Hnone.
    rewrite (getGatewayConfigForGatewayClass_wellFormed _ _ _ Href Hwf).
    rewrite Get_no_fault by done. simpl. by rewrite Hnone.
Qed.

End GatewayConfig.

(* ------------------------------------------------------------------------- *)
(** ** Children of a Gateway                                             *)
(* ------------------------------------------------------------------------- *)

Lemma created_selected_owned `{Object K} `{Object P} (generated : K) (owner : P)
    key value n :
  Namespace (getMeta generated) = Namespace (getMeta owner) →
  let labelled := labelObj key value (SetOwnerForObject generated owner) in
  let created := setMeta (assignIdentity n (getMeta labelled)) labelled in
  selected (Namespace (getMeta owner)) key value created = true
  ∧ IsOwnedByRefUID (getMeta created) (UID (getMeta owner)) = true
  ∧ Labels (getMeta created) = <[key := value]> (Labels (getMeta generated))
  ∧ OwnerReferences (getMeta created)
    = [mkOwnerReference (kindName (K := P)) (Name (getMeta owner)) (UID (getMeta owner))]
  ∧ (fst (EnsureObjectMetaIsUpdated (getMeta created) (getMeta labelled)) = false).
Proof.
  intros Hns. simpl. unfold labelObj, SetOwnerForObject.
  rewrite !getMeta_setMeta. unfold selected, InNamespace, MatchingLabels, IsOwnedByRefUID.
  rewrite !getMeta_setMeta. simpl. rewrite Hns, lookup_insert_eq.
  rewrite (bool_decide_eq_true_2 (Namespace (getMeta owner) = Namespace (getMeta owner)))
    by done.
  rewrite (bool_decide_eq_true_2 (Some value = Some value)) by done.
  rewrite (bool_decide_eq_true_2 (UID (getMeta owner) = UID (getMeta owner))) by done.
  rewrite orb_true_r. simpl.
  do 4 (split; [done|]).
  unfold EnsureObjectMetaIsUpdated. simpl.
  rewrite (idemp_L (∪)). by rewrite !bool_decide_eq_true_2.
Qed.

Lemma filter_owned_app_created `{Object K} ns key value uid (l : list K) (created : K) :
  selected ns key value created = true →
  IsOwnedByRefUID (getMeta created) uid = true →
  filter (λ o : K, IsOwnedByRefUID (getMeta o) uid)
    (filter (λ o : K, selected ns key value o) (l ++ [created]))
  = filter (λ o : K, IsOwnedByRefUID (getMeta o) uid)
      (filter (λ o : K, selected ns key value o) l) ++ [created].
Proof.
  intros Hsel Hown. rewrite !filter_app. f_equal.
  rewrite filter_cons, decide_True by (by rewrite Hsel).
  rewrite filter_nil, filter_cons, decide_True by (by rewrite Hown). done.
Qed.

Lemma setMeta_getMeta_DataPlane (d : DataPlane) : setMeta (dp_meta d) d = d.
Proof. by destruct d. Qed.

Lemma setMeta_getMeta_ControlPlane (c : ControlPlane) : setMeta (cp_meta c) c = c.
Proof. by destruct c. Qed.

Lemma setMeta_getMeta_Service (s : Service) : setMeta (svc_meta s) s = s.
Proof. by destruct s. Qed.

Lemma EnsureObjectMetaIsUpdated_unchanged existing generated :
  (EnsureObjectMetaIsUpdated existing generated).1 = false →
  EnsureObjectMetaIsUpdated existing generated = (false, existing).
Proof.
  destruct (EnsureObjectMetaIsUpdated existing generated) as [updated meta] eqn:Hrun.
  simpl. intros ->.
  by destruct (EnsureObjectMetaIsUpdated_identity _ _ _ _ Hrun) as (_ & _ & ->).
Qed.

Section GatewayChildren.
Context `{Consts} `{GatewayHelpers}.

Lemma ListDataPlanesForGateway_no_fault gateway w :
  faults w = [] →
  ListDataPlanesForGateway gateway w = (Ok (ownedDataPlanes gateway (cluster w)), w).
Proof.
  intros Hf. unfold ListDataPlanesForGateway, bind, List.
  by rewrite apiCall_no_fault by done.
Qed.

Lemma ListControlPlanesForGateway_no_fault gateway w :
  faults w = [] →
  ListControlPlanesForGateway gateway w = (Ok (ownedControlPlanes gateway (cluster w)), w).
Proof.
  intros Hf. unfold ListControlPlanesForGateway, bind, List.
  by rewrite apiCall_no_fault by done.
Qed.

Lemma ListDataPlanesForGateway_cases gateway w r w' :
  ListDataPlanesForGateway gateway w = (r, w') →
  sameObservables w w' ∧ cluster w' = cluster w
  ∧ ((∃ e, r = Err e) ∨ r = Ok (ownedDataPlanes gateway (cluster w))).
Proof.
  unfold ListDataPlanesForGateway, bind.
  destruct (List DataPlane _ _ _ w) as [[l|e] w1] eqn:Hl;
    apply List_cases in Hl as (Hobs & Hcl & _ & Hr); intros [= <- <-].
  - destruct Hr as [(e & [=])|[= ->]]. split; [done|]. split; [done|]. by right.
  - split; [done|]. split; [done|]. left. eauto.
Qed.

Lemma generatedDataPlane_namespace gateway gatewayConfig :
  Namespace (dp_meta (GenerateNewDataPlaneForGateway gateway gatewayConfig))
  = Namespace (gw_meta gateway).
Proof. unfold GenerateNewDataPlaneForGateway. by destruct (gcfg_DataPlaneDeploymentOptions _). Qed.

Lemma generatedDataPlane_spec gateway gatewayConfig :
  dp_spec (GenerateNewDataPlaneForGateway gateway gatewayConfig)
  = default emptyDeploymentOptions (gcfg_DataPlaneDeploymentOptions gatewayConfig).
Proof. unfold GenerateNewDataPlaneForGateway. by destruct (gcfg_DataPlaneDeploymentOptions _). Qed.

Lemma ensureDataPlaneForGateway_steady gateway gatewayConfig existing w :
  faults w = [] →
  ownedDataPlanes gateway (cluster w) = [existing] →
  (EnsureObjectMetaIsUpdated (dp_meta existing)
     (dp_meta (generatedDataPlaneFor gateway gatewayConfig))).1 = false →
  (∀ opts, gcfg_DataPlaneDeploymentOptions gatewayConfig = Some opts →
           dataplaneSpecDeepEqual (dp_spec existing) opts = true) →
  ensureDataPlaneForGateway gateway gatewayConfig w = (Ok existing, w).
Proof.
  intros Hf Howned Hmeta Hspec. unfold ensureDataPlaneForGateway. unfold bind at 1.
  rewrite ListDataPlanesForGateway_no_fault, Howned by done. simpl.
  unfold bind, ret.
  destruct (EnsureObjectMetaIsUpdated (dp_meta existing) _) as [updated meta] eqn:Hrun.
  simpl in Hmeta. subst updated.
  destruct (EnsureObjectMetaIsUpdated_identity _ _ _ _ Hrun) as (_ & _ & Heq).
  rewrite (Heq eq_refl).
  change (mkDataPlane (dp_meta existing) (dp_spec existing) (dp_Conditions existing))
    with (setMeta (dp_meta existing) existing).
  rewrite setMeta_getMeta_DataPlane.
  destruct (gcfg_DataPlaneDeploymentOptions gatewayConfig) as [opts|] eqn:Hopts; [|done].
  by rewrite (Hspec opts eq_refl).
Qed.

Lemma ensureDataPlaneForGateway_recreates gateway gatewayConfig w :
  faults w = [] →
  length (ownedDataPlanes gateway (cluster w)) ≠ 1%nat →
  let created :=
    setMeta (assignIdentity (nextID w) (dp_meta (generatedDataPlaneFor gateway gatewayConfig)))
            (generatedDataPlaneFor gateway gatewayConfig) in
  ∃ w',
    ensureDataPlaneForGateway gateway gatewayConfig w = (Ok created, w')
    ∧ faults w' = []
    ∧ dataPlanes (cluster w')
      = (if (1 <? length (ownedDataPlanes gateway (cluster w)))%nat
         then filter (λ dataplane,
                        negb (gatewayManaged (Namespace (gw_meta gateway)) dataplane))
                     (dataPlanes (cluster w))
         else dataPlanes (cluster w)) ++ [created]
    ∧ ownedDataPlanes gateway (cluster w') = [created].
Proof.
  intros Hf Hcount created.
  pose proof (created_selected_owned (GenerateNewDataPlaneForGateway gateway gatewayConfig)
                gateway GatewayOperatorControlledLabel GatewayManagedLabelValue (nextID w)
                (generatedDataPlane_namespace gateway gatewayConfig))
    as (Hsel & Hown & _).
  unfold ensureDataPlaneForGateway. unfold bind at 1.
  rewrite ListDataPlanesForGateway_no_fault by done.
  destruct (ownedDataPlanes gateway (cluster w)) as [|first [|second rest]] eqn:Howned;
    simpl in Hcount; [|done|]; simpl.
  - unfold bind, ret, Create. rewrite apiCall_no_fault by done.
    eexists. split; [reflexivity|]. split; [done|]. split; [done|].
    etrans; [exact (filter_owned_app_created (K := DataPlane) (Namespace (gw_meta gateway))
                      GatewayOperatorControlledLabel GatewayManagedLabelValue
                      (UID (gw_meta gateway)) (dataPlanes (cluster w)) _ Hsel Hown)|].
    change (ownedDataPlanes gateway (cluster w) ++ [created] = [created]).
    by rewrite Howned.
  - unfold bind at 1. unfold DeleteAllOf. rewrite apiCall_no_fault by done.
    unfold Create. rewrite apiCall_no_fault by done.
    eexists. split; [reflexivity|]. split; [done|]. split; [done|].
    exact (owned_after_recreate (K := DataPlane) (Namespace (gw_meta gateway))
             GatewayOperatorControlledLabel GatewayManagedLabelValue
             (UID (gw_meta gateway)) (dataPlanes (cluster w)) _ Hsel Hown).
Qed.

(** X23. When a Gateway owns no DataPlane, or more than one, and the API calls
    are served, [ensureDataPlaneForGateway] creates a DataPlane with the
    configured deployment options (empty options without a configuration)
    and no conditions, which is then the only DataPlane the Gateway owns; a
    second call (the spec comparison being reflexive) returns that DataPlane
    and changes nothing. *)
Theorem X23_dataplane_for_gateway_created_once gateway gatewayConfig w :
  faults w = [] →
  length (ownedDataPlanes gateway (cluster w)) ≠ 1%nat →
  (∀ opts, dataplaneSpecDeepEqual opts opts = true) →
  ∃ created w',
    ensureDataPlaneForGateway gateway gatewayConfig w = (Ok created, w')
    ∧ ownedDataPlanes gateway (cluster w') = [created]
    ∧ dp_spec created
      = default emptyDeploymentOptions (gcfg_DataPlaneDeploymentOptions gatewayConfig)
    ∧ dp_Conditions created = []
    ∧ ensureDataPlaneForGateway gateway gatewayConfig w' = (Ok created, w').
Proof.
  intros Hf Hcount Hrefl.
  destruct (ensureDataPlaneForGateway_recreates gateway gatewayConfig w Hf Hcount)
    as (w' & Hrun & Hf' & _ & Howned).
  eexists _, w'. split; [exact Hrun|]. split; [exact Howned|].
  assert (dp_spec (setMeta (assignIdentity (nextID w)
                     (dp_meta (generatedDataPlaneFor gateway gatewayConfig)))
                     (generatedDataPlaneFor gateway gatewayConfig))
          = default emptyDeploymentOptions (gcfg_DataPlaneDeploymentOptions gatewayConfig))
    as Hspec.
  { simpl. apply generatedDataPlane_spec. }
  split; [exact Hspec|]. split.
  { simpl. unfold GenerateNewDataPlaneForGateway.
    by destruct (gcfg_DataPlaneDeploymentOptions _). }
  apply ensureDataPlaneForGateway_steady; [done|done| |].
  - pose proof (created_selected_owned (GenerateNewDataPlaneForGateway gateway gatewayConfig)
                  gateway GatewayOperatorControlledLabel GatewayManagedLabelValue (nextID w)
                  (generatedDataPlane_namespace gateway gatewayConfig))
      as (_ & _ & _ & _ & Hmeta).
    exact Hmeta.
  - intros opts Hopts. rewrite Hspec, Hopts. simpl. apply Hrefl.
Qed.

(** X24. With more than one owned DataPlane, the cleanup of
    [ensureDataPlaneForGateway] deletes every DataPlane of the Gateway's
    namespace that carries the gateway-managed label, whichever Gateway owns
    it: afterwards the store holds the DataPlanes that were not under that
    label in that namespace, and the one created. *)
Theorem X24_duplicate_cleanup_spans_the_namespace gateway gatewayConfig w :
  faults w = [] →
  (1 < length (ownedDataPlanes gateway (cluster w)))%nat →
  ∃ created w',
    ensureDataPlaneForGateway gateway gatewayConfig w = (Ok created, w')
    ∧ dataPlanes (cluster w')
      = filter (λ dataplane, negb (gatewayManaged (Namespace (gw_meta gateway)) dataplane))
               (dataPlanes (cluster w)) ++ [created]
    ∧ ∀ dataplane, dataplane ∈ dataPlanes (cluster w') →
        dataplane = created
        ∨ (dataplane ∈ dataPlanes (cluster w)
           ∧ gatewayManaged (Namespace (gw_meta gateway)) dataplane = false).
Proof.
  intros Hf Hmany.
  destruct (ensureDataPlaneForGateway_recreates gateway gatewayConfig w Hf)
    as (w' & Hrun & _ & Hstore & _); [lia|].
  apply Nat.ltb_lt in Hmany. rewrite Hmany in Hstore.
  eexists _, w'. split; [exact Hrun|]. split; [exact Hstore|].
  intros dataplane. rewrite Hstore, elem_of_app, list_elem_of_filter, list_elem_of_singleton.
  intros [[Hnot Hin] | ->]; [right|by left]. split; [done|].
  by destruct (gatewayManaged _ dataplane).
Qed.

(** X25. For a Gateway with exactly one owned DataPlane: if the configuration
    has DataPlane options that differ from the DataPlane's spec,
    [ensureDataPlaneForGateway] updates it, and the DataPlane returned, which
    the store holds, has the configured options as its spec, the name and
    namespace of the existing one and the conditions the store had; if
    metadata and spec are up to date it returns the existing DataPlane
    without writing. *)
Theorem X25_existing_dataplane_follows_configuration gateway gatewayConfig existing w :
  ownedDataPlanes gateway (cluster w) = [existing] →
  (∀ opts dataplane w',
     gcfg_DataPlaneDeploymentOptions gatewayConfig = Some opts →
     dataplaneSpecDeepEqual (dp_spec existing) opts = false →
     ensureDataPlaneForGateway gateway gatewayConfig w = (Ok dataplane, w') →
     dp_spec dataplane = opts
     ∧ Name (dp_meta dataplane) = Name (dp_meta existing)
     ∧ Namespace (dp_meta dataplane) = Namespace (dp_meta existing)
     ∧ find (sameKey dataplane) (dataPlanes (cluster w')) = Some dataplane
     ∧ ∃ stored, find (sameKey existing) (dataPlanes (cluster w)) = Some stored
                 ∧ dp_Conditions dataplane = dp_Conditions stored)
  ∧ (faults w = [] →
     (EnsureObjectMetaIsUpdated (dp_meta existing)
        (dp_meta (generatedDataPlaneFor gateway gatewayConfig))).1 = false →
     (∀ opts, gcfg_DataPlaneDeploymentOptions gatewayConfig = Some opts →
              dataplaneSpecDeepEqual (dp_spec existing) opts = true) →
     ensureDataPlaneForGateway gateway gatewayConfig w = (Ok existing, w)).
Proof.
  intros Howned. split; [|intros Hf ? ?; by apply ensureDataPlaneForGateway_steady].
  intros opts dataplane w' Hopts Hdiff.
  unfold ensureDataPlaneForGateway. unfold bind at 1.
  destruct (ListDataPlanesForGateway gateway w) as [[l|e] w1] eqn:Hl; [|discriminate].
  apply ListDataPlanesForGateway_cases in Hl as (_ & Hcl & [(e & [=])|[= ->]]).
  rewrite Howned. simpl. unfold bind, ret.
  destruct (EnsureObjectMetaIsUpdated (dp_meta existing) _) as [updated meta] eqn:Hmeta.
  apply EnsureObjectMetaIsUpdated_identity in Hmeta as (Hname & Hns & _).
  rewrite Hopts. simpl. rewrite Hdiff. simpl. intros Hup.
  apply Update_stored in Hup as (Hst & stored & Hfind & ->). simpl in *.
  rewrite Hcl in Hfind.
  split; [done|]. split; [done|]. split; [done|]. split; [exact Hst|].
  exists stored. split; [|done].
  rewrite <- Hfind. apply find_ext. intros x. unfold sameKey, hasKey. simpl.
  by rewrite Hname, Hns.
Qed.

End GatewayChildren.

Lemma recreate_leaves_one `{Object K} ns key value uid (generated : K) (many : bool) w :
  faults w = [] →
  let created := setMeta (assignIdentity (nextID w) (getMeta generated)) generated in
  let owned c :=
    filter (λ o : K, IsOwnedByRefUID (getMeta o) uid)
           (filter (λ o : K, selected ns key value o) (items c)) in
  selected ns key value created = true →
  IsOwnedByRefUID (getMeta created) uid = true →
  (many = false → owned (cluster w) = []) →
  ∃ w',
    (let! _ := (if many then DeleteAllOf K ns key value else ret tt) in Create generated) w
    = (Ok created, w')
    ∧ faults w' = []
    ∧ owned (cluster w') = [created].
Proof.
  intros Hf created owned Hsel Hown Hnone. unfold bind.
  destruct many.
  - unfold DeleteAllOf. rewrite apiCall_no_fault by done.
    unfold Create. rewrite apiCall_no_fault by done.
    eexists. split; [reflexivity|]. split; [done|].
    unfold owned. simpl. rewrite !items_setItems.
    by apply owned_after_recreate.
  - unfold ret, Create. rewrite apiCall_no_fault by done.
    eexists. split; [reflexivity|]. split; [done|].
    unfold owned. simpl. rewrite !items_setItems.
    rewrite (filter_owned_app_created _ _ _ _ _ _ Hsel Hown).
    fold (owned (cluster w)). by rewrite Hnone.
Qed.

Section GatewayControlPlane.
Context `{Consts} `{GatewayHelpers}.

Lemma generatedControlPlane_namespace gatewayClass gateway gatewayConfig dataplaneName :
  Namespace (cp_meta (GenerateNewControlPlaneForGateway gatewayClass gateway gatewayConfig
                        dataplaneName))
  = Namespace (gw_meta gateway).
Proof. done. Qed.

(** X26. When a Gateway owns no ControlPlane and the API calls are served,
    [ensureControlPlaneForGateway] creates one, which is then the only
    ControlPlane the Gateway owns; it names the GatewayClass, has no
    conditions and is attached to a DataPlane: the one the configuration
    names if it names one, the Gateway's own otherwise.  No DataPlane is
    touched. *)
Theorem X26_controlplane_created_attached gatewayClass gateway gatewayConfig
    dataplaneName w :
  faults w = [] →
  ownedControlPlanes gateway (cluster w) = [] →
  ∃ created w',
    ensureControlPlaneForGateway gatewayClass gateway gatewayConfig dataplaneName w
    = (Ok created, w')
    ∧ controlPlanes (cluster w') = controlPlanes (cluster w) ++ [created]
    ∧ dataPlanes (cluster w') = dataPlanes (cluster w)
    ∧ ownedControlPlanes gateway (cluster w') = [created]
    ∧ cp_GatewayClass created = Some (Name (gwc_meta gatewayClass))
    ∧ cpo_DataPlane (cp_spec created)
      = Some (default dataplaneName
                (gcfg_ControlPlaneDeploymentOptions gatewayConfig ≫= cpo_DataPlane))
    ∧ cp_Conditions created = [].
Proof.
  intros Hf Hnone.
  pose proof (created_selected_owned
                (GenerateNewControlPlaneForGateway gatewayClass gateway gatewayConfig
                   dataplaneName)
                gateway GatewayOperatorControlledLabel GatewayManagedLabelValue (nextID w)
                (generatedControlPlane_namespace _ _ _ _))
    as (Hsel & Hown & _).
  unfold ensureControlPlaneForGateway. unfold bind at 1.
  rewrite ListControlPlanesForGateway_no_fault, Hnone by done. simpl.
  unfold bind, ret, Create. rewrite apiCall_no_fault by done.
  eexists _, _. split; [reflexivity|]. split; [done|]. split; [done|]. split.
  { etrans; [exact (filter_owned_app_created (K := ControlPlane)
                      (Namespace (gw_meta gateway))
                      GatewayOperatorControlledLabel GatewayManagedLabelValue
                      (UID (gw_meta gateway)) (controlPlanes (cluster w)) _ Hsel Hown)|].
    match goal with
    | |- _ ++ [?c] = _ => change (ownedControlPlanes gateway (cluster w) ++ [c] = [c])
    end.
    by rewrite Hnone. }
  split; [reflexivity|]. split; [|reflexivity]. simpl.
  destruct (gcfg_ControlPlaneDeploymentOptions gatewayConfig) as [opts|]; simpl; [|done].
  by destruct (cpo_DataPlane opts) eqn:Hopts; simpl; rewrite ?Hopts.
Qed.

End GatewayControlPlane.

(* ------------------------------------------------------------------------- *)
(** ** Children of a DataPlane                                           *)
(* ------------------------------------------------------------------------- *)

Section DataPlaneChildren.
Context `{Consts} `{DataPlaneGenerators} `{DataPlaneServiceGenerators}.

Lemma ListServicesForOwner_no_fault dataplane w :
  faults w = [] →
  ListServicesForOwner GatewayOperatorControlledLabel DataPlaneManagedLabelValue
    (Namespace (dp_meta dataplane)) (UID (dp_meta dataplane)) w
  = (Ok (ownedServices dataplane (cluster w)), w).
Proof.
  intros Hf. unfold ListServicesForOwner, bind, List. by rewrite apiCall_no_fault by done.
Qed.

Lemma ListDeploymentsForOwner_no_fault value namespace uid w :
  faults w = [] →
  ListDeploymentsForOwner GatewayOperatorControlledLabel value namespace uid w
  = (Ok (ownedDeployments value namespace uid (cluster w)), w).
Proof.
  intros Hf. unfold ListDeploymentsForOwner, bind, List. by rewrite apiCall_no_fault by done.
Qed.

Lemma ensureServiceForDataPlane_steady dataplane existing w :
  faults w = [] →
  ownedServices dataplane (cluster w) = [existing] →
  (EnsureObjectMetaIsUpdated (svc_meta existing)
     (svc_meta (DataPlaneUtils.labelObjForDataplane
                  (SetOwnerForObject (generateNewServiceForDataplane dataplane)
                                     dataplane)))).1 = false →
  DataPlaneUtils.ensureServiceForDataPlane dataplane w = (Ok existing, w).
Proof.
  intros Hf Howned Hmeta. unfold DataPlaneUtils.ensureServiceForDataPlane.
  unfold bind at 1. rewrite ListServicesForOwner_no_fault, Howned by done. simpl.
  unfold bind, ret.
  destruct (EnsureObjectMetaIsUpdated (svc_meta existing) _) as [updated meta] eqn:Hrun.
  simpl in Hmeta. subst updated.
  destruct (EnsureObjectMetaIsUpdated_identity _ _ _ _ Hrun) as (_ & _ & Heq).
  rewrite (Heq eq_refl).
  change (mkService (svc_meta existing) (svc_ClusterIP existing) (svc_Ingress existing))
    with (setMeta (svc_meta existing) existing).
  by rewrite setMeta_getMeta_Service.
Qed.

Lemma ensureDeploymentForDataPlane_steady dataplane existing w :
  faults w = [] →
  ownedDeployments DataPlaneManagedLabelValue (Namespace (dp_meta dataplane))
                   (UID (dp_meta dataplane)) (cluster w) = [existing] →
  (EnsureObjectMetaIsUpdated (d_meta existing)
     (d_meta (DataPlaneUtils.labelObjForDataplane
                (SetOwnerForObject (generateNewDeploymentForDataPlane dataplane)
                                   dataplane)))).1 = false →
  DataPlaneUtils.ensureDeploymentForDataPlane dataplane w = (Ok existing, w).
Proof.
  intros Hf Howned Hmeta. unfold DataPlaneUtils.ensureDeploymentForDataPlane.
  unfold bind at 1. rewrite ListDeploymentsForOwner_no_fault, Howned by done. simpl.
  unfold bind, ret.
  destruct (EnsureObjectMetaIsUpdated (d_meta existing) _) as [updated meta] eqn:Hrun.
  simpl in Hmeta. subst updated.
  destruct (EnsureObjectMetaIsUpdated_identity _ _ _ _ Hrun) as (_ & _ & Heq).
  rewrite (Heq eq_refl).
  change (mkDeployment (d_meta existing) (d_Replicas existing) (d_Containers existing)
                       (d_status existing))
    with (setMeta (d_meta existing) existing).
  by rewrite setMeta_getMeta_Deployment.
Qed.

(** X8. When a DataPlane owns no Service, or more than one, and the API calls
    are served, [ensureServiceForDataPlane] leaves it with exactly one owned
    Service, the generated one, which is the count the Gateway reconciler
    insists on; a second call returns that Service and changes nothing. *)
Theorem X8_service_for_dataplane_created_once dataplane w :
  faults w = [] →
  length (ownedServices dataplane (cluster w)) ≠ 1%nat →
  Namespace (svc_meta (generateNewServiceForDataplane dataplane))
    = Namespace (dp_meta dataplane) →
  ∃ created w',
    DataPlaneUtils.ensureServiceForDataPlane dataplane w = (Ok created, w')
    ∧ ownedServices dataplane (cluster w') = [created]
    ∧ svc_ClusterIP created = svc_ClusterIP (generateNewServiceForDataplane dataplane)
    ∧ DataPlaneUtils.ensureServiceForDataPlane dataplane w' = (Ok created, w').
Proof.
  intros Hf Hcount Hns.
  pose proof (created_selected_owned (generateNewServiceForDataplane dataplane) dataplane
                GatewayOperatorControlledLabel DataPlaneManagedLabelValue (nextID w) Hns)
    as (Hsel & Hown & _ & _ & Hmeta).
  destruct (recreate_leaves_one (K := Service) (Namespace (dp_meta dataplane))
              GatewayOperatorControlledLabel DataPlaneManagedLabelValue
              (UID (dp_meta dataplane))
              (DataPlaneUtils.labelObjForDataplane
                 (SetOwnerForObject (generateNewServiceForDataplane dataplane) dataplane))
              (1 <? length (ownedServices dataplane (cluster w)))%nat w Hf Hsel Hown)
    as (w' & Hrun & Hf' & Howned).
  { intros Hone%Nat.ltb_ge. change (ownedServices dataplane (cluster w) = []).
    destruct (ownedServices dataplane (cluster w)) as [|first [|second rest]];
      simpl in *; [done|done|lia]. }
  eexists _, w'. split.
  { unfold DataPlaneUtils.ensureServiceForDataPlane. unfold bind at 1.
    rewrite ListServicesForOwner_no_fault by done.
    destruct (ownedServices dataplane (cluster w)) as [|first [|second rest]];
      simpl in Hcount; [exact Hrun|done|exact Hrun]. }
  split; [exact Howned|]. split; [done|].
  by apply ensureServiceForDataPlane_steady.
Qed.

(** X7. When a DataPlane owns no Deployment, or more than one, and the API
    calls are served, [ensureDeploymentForDataPlane] leaves it with exactly
    one owned Deployment, with the replicas and containers of the generated
    one; a second call returns that Deployment and changes nothing. *)
Theorem X7_deployment_for_dataplane_created_once dataplane w :
  faults w = [] →
  length (ownedDeployments DataPlaneManagedLabelValue (Namespace (dp_meta dataplane))
                           (UID (dp_meta dataplane)) (cluster w)) ≠ 1%nat →
  Namespace (d_meta (generateNewDeploymentForDataPlane dataplane))
    = Namespace (dp_meta dataplane) →
  ∃ created w',
    DataPlaneUtils.ensureDeploymentForDataPlane dataplane w = (Ok created, w')
    ∧ ownedDeployments DataPlaneManagedLabelValue (Namespace (dp_meta dataplane))
                       (UID (dp_meta dataplane)) (cluster w') = [created]
    ∧ d_Replicas created = d_Replicas (generateNewDeploymentForDataPlane dataplane)
    ∧ d_Containers created = d_Containers (generateNewDeploymentForDataPlane dataplane)
    ∧ DataPlaneUtils.ensureDeploymentForDataPlane dataplane w' = (Ok created, w').
Proof.
  intros Hf Hcount Hns.
  pose proof (created_selected_owned (generateNewDeploymentForDataPlane dataplane) dataplane
                GatewayOperatorControlledLabel DataPlaneManagedLabelValue (nextID w) Hns)
    as (Hsel & Hown & _ & _ & Hmeta).
  destruct (recreate_leaves_one (K := Deployment) (Namespace (dp_meta dataplane))
              GatewayOperatorControlledLabel DataPlaneManagedLabelValue
              (UID (dp_meta dataplane))
              (DataPlaneUtils.labelObjForDataplane
                 (SetOwnerForObject (generateNewDeploymentForDataPlane dataplane) dataplane))
              (1 <? length (ownedDeployments DataPlaneManagedLabelValue
                              (Namespace (dp_meta dataplane)) (UID (dp_meta dataplane))
                              (cluster w)))%nat w Hf Hsel Hown)
    as (w' & Hrun & Hf' & Howned).
  { intros Hone%Nat.ltb_ge.
    change (ownedDeployments DataPlaneManagedLabelValue (Namespace (dp_meta dataplane))
              (UID (dp_meta dataplane)) (cluster w) = []).
    destruct (ownedDeployments _ _ _ (cluster w)) as [|first [|second rest]];
      simpl in *; [done|done|lia]. }
  eexists _, w'. split.
  { unfold DataPlaneUtils.ensureDeploymentForDataPlane. unfold bind at 1.
    rewrite ListDeploymentsForOwner_no_fault by done.
    destruct (ownedDeployments _ _ _ (cluster w)) as [|first [|second rest]];
      simpl in Hcount; [exact Hrun|done|exact Hrun]. }
  split; [exact Howned|]. split; [done|]. split; [done|].
  by apply ensureDeploymentForDataPlane_steady.
Qed.

End DataPlaneChildren.

(* ------------------------------------------------------------------------- *)
(** ** Readiness of the Gateway, Deployment of the ControlPlane          *)
(* ------------------------------------------------------------------------- *)

Section GatewayReadyRefusal.
Context `{Consts} `{GatewayHelpers}.

(** X27. [ensureGatewayMarkedReady] writes nothing when it fails; for a
    Gateway not yet ready it fails, without writing, unless the DataPlane
    owns exactly one Service and that Service has a ClusterIP; and for a
    Gateway that is ready already it makes no API call, so the addresses of
    a ready Gateway are not refreshed. *)
Theorem X27_ready_is_all_or_nothing gateway dataplane w :
  (∀ err w', ensureGatewayMarkedReady gateway dataplane w = (Err err, w') →
             cluster w' = cluster w)
  ∧ (IsGatewayReady gateway = false → faults w = [] →
     (∀ svc, ownedServices dataplane (cluster w) = [svc] → svc_ClusterIP svc = "") →
     ∃ msg, ensureGatewayMarkedReady gateway dataplane w = (Err (Errorf msg), w))
  ∧ (IsGatewayReady gateway = true →
     ensureGatewayMarkedReady gateway dataplane w = (Ok gateway, w)).
Proof.
  unfold ensureGatewayMarkedReady. split; [|split].
  - intros err w'. destruct (IsGatewayReady gateway); simpl; [discriminate|].
    unfold bind at 1.
    destruct (ListServicesForOwner _ _ _ _ w) as [[l|e] w1] eqn:Hl;
      apply ListServicesForOwner_cases in Hl as (_ & Hcl & _ & Hr);
      [|by intros [= <- <-]].
    destruct (1 <? length l)%nat; [by intros [= <- <-]|].
    destruct l as [|svc rest]; [by intros [= <- <-]|].
    case_bool_decide; [by intros [= <- <-]|].
    unfold bind, Now. intros Hup.
    apply StatusUpdate_cases in Hup as (_ & [(e & _ & Hcl')|(s & _ & [=] & _)]).
    by rewrite Hcl'.
  - intros -> Hf Hnone. simpl. unfold bind at 1.
    rewrite ListServicesForOwner_no_fault by done.
    destruct (ownedServices dataplane (cluster w)) as [|svc [|second rest]]; simpl.
    + eauto.
    + rewrite (Hnone svc eq_refl). rewrite bool_decide_eq_true_2 by done. eauto.
    + eauto.
  - by intros ->.
Qed.

End GatewayReadyRefusal.

Section ControlPlaneDeploymentSteady.
Context `{Consts} `{ControlPlaneGenerators}.

(** X17. [ensureDeploymentForControlPlane] writes nothing and reports no change
    when the ControlPlane owns one Deployment whose metadata is up to date
    and whose replicas fit the state: zero while no DataPlane is set,
    anything but zero once one is set. *)
Theorem X17_controlplane_deployment_steady_state controlplane serviceAccountName existing w :
  faults w = [] →
  ownedDeployments ControlPlaneManagedLabelValue (Namespace (cp_meta controlplane))
                   (UID (cp_meta controlplane)) (cluster w) = [existing] →
  (EnsureObjectMetaIsUpdated (d_meta existing)
     (d_meta (generatedDeploymentFor controlplane serviceAccountName))).1 = false →
  (if dataplaneIsSet controlplane
   then d_Replicas existing ≠ Some 0
   else d_Replicas existing = Some 0) →
  ensureDeploymentForControlPlane controlplane serviceAccountName w
  = (Ok (false, existing), w).
Proof.
  intros Hf Howned Hmeta Hreplicas. unfold ensureDeploymentForControlPlane.
  unfold bind at 1. rewrite ListDeploymentsForOwner_no_fault, Howned by done. simpl.
  unfold bind at 1. unfold ret at 1.
  destruct (EnsureObjectMetaIsUpdated (d_meta existing) _) as [updated meta] eqn:Hrun.
  simpl in Hmeta. subst updated.
  destruct (EnsureObjectMetaIsUpdated_identity _ _ _ _ Hrun) as (_ & _ & Heq).
  rewrite (Heq eq_refl). simpl.
  change (mkDeployment (d_meta existing) (d_Replicas existing) (d_Containers existing)
                       (d_status existing))
    with (setMeta (d_meta existing) existing).
  rewrite setMeta_getMeta_Deployment.
  destruct (dataplaneIsSet controlplane); simpl.
  - destruct (d_Replicas existing) as [n|]; [|done].
    destruct (n =? numReplicasWhenNoDataplane) eqn:Hn; [|done].
    apply Z.eqb_eq in Hn. by subst n.
  - by rewrite Hreplicas.
Qed.

(** X18. When a ControlPlane with a DataPlane wakes its Deployment of zero
    replicas, the environment of the first container is replaced by the
    ControlPlane's spec.env if that container had an environment and is kept
    if it had none; the other containers are kept.  A Deployment without
    containers makes the call fail on the index, before any write. *)
Theorem X18_waking_replaces_env_of_first_container controlplane
    serviceAccountName existing w :
  dataplaneIsSet controlplane = true →
  ownedDeployments ControlPlaneManagedLabelValue (Namespace (cp_meta controlplane))
                   (UID (cp_meta controlplane)) (cluster w) = [existing] →
  d_Replicas existing = Some 0 →
  (d_Containers existing = [] → faults w = [] →
   ensureDeploymentForControlPlane controlplane serviceAccountName w
   = (Err (Panic "index out of range [0] with length 0"), w))
  ∧ (∀ container0 others changed deployment w',
       d_Containers existing = container0 :: others →
       ensureDeploymentForControlPlane controlplane serviceAccountName w
         = (Ok (changed, deployment), w') →
       d_Containers deployment
       = (if (0 <? length (ct_Env container0))%nat
          then setContainerEnv (do_Env (cpo_Options (cp_spec controlplane))) container0
          else container0) :: others).
Proof.
  intros Hset Howned Hzero. unfold ensureDeploymentForControlPlane. rewrite Hset. split.
  - intros Hnone Hf. unfold bind at 1.
    rewrite ListDeploymentsForOwner_no_fault, Howned by done. simpl.
    unfold bind at 1. unfold ret at 1.
    destruct (EnsureObjectMetaIsUpdated (d_meta existing) _) as [updated meta]. simpl.
    by rewrite Hzero, Hnone.
  - intros container0 others changed deployment w' Hcontainers. unfold bind at 1.
    destruct (ListDeploymentsForOwner _ _ _ _ w) as [r1 w1] eqn:Hl.
    apply ListDeploymentsForOwner_cases in Hl as (_ & _ & _ & _ & [(e & -> & _)| ->]);
      [discriminate|].
    rewrite Howned. simpl. unfold bind at 1. unfold ret at 1.
    destruct (EnsureObjectMetaIsUpdated (d_meta existing) _) as [updated meta]. simpl.
    rewrite Hzero, Hcontainers. simpl. unfold bind, ret.
    destruct (Update _ w1) as [[stored|e] w2] eqn:Hup; [|discriminate].
    intros [= <- <- <-].
    apply Update_stored in Hup as (_ & s & _ & ->).
    by destruct (0 <? length (ct_Env container0))%nat.
Qed.

End ControlPlaneDeploymentSteady.

(* ------------------------------------------------------------------------- *)
(** ** Order of the Gateway pass                                         *)
(* ------------------------------------------------------------------------- *)

Lemma dataPlanesOnly_refl c : dataPlanesOnly c c.
Proof. exists (dataPlanes c). by destruct c. Qed.

Lemma dataPlanesOnly_eq c c' : c' = c → dataPlanesOnly c c'.
Proof. intros ->. apply dataPlanesOnly_refl. Qed.

Lemma dataPlanesOnly_trans c1 c2 c3 :
  dataPlanesOnly c1 c2 → dataPlanesOnly c2 c3 → dataPlanesOnly c1 c3.
Proof. intros [l1 ->] [l2 ->]. by exists l2. Qed.

Lemma dataPlanesOnly_others c c' :
  dataPlanesOnly c c' →
  gateways c' = gateways c ∧ controlPlanes c' = controlPlanes c
  ∧ deployments c' = deployments c ∧ services c' = services c.
Proof. by intros [l ->]. Qed.

Section GatewayPassOrder.
Context `{Consts} `{GatewayHelpers}.

Lemma ensureDataPlaneForGateway_dataPlanesOnly gateway gatewayConfig w r w' :
  ensureDataPlaneForGateway gateway gatewayConfig w = (r, w') →
  dataPlanesOnly (cluster w) (cluster w').
Proof.
  unfold ensureDataPlaneForGateway. unfold bind at 1.
  destruct (ListDataPlanesForGateway gateway w) as [[l|e] w1] eqn:Hl;
    apply ListDataPlanesForGateway_cases in Hl as (_ & Hcl & _);
    [|intros [= <- <-]; by apply dataPlanesOnly_eq].
  assert (∀ (o : DataPlane) w2 r2 w3,
            dataPlanesOnly (cluster w) (cluster w2) →
            Create o w2 = (r2, w3) → dataPlanesOnly (cluster w) (cluster w3)) as Hcreate.
  { intros o w2 r2 w3 H2 Hc. eapply dataPlanesOnly_trans; [exact H2|].
    apply Create_cases in Hc as (_ & [(e & _ & ->)|(o' & _ & _ & ->)]);
      [apply dataPlanesOnly_refl|by eexists]. }
  assert (∀ (o : DataPlane) w2 r2 w3,
            dataPlanesOnly (cluster w) (cluster w2) →
            Update o w2 = (r2, w3) → dataPlanesOnly (cluster w) (cluster w3)) as Hupdate.
  { intros o w2 r2 w3 H2 Hc. eapply dataPlanesOnly_trans; [exact H2|].
    apply Update_cases in Hc as (_ & [(e & _ & ->)|(o' & _ & _ & ->)]);
      [apply dataPlanesOnly_refl|by eexists]. }
  pose proof (dataPlanesOnly_eq _ _ Hcl) as H1.
  destruct l as [|existing [|second rest]]; simpl.
  - unfold bind, ret. by apply Hcreate.
  - unfold bind, ret.
    destruct (EnsureObjectMetaIsUpdated _ _) as [updated meta].
    destruct (gcfg_DataPlaneDeploymentOptions gatewayConfig) as [opts|];
      [destruct (negb _)|]; try destruct updated;
      try (intros [= <- <-]; done); by apply Hupdate.
  - unfold bind at 1.
    destruct (DeleteAllOf DataPlane _ _ _ w1) as [[[]|e] w2] eqn:Hdel;
      apply DeleteAllOf_cases in Hdel as (_ & _ & [(e' & Hr & Hcl2)|(Hr & Hcl2)]);
      try discriminate Hr.
    + apply Hcreate. eapply dataPlanesOnly_trans; [exact H1|]. rewrite Hcl2. by eexists.
    + intros [= <- <-]. eapply dataPlanesOnly_trans; [exact H1|]. by apply dataPlanesOnly_eq.
Qed.

Lemma ensuresDataPlane_dataPlanesOnly namespace name w gateway gatewayClass gatewayConfig
    dataplane w4 :
  ensuresDataPlane namespace name w gateway gatewayClass gatewayConfig dataplane w4 →
  dataPlanesOnly (cluster w) (cluster w4).
Proof.
  intros (w1 & w2 & config & w3 & Hget & Hver & _ & Hcfg & _ & Hdp).
  apply Get_cases in Hget as (_ & Hc1 & _).
  apply verifyGatewayClassSupport_frame in Hver as (_ & Hc2).
  apply getOrCreateGatewayConfiguration_frame in Hcfg as (_ & Hc3).
  apply ensureDataPlaneForGateway_dataPlanesOnly in Hdp.
  eapply dataPlanesOnly_trans; [|exact Hdp]. apply dataPlanesOnly_eq. congruence.
Qed.

(** X29. A Gateway pass that has ensured the DataPlane leaves the
    ControlPlanes alone as long as the DataPlane is not Provisioned/True (it
    requeues), and also when the DataPlane is Provisioned but does not own
    exactly one Service (it returns an error). *)
Theorem X29_controlplane_waits_for_dataplane namespace name w gateway gatewayClass
    gatewayConfig dataplane w4 :
  ensuresDataPlane namespace name w gateway gatewayClass gatewayConfig dataplane w4 →
  (hasConditionTrue DataPlaneConditionTypeProvisioned (dp_Conditions dataplane) = false →
   GatewayReconcile namespace name w = ((mkResult true requeueWithoutBackoff, None), w4)
   ∧ controlPlanes (cluster w4) = controlPlanes (cluster w))
  ∧ (hasConditionTrue DataPlaneConditionTypeProvisioned (dp_Conditions dataplane) = true →
     faults w4 = [] →
     length (ownedServices dataplane (cluster w4)) ≠ 1%nat →
     ∃ msg, GatewayReconcile namespace name w = ((noResult, Some (Errorf msg)), w4)
            ∧ controlPlanes (cluster w4) = controlPlanes (cluster w)).
Proof.
  intros Hdp.
  pose proof (ensuresDataPlane_dataPlanesOnly _ _ _ _ _ _ _ _ Hdp) as Honly.
  apply dataPlanesOnly_others in Honly as (_ & Hcps & _).
  destruct Hdp as (w1 & w2 & config & w3 & Hget & Hver & Hsched & Hcfg & -> & Hdp).
  split.
  - intros Hnot. split; [|done].
    unfold GatewayReconcile, handle, bindR.
    rewrite Hget, Hver, Hsched. simpl. by rewrite Hcfg, Hdp, Hnot.
  - intros Hready Hf Hcount.
    unfold GatewayReconcile, handle, bindR.
    rewrite Hget, Hver, Hsched. simpl. rewrite Hcfg, Hdp, Hready. simpl.
    rewrite ListServicesForOwner_no_fault by done.
    destruct (ownedServices dataplane (cluster w4)) as [|first [|second rest]];
      simpl in Hcount; [|done|]; simpl; eauto.
Qed.

(** X28. The pass for a supported Gateway that is not yet scheduled does
    nothing but append the Scheduled condition and write the status: it asks
    for no requeue, touches neither DataPlanes nor ControlPlanes, and when the
    write succeeds the store holds the status of the pruned Gateway. *)
Theorem X28_gateway_is_scheduled_first namespace name w gateway w1 gatewayClass w2 :
  Get Gateway namespace name w = (Ok gateway, w1) →
  verifyGatewayClassSupport gateway w1 = (Ok gatewayClass, w2) →
  IsGatewayScheduled gateway = false →
  let scheduled :=
    PruneGatewayStatusConds
      (setGatewayConditions
         (gws_Conditions (gw_status gateway)
          ++ [scheduledCondition (Generation (gw_meta gateway)) (clock w)]) gateway) in
  ∃ outcome w',
    GatewayReconcile namespace name w = ((noResult, outcome), w')
    ∧ dataPlanes (cluster w') = dataPlanes (cluster w)
    ∧ controlPlanes (cluster w') = controlPlanes (cluster w)
    ∧ (outcome = None →
       ∃ stored, find (sameKey stored) (gateways (cluster w')) = Some stored
                 ∧ gw_status stored = gw_status scheduled).
Proof.
  intros Hget Hver Hsched scheduled.
  unfold GatewayReconcile, handle, bindR. rewrite Hget, Hver, Hsched. simpl.
  apply Get_cases in Hget as ((_ & _ & Hck1) & Hc1 & _).
  apply verifyGatewayClassSupport_frame in Hver as ((_ & _ & Hck2) & Hc2).
  unfold Now, returning. rewrite Hck2, Hck1. fold scheduled.
  destruct (StatusUpdate scheduled w2) as [[stored|e] w3] eqn:Hup.
  - exists None, w3. split; [done|].
    pose proof Hup as Hup'.
    apply StatusUpdate_cases in Hup' as (_ & [(e & [=] & _)|(s & _ & _ & Hcl)]).
    split; [by rewrite Hcl; simpl; rewrite Hc2, Hc1|].
    split; [by rewrite Hcl; simpl; rewrite Hc2, Hc1|]. intros _.
    apply StatusUpdate_stored in Hup as (Hst & s' & _ & ->).
    eexists. split; [exact Hst|done].
  - exists (Some e), w3. split; [done|].
    apply StatusUpdate_cases in Hup as (_ & [(e' & _ & Hcl)|(s & _ & [=] & _)]).
    rewrite Hcl, Hc2, Hc1. done.
Qed.

End GatewayPassOrder.

(* ------------------------------------------------------------------------- *)
(** ** Order of the DataPlane pass                                       *)
(* ------------------------------------------------------------------------- *)

Section DataPlanePassOrder.
Context `{Consts} `{DataPlaneHelpers}.

Ltac in_order :=
  eexists; split; [by rewrite <- ?(assoc_L (++)); simpl|];
  unfold helperCallOrders;
  repeat (first [apply list_elem_of_here | apply list_elem_of_further]).

(** X9. In one DataPlane pass the helpers are called in a fixed order and each
    at most once: the Service ensurer; then either the Service-status helper
    (and nothing else) or the validator, then the certificate ensurer, then
    the Deployment ensurer. *)
Theorem X9_dataplane_pass_calls_helpers_in_order namespace name w res w' :
  DataPlaneReconcile namespace name w = (res, w') →
  ∃ calls, trace w' = trace w ++ calls ∧ calls ∈ helperCallOrders.
Proof.
  unfold DataPlaneReconcile. unfold handle at 1.
  destruct (Get DataPlane namespace name w) as [[stored|e] w1] eqn:Hget;
    apply Get_cases in Hget as ((_ & Htr1 & _) & _).
  2:{ destruct (IsNotFound e); intros [= <- <-]; exists []; rewrite app_nil_r;
        (split; [done|apply list_elem_of_here]). }
  destruct (ensureIsMarkedScheduled (InitReady stored)) as [marked dataplane].
  destruct marked.
  { unfold returning.
    destruct (updateStatus dataplane w1) as [[?|?] w2] eqn:Hup;
      apply updateStatus_observables in Hup as (_ & Htr2 & _);
      intros [= <- <-]; exists []; rewrite app_nil_r;
      (split; [congruence|apply list_elem_of_here]). }
  unfold bindR at 1.
  destruct (call "ensureServiceForDataPlane" _ w1) as [[[changed service]|e] w2] eqn:Hsvc;
    apply call_trace in Hsvc as Htr2; rewrite Htr1 in Htr2.
  2:{ intros [= <- <-]. rewrite Htr2. in_order. }
  destruct changed.
  { unfold returning.
    destruct (call "ensureDataPlaneServiceStatus" _ w2) as [[?|?] w3] eqn:Hst;
      apply call_trace in Hst; intros [= <- <-]; rewrite Hst, Htr2; in_order. }
  case_bool_decide as Hip.
  { intros [= <- <-]. rewrite Htr2. in_order. }
  destruct ((length (do_Env (dp_spec dataplane)) =? 0)%nat
            && (length (do_EnvFrom (dp_spec dataplane)) =? 0)%nat).
  { unfold handle.
    destruct (Update _ w2) as [[?|e] w3] eqn:Hup;
      apply Update_cases in Hup as ((_ & Htr3 & _) & _);
      [|destruct (IsConflict e)]; intros [= <- <-]; rewrite Htr3, Htr2; in_order. }
  unfold handle at 1.
  destruct (call "Validate" (Validate dataplane) w2) as [[[]|e] w3] eqn:Hval;
    apply call_trace in Hval as Htr3; rewrite Htr2 in Htr3.
  2:{ unfold returning.
      destruct (DataPlaneUtils.ensureDataPlaneIsMarkedNotProvisioned _ _ _ _)
        as [marked w4] eqn:Hmark.
      apply ensureDataPlaneIsMarkedNotProvisioned_spec in Hmark as ((_ & Htr4 & _) & _).
      simpl in Htr4.
      destruct marked; intros [= <- <-]; rewrite Htr4, Htr3; in_order. }
  unfold bindR at 1.
  destruct (call "ensureCertificate" _ w3) as [[[changed certSecret]|e] w4] eqn:Hcert;
    apply call_trace in Hcert as Htr4; rewrite Htr3 in Htr4.
  2:{ intros [= <- <-]. rewrite Htr4. in_order. }
  destruct changed.
  { intros [= <- <-]. rewrite Htr4. in_order. }
  unfold bindR at 1.
  destruct (call "ensureDeploymentForDataPlane" _ w4) as [[[changed deployment]|e] w5] eqn:Hd;
    apply call_trace in Hd as Htr5; rewrite Htr4 in Htr5.
  2:{ intros [= <- <-]. rewrite Htr5. in_order. }
  destruct changed.
  { intros [= <- <-]. rewrite Htr5. in_order. }
  destruct (_ || _).
  { intros [= <- <-]. rewrite Htr5. in_order. }
  unfold handle.
  destruct (updateStatus _ w5) as [[?|e] w6] eqn:Hup;
    apply updateStatus_observables in Hup as (_ & Htr6 & _);
    [|destruct (IsConflict e)]; intros [= <- <-]; rewrite Htr6, Htr5; in_order.
Qed.

(** X13. [updateStatus] changes the cluster only when NeedsUpdate says so of
    the stored DataPlane (of the zero value when the lookup answers
    NotFound) and the object at hand, and then the store holds the
    conditions of the object at hand.  For a DataPlane that is gone, it
    returns NotFound if NeedsUpdate holds against the zero value, and
    success otherwise. *)
Theorem X13_status_written_only_when_needed updated w :
  (∀ r w',
     updateStatus updated w = (r, w') →
     cluster w' = cluster w
     ∨ (r = Ok tt
        ∧ (∃ current,
             NeedsUpdate current updated = true
             ∧ (current = emptyDataPlane
                ∨ find (sameKey updated) (dataPlanes (cluster w)) = Some current))
        ∧ ∃ stored,
            find (sameKey stored) (dataPlanes (cluster w')) = Some stored
            ∧ dp_Conditions stored = dp_Conditions updated))
  ∧ (faults w = [] →
     find (sameKey updated) (dataPlanes (cluster w)) = None →
     updateStatus updated w
     = (if NeedsUpdate emptyDataPlane updated
        then Err (notFound (Name (dp_meta updated)))
        else Ok tt, w)).
Proof.
  split.
  - intros r w'. unfold updateStatus, bind, catch.
    destruct (Get DataPlane _ _ w) as [[current|e] w1] eqn:Hget;
      apply Get_cases in Hget as (_ & Hcl1 & _ & Hfound).
    + destruct Hfound as [(e & [=])|(o & [= <-] & Hfind)].
      destruct (NeedsUpdate current updated) eqn:Hneeds;
        [|unfold ret; intros [= <- <-]; by left].
      destruct (StatusUpdate updated w1) as [[o|e] w2] eqn:Hup; unfold ret;
        intros [= <- <-].
      * right. split; [done|]. split; [exists current; split; [done|by right]|].
        apply StatusUpdate_stored in Hup as (Hst & s & _ & ->).
        eexists. split; [exact Hst|done].
      * left. apply StatusUpdate_cases in Hup as (_ & [(e' & _ & Hcl2)|(s & _ & [=] & _)]).
        congruence.
    + destruct (negb (IsNotFound e)); [intros [= <- <-]; by left|].
      unfold ret. destruct (NeedsUpdate emptyDataPlane updated) eqn:Hneeds;
        [|intros [= <- <-]; by left].
      destruct (StatusUpdate updated w1) as [[o|e'] w2] eqn:Hup; intros [= <- <-].
      * right. split; [done|]. split; [exists emptyDataPlane; split; [done|by left]|].
        apply StatusUpdate_stored in Hup as (Hst & s & _ & ->).
        eexists. split; [exact Hst|done].
      * left. apply StatusUpdate_cases in Hup as (_ & [(e'' & _ & Hcl2)|(s & _ & [=] & _)]).
        congruence.
  - intros Hf Hnone. unfold updateStatus, bind, catch.
    rewrite Get_no_fault by done.
    change (find (hasKey (Namespace (dp_meta updated)) (Name (dp_meta updated)))
                 (items (cluster w)))
      with (find (sameKey updated) (dataPlanes (cluster w))).
    rewrite Hnone. simpl. unfold ret.
    destruct (NeedsUpdate emptyDataPlane updated); [|done].
    unfold StatusUpdate. rewrite apiCall_no_fault by done.
    change (find (sameKey updated) (items (cluster w)))
      with (find (sameKey updated) (dataPlanes (cluster w))).
    by rewrite Hnone.
Qed.

(** X10. The pass for a DataPlane that gets marked scheduled ends with the
    status update and returns its error, if any: no helper is called, no
    event recorded, and Services and Deployments are as before. *)
Theorem X10_dataplane_is_scheduled_first namespace name w stored w1 dataplane :
  Get DataPlane namespace name w = (Ok stored, w1) →
  ensureIsMarkedScheduled (InitReady stored) = (true, dataplane) →
  ∃ r w',
    updateStatus dataplane w1 = (r, w')
    ∧ DataPlaneReconcile namespace name w = ((noResult, errorOf r), w')
    ∧ trace w' = trace w ∧ events w' = events w
    ∧ services (cluster w') = services (cluster w)
    ∧ deployments (cluster w') = deployments (cluster w).
Proof.
  intros Hget Hsched.
  destruct (updateStatus dataplane w1) as [r w'] eqn:Hup. exists r, w'.
  split; [done|]. split.
  { unfold DataPlaneReconcile, handle. rewrite Hget, Hsched. unfold returning.
    rewrite Hup. by destruct r. }
  apply Get_cases in Hget as ((Hev1 & Htr1 & _) & Hcl1 & _).
  pose proof (updateStatus_observables _ _ _ _ Hup) as (Hev2 & Htr2 & _).
  split; [congruence|]. split; [congruence|].
  revert Hup. unfold updateStatus, bind, catch.
  assert (∀ (o : DataPlane) wa ra wb,
            StatusUpdate o wa = (ra, wb) →
            services (cluster wb) = services (cluster wa)
            ∧ deployments (cluster wb) = deployments (cluster wa)) as Hsu.
  { intros o wa ra wb Hsu.
    apply StatusUpdate_cases in Hsu as (_ & [(e & _ & ->)|(s & _ & _ & ->)]); done. }
  destruct (Get DataPlane _ _ w1) as [[current|e] w2] eqn:Hget2;
    apply Get_cases in Hget2 as (_ & Hcl2 & _).
  - destruct (NeedsUpdate current dataplane).
    + destruct (StatusUpdate dataplane w2) as [[o|e] w3] eqn:Hst;
        apply Hsu in Hst as [Hs Hd]; unfold ret; intros [= <- <-];
        rewrite Hs, Hd, Hcl2, Hcl1; done.
    + unfold ret. intros [= <- <-]. by rewrite Hcl2, Hcl1.
  - destruct (negb (IsNotFound e)); [intros [= <- <-]; by rewrite Hcl2, Hcl1|].
    unfold ret. destruct (NeedsUpdate emptyDataPlane dataplane).
    + destruct (StatusUpdate dataplane w2) as [[o|e'] w3] eqn:Hst;
        apply Hsu in Hst as [Hs Hd]; intros [= <- <-];
        rewrite Hs, Hd, Hcl2, Hcl1; done.
    + intros [= <- <-]. by rewrite Hcl2, Hcl1.
Qed.

Lemma reconcile_past_service namespace name w dataplane service w2 :
  passesService namespace name w dataplane service w2 →
  svc_ClusterIP service ≠ "" →
  DataPlaneReconcile namespace name w
  = (if (length (do_Env (dp_spec dataplane)) =? 0)%nat
        && (length (do_EnvFrom (dp_spec dataplane)) =? 0)%nat
     then
       handle (Update (setDataPlaneSpec (SetDataPlaneDefaults (dp_spec dataplane)) dataplane))
         (λ err, if IsConflict err
                 then returns (mkResult true requeueWithoutBackoff) None
                 else returns noResult (Some err))
         (λ _, returns noResult None)
     else
       handle (call "Validate" (Validate dataplane))
         (λ err w,
            returning noResult
              (DataPlaneUtils.ensureDataPlaneIsMarkedNotProvisioned dataplane
                 DataPlaneConditionValidationFailed (errorText err))
              (recordEvent (validationFailedEvent dataplane err) w))
         (λ _,
            try! (createdOrUpdated, certSecret) :=
              call "ensureCertificate"
                   (ensureCertificate dataplane (Name (svc_meta service))) in
            if createdOrUpdated : bool then returns noResult None else
            try! (createdOrUpdated, dataplaneDeployment) :=
              call "ensureDeploymentForDataPlane"
                   (ensureDeploymentForDataPlane dataplane (Name (sec_meta certSecret))) in
            if createdOrUpdated : bool then returns noResult None else
            if (ds_Replicas (d_status dataplaneDeployment) =? 0)
               || (ds_AvailableReplicas (d_status dataplaneDeployment)
                   <? ds_Replicas (d_status dataplaneDeployment))
            then returns noResult None
            else
              handle (updateStatus (ensureIsMarkedProvisioned dataplane))
                (λ err, if IsConflict err
                        then returns (mkResult true requeueWithoutBackoff) None
                        else returns noResult (Some err))
                (λ _, returns noResult None))) w2.
Proof.
  intros (stored & w1 & Hget & Hsched & Hsvc) Hip.
  unfold DataPlaneReconcile. unfold handle at 1. rewrite Hget, Hsched.
  unfold bindR at 1. rewrite Hsvc.
  rewrite bool_decide_eq_false_2 by done.
  by destruct (_ && _).
Qed.

(** X11. For a DataPlane without env and envFrom whose Service has a
    ClusterIP, the pass stores the defaulted spec and returns success without
    requeue; the validator is not called in this pass. *)
Theorem X11_defaults_before_validation namespace name w dataplane service w2
    defaulted w3 :
  passesService namespace name w dataplane service w2 →
  svc_ClusterIP service ≠ "" →
  hasNoEnv dataplane →
  Update (setDataPlaneSpec (SetDataPlaneDefaults (dp_spec dataplane)) dataplane) w2
    = (Ok defaulted, w3) →
  DataPlaneReconcile namespace name w = ((noResult, None), w3)
  ∧ trace w3 = trace w ++ ["ensureServiceForDataPlane"]
  ∧ dp_spec defaulted = SetDataPlaneDefaults (dp_spec dataplane)
  ∧ find (sameKey defaulted) (dataPlanes (cluster w3)) = Some defaulted.
Proof.
  intros Hpass Hip [Henv Hfrom] Hup.
  rewrite (reconcile_past_service _ _ _ _ _ _ Hpass Hip), Henv, Hfrom. simpl.
  unfold handle. rewrite Hup. split; [done|].
  apply passesService_trace in Hpass.
  pose proof Hup as Hup'. apply Update_cases in Hup' as ((_ & Htr & _) & _).
  split; [congruence|].
  apply Update_stored in Hup as (Hst & s & _ & ->). done.
Qed.

(** X12. A pass that gets the Deployment back unchanged ends there, with
    success and without a status write, when the Deployment's status counts
    no replicas or fewer available replicas than replicas. *)
Theorem X12_no_status_write_before_deployment_is_available namespace name w dataplane
    deployment w5 :
  reachesDeployment namespace name w dataplane deployment w5 →
  ds_Replicas (d_status deployment) = 0
  ∨ ds_AvailableReplicas (d_status deployment) < ds_Replicas (d_status deployment) →
  DataPlaneReconcile namespace name w = ((noResult, None), w5).
Proof.
  intros (service & w2 & w3 & certSecret & w4 & Hreach & Hval & Hcert & Hdep) Hwait.
  destruct Hreach as (Hpass & Hip & Henv).
  rewrite (reconcile_past_service _ _ _ _ _ _ Hpass Hip).
  destruct ((length (do_Env (dp_spec dataplane)) =? 0)%nat
            && (length (do_EnvFrom (dp_spec dataplane)) =? 0)%nat) eqn:Hnone.
  { exfalso. apply Henv. apply andb_true_iff in Hnone as [H1%Nat.eqb_eq H2%Nat.eqb_eq].
    split; by apply length_zero_iff_nil. }
  unfold handle at 1. rewrite Hval. unfold bindR at 1. rewrite Hcert.
  unfold bindR at 1. rewrite Hdep.
  assert ((ds_Replicas (d_status deployment) =? 0)
          || (ds_AvailableReplicas (d_status deployment)
              <? ds_Replicas (d_status deployment)) = true) as ->; [|done].
  apply orb_true_iff.
  destruct Hwait as [Hz|Hlt]; [left; by apply Z.eqb_eq|right; by apply Z.ltb_lt].
Qed.

End DataPlanePassOrder.

Section FirstRead.
Context `{Consts} `{GatewayHelpers} `{DataPlaneHelpers}.

(** X30. When the first read of a pass fails, the Gateway pass and the
    DataPlane pass both return the error and do nothing else, except that
    NotFound is answered with success; in particular a pass for an object
    that is not in the store is a no-op. *)
Theorem X30_reconcile_of_missing_object_is_a_noop namespace name w :
  (∀ err rest, faults w = Some err :: rest →
     GatewayReconcile namespace name w
     = ((noResult, if IsNotFound err then None else Some err), setFaults rest w)
     ∧ DataPlaneReconcile namespace name w
       = ((noResult, if IsNotFound err then None else Some err), setFaults rest w))
  ∧ (faults w = [] →
     (find (hasKey namespace name) (gateways (cluster w)) = None →
      GatewayReconcile namespace name w = ((noResult, None), w))
     ∧ (find (hasKey namespace name) (dataPlanes (cluster w)) = None →
        DataPlaneReconcile namespace name w = ((noResult, None), w))).
Proof.
  split.
  - intros err rest Hf. unfold GatewayReconcile, DataPlaneReconcile, handle, Get, apiCall.
    rewrite Hf. by destruct (IsNotFound err).
  - intros Hf. split; intros Hnone.
    + unfold GatewayReconcile, handle. rewrite Get_no_fault by done. simpl.
      by rewrite Hnone.
    + unfold DataPlaneReconcile. unfold handle at 1. rewrite Get_no_fault by done.
      simpl. by rewrite Hnone.
Qed.

End FirstRead.

(* ------------------------------------------------------------------------- *)
(** ** The properties on the example cluster                                  *)
(* ------------------------------------------------------------------------- *)

Lemma X1_witness :
  Labels Fixtures.staleMeta ≠ ∅
  ∧ EnsureObjectMetaIsUpdated Fixtures.staleMeta Fixtures.desiredMeta
    = (true, Fixtures.mergedMeta)
  ∧ OwnerReferences Fixtures.mergedMeta = OwnerReferences Fixtures.desiredMeta
  ∧ (∀ key value, Labels Fixtures.desiredMeta !! key = Some value →
                  Labels Fixtures.mergedMeta !! key = Some value)
  ∧ (∀ key, Labels Fixtures.desiredMeta !! key = None →
            Labels Fixtures.mergedMeta !! key = Labels Fixtures.staleMeta !! key)
  ∧ Name Fixtures.mergedMeta = Name Fixtures.staleMeta
  ∧ GenerateName Fixtures.mergedMeta = GenerateName Fixtures.staleMeta
  ∧ Namespace Fixtures.mergedMeta = Namespace Fixtures.staleMeta
  ∧ UID Fixtures.mergedMeta = UID Fixtures.staleMeta
  ∧ Generation Fixtures.mergedMeta = Generation Fixtures.staleMeta.
Proof.
  assert (Hlabels : Labels Fixtures.staleMeta ≠ ∅) by (vm_compute; discriminate).
  assert (Hrun : EnsureObjectMetaIsUpdated Fixtures.staleMeta Fixtures.desiredMeta
                 = (true, Fixtures.mergedMeta)) by (vm_compute; reflexivity).
  split; [exact Hlabels|]. split; [exact Hrun|].
  exact (X1_metadata_takes_generated_owner_and_labels _ _ _ _ Hlabels Hrun).
Defined.

Lemma X2_witness :
  Labels Fixtures.staleMeta ≠ ∅
  ∧ OwnerReferences Fixtures.desiredMeta ≠ []
  ∧ EnsureObjectMetaIsUpdated Fixtures.staleMeta Fixtures.desiredMeta
    = (true, Fixtures.mergedMeta)
  ∧ (true = false ↔
       OwnerReferences Fixtures.staleMeta = OwnerReferences Fixtures.desiredMeta
       ∧ Labels Fixtures.desiredMeta ⊆ Labels Fixtures.staleMeta)
  ∧ (true = false → Fixtures.mergedMeta = Fixtures.staleMeta)
  ∧ EnsureObjectMetaIsUpdated Fixtures.mergedMeta Fixtures.desiredMeta
    = (false, Fixtures.mergedMeta).
Proof.
  assert (Hlabels : Labels Fixtures.staleMeta ≠ ∅) by (vm_compute; discriminate).
  assert (Hrefs : OwnerReferences Fixtures.desiredMeta ≠ []) by (vm_compute; discriminate).
  assert (Hrun : EnsureObjectMetaIsUpdated Fixtures.staleMeta Fixtures.desiredMeta
                 = (true, Fixtures.mergedMeta)) by (vm_compute; reflexivity).
  split; [exact Hlabels|]. split; [exact Hrefs|]. split; [exact Hrun|].
  exact (X2_metadata_update_flag_and_idempotence _ _ _ _ Hlabels Hrefs Hrun).
Defined.

Lemma X3_witness :
  ListServicesForOwner "gateway-operator-controlled" "managed-by-dataplane" "default" "dp-uid"
    Scenario.start = (Ok [Scenario.service], Scenario.start)
  ∧ Scenario.service ∈ services (cluster Scenario.start)
  ∧ ownedChild "gateway-operator-controlled" "managed-by-dataplane" "default" "dp-uid"
      (svc_meta Scenario.service).
Proof.
  assert (Hrun : ListServicesForOwner "gateway-operator-controlled" "managed-by-dataplane"
                   "default" "dp-uid" Scenario.start
                 = (Ok [Scenario.service], Scenario.start)) by (vm_compute; reflexivity).
  split; [exact Hrun|].
  destruct (X3_owner_listings_find_exactly_the_owned "gateway-operator-controlled"
              "managed-by-dataplane" "default" "dp-uid" Scenario.start) as [_ Hservices].
  destruct (Hservices _ _ Hrun) as [_ Hfound].
  destruct (Hfound _ eq_refl) as [_ Hiff].
  apply Hiff. apply list_elem_of_here.
Defined.

Lemma X4_witness :
  Fixtures.markNotProvisioned
    = (Ok (Fixtures.orOf Scenario.dataplaneNotReady Fixtures.markNotProvisioned.1),
       Fixtures.markNotProvisioned.2)
  ∧ ∀ later,
      DataPlaneUtils.ensureDataPlaneIsMarkedNotProvisioned
        (Fixtures.orOf Scenario.dataplaneNotReady Fixtures.markNotProvisioned.1)
        "ValidationFailed" "image is not supported" later
      = (Ok (Fixtures.orOf Scenario.dataplaneNotReady Fixtures.markNotProvisioned.1), later).
Proof.
  assert (Hrun : Fixtures.markNotProvisioned
            = (Ok (Fixtures.orOf Scenario.dataplaneNotReady Fixtures.markNotProvisioned.1),
               Fixtures.markNotProvisioned.2)) by (vm_compute; reflexivity).
  split; [exact Hrun|].
  exact (X4_not_provisioned_is_written_once _ _ _ _ _ _ Hrun).
Defined.

Lemma X5_witness :
  Fixtures.markProvisioned
    = (Ok (Fixtures.orOf Scenario.dataplaneNotReady Fixtures.markProvisioned.1),
       Fixtures.markProvisioned.2)
  ∧ dp_Conditions (Fixtures.orOf Scenario.dataplaneNotReady Fixtures.markProvisioned.1)
    = map (λ condition,
             if bool_decide (c_Type condition = DataPlaneConditionTypeProvisioned)
             then podsReady (Generation (dp_meta Scenario.dataplaneNotReady))
                            (clock Fixtures.startNotReady)
             else condition) (dp_Conditions Scenario.dataplaneNotReady)
  ∧ hasConditionTrue DataPlaneConditionTypeProvisioned
      (dp_Conditions (Fixtures.orOf Scenario.dataplaneNotReady Fixtures.markProvisioned.1))
    = hasConditionType DataPlaneConditionTypeProvisioned
        (dp_Conditions Scenario.dataplaneNotReady)
  ∧ find (sameKey (Fixtures.orOf Scenario.dataplaneNotReady Fixtures.markProvisioned.1))
         (dataPlanes (cluster Fixtures.markProvisioned.2))
    = Some (Fixtures.orOf Scenario.dataplaneNotReady Fixtures.markProvisioned.1).
Proof.
  assert (Hrun : Fixtures.markProvisioned
            = (Ok (Fixtures.orOf Scenario.dataplaneNotReady Fixtures.markProvisioned.1),
               Fixtures.markProvisioned.2)) by (vm_compute; reflexivity).
  split; [exact Hrun|].
  exact (X5_provisioned_rewrites_existing_entries_only _ _ _ _ Hrun).
Defined.

Lemma X6_witness :
  Fixtures.markScheduled = (Ok (true, Fixtures.scheduledDataPlane), Fixtures.markScheduled.2)
  ∧ Fixtures.markScheduledProvisioned
    = (Ok (Fixtures.orOf Fixtures.dataplaneFresh Fixtures.markScheduledProvisioned.1),
       Fixtures.markScheduledProvisioned.2)
  ∧ hasConditionTrue DataPlaneConditionTypeProvisioned
      (dp_Conditions
         (Fixtures.orOf Fixtures.dataplaneFresh Fixtures.markScheduledProvisioned.1)) = true
  ∧ find (sameKey (Fixtures.orOf Fixtures.dataplaneFresh Fixtures.markScheduledProvisioned.1))
         (dataPlanes (cluster Fixtures.markScheduledProvisioned.2))
    = Some (Fixtures.orOf Fixtures.dataplaneFresh Fixtures.markScheduledProvisioned.1).
Proof.
  assert (Hsched : Fixtures.markScheduled
            = (Ok (true, Fixtures.scheduledDataPlane), Fixtures.markScheduled.2))
    by (vm_compute; reflexivity).
  assert (Hprov : Fixtures.markScheduledProvisioned
            = (Ok (Fixtures.orOf Fixtures.dataplaneFresh Fixtures.markScheduledProvisioned.1),
               Fixtures.markScheduledProvisioned.2)) by (vm_compute; reflexivity).
  split; [exact Hsched|]. split; [exact Hprov|].
  exact (X6_scheduled_then_provisioned_is_ready _ _ _ _ _ _ _ Hsched Hprov).
Defined.

Lemma X7_witness :
  faults (Scenario.world Fixtures.clusterBareDataPlane) = []
  ∧ length (ownedDeployments (H := Scenario.consts)
              (DataPlaneManagedLabelValue (Consts := Scenario.consts))
              (Namespace (dp_meta Scenario.dataplane)) (UID (dp_meta Scenario.dataplane))
              (cluster (Scenario.world Fixtures.clusterBareDataPlane))) ≠ 1%nat
  ∧ Namespace (d_meta (generateNewDeploymentForDataPlane
                         (DataPlaneGenerators := Scenario.dataPlaneGenerators)
                         Scenario.dataplane))
    = Namespace (dp_meta Scenario.dataplane)
  ∧ ∃ created w',
      DataPlaneUtils.ensureDeploymentForDataPlane (H := Scenario.consts)
        (H0 := Scenario.dataPlaneGenerators) Scenario.dataplane
        (Scenario.world Fixtures.clusterBareDataPlane) = (Ok created, w')
      ∧ ownedDeployments (H := Scenario.consts)
          (DataPlaneManagedLabelValue (Consts := Scenario.consts))
          (Namespace (dp_meta Scenario.dataplane)) (UID (dp_meta Scenario.dataplane))
          (cluster w') = [created]
      ∧ d_Replicas created
        = d_Replicas (generateNewDeploymentForDataPlane
                        (DataPlaneGenerators := Scenario.dataPlaneGenerators)
                        Scenario.dataplane)
      ∧ d_Containers created
        = d_Containers (generateNewDeploymentForDataPlane
                          (DataPlaneGenerators := Scenario.dataPlaneGenerators)
                          Scenario.dataplane)
      ∧ DataPlaneUtils.ensureDeploymentForDataPlane (H := Scenario.consts)
          (H0 := Scenario.dataPlaneGenerators) Scenario.dataplane w' = (Ok created, w').
Proof.
  assert (Hf : faults (Scenario.world Fixtures.clusterBareDataPlane) = []) by reflexivity.
  assert (Hcount : length (ownedDeployments (H := Scenario.consts)
              (DataPlaneManagedLabelValue (Consts := Scenario.consts))
              (Namespace (dp_meta Scenario.dataplane)) (UID (dp_meta Scenario.dataplane))
              (cluster (Scenario.world Fixtures.clusterBareDataPlane))) ≠ 1%nat)
    by (vm_compute; discriminate).
  assert (Hns : Namespace (d_meta (generateNewDeploymentForDataPlane
                         (DataPlaneGenerators := Scenario.dataPlaneGenerators)
                         Scenario.dataplane))
                = Namespace (dp_meta Scenario.dataplane)) by reflexivity.
  split; [exact Hf|]. split; [exact Hcount|]. split; [exact Hns|].
  exact (X7_deployment_for_dataplane_created_once (H := Scenario.consts)
           (H0 := Scenario.dataPlaneGenerators) Scenario.dataplane _ Hf Hcount Hns).
Defined.

Lemma X8_witness :
  faults (Scenario.world Fixtures.clusterBareDataPlane) = []
  ∧ length (ownedServices (H := Scenario.consts) Scenario.dataplane
              (cluster (Scenario.world Fixtures.clusterBareDataPlane))) ≠ 1%nat
  ∧ Namespace (svc_meta (generateNewServiceForDataplane
                           (DataPlaneServiceGenerators := Fixtures.dataPlaneServiceGenerators)
                           Scenario.dataplane))
    = Namespace (dp_meta Scenario.dataplane)
  ∧ ∃ created w',
      DataPlaneUtils.ensureServiceForDataPlane (H := Scenario.consts)
        (H1 := Fixtures.dataPlaneServiceGenerators) Scenario.dataplane
        (Scenario.world Fixtures.clusterBareDataPlane) = (Ok created, w')
      ∧ ownedServices (H := Scenario.consts) Scenario.dataplane (cluster w') = [created]
      ∧ svc_ClusterIP created
        = svc_ClusterIP (generateNewServiceForDataplane
                           (DataPlaneServiceGenerators := Fixtures.dataPlaneServiceGenerators)
                           Scenario.dataplane)
      ∧ DataPlaneUtils.ensureServiceForDataPlane (H := Scenario.consts)
          (H1 := Fixtures.dataPlaneServiceGenerators) Scenario.dataplane w'
        = (Ok created, w').
Proof.
  assert (Hf : faults (Scenario.world Fixtures.clusterBareDataPlane) = []) by reflexivity.
  assert (Hcount : length (ownedServices (H := Scenario.consts) Scenario.dataplane
              (cluster (Scenario.world Fixtures.clusterBareDataPlane))) ≠ 1%nat)
    by (vm_compute; discriminate).
  assert (Hns : Namespace (svc_meta (generateNewServiceForDataplane
                           (DataPlaneServiceGenerators := Fixtures.dataPlaneServiceGenerators)
                           Scenario.dataplane))
                = Namespace (dp_meta Scenario.dataplane)) by reflexivity.
  split; [exact Hf|]. split; [exact Hcount|]. split; [exact Hns|].
  exact (X8_service_for_dataplane_created_once (H := Scenario.consts)
           (H1 := Fixtures.dataPlaneServiceGenerators) Scenario.dataplane _ Hf Hcount Hns).
Defined.

Lemma X9_witness :
  Scenario.reconcileDataPlane None Fixtures.startNotReady
    = (Fixtures.passNotReady.1, Fixtures.passNotReady.2)
  ∧ trace Fixtures.passNotReady.2
    = ["ensureServiceForDataPlane"; "Validate"; "ensureCertificate";
       "ensureDeploymentForDataPlane"]
  ∧ ∃ calls, trace Fixtures.passNotReady.2 = trace Fixtures.startNotReady ++ calls
             ∧ calls ∈ helperCallOrders.
Proof.
  assert (Hrun : Scenario.reconcileDataPlane None Fixtures.startNotReady
                 = (Fixtures.passNotReady.1, Fixtures.passNotReady.2))
    by (vm_compute; reflexivity).
  split; [exact Hrun|]. split; [vm_compute; reflexivity|].
  exact (X9_dataplane_pass_calls_helpers_in_order (H := Scenario.consts)
           (H0 := Scenario.dataPlaneHelpers None) "default" "gw-dp" _ _ _ Hrun).
Defined.

Lemma X10_witness :
  let marked := setDataPlaneConditions [Scenario.provisionedFalse] Fixtures.dataplaneFresh in
  Get DataPlane "default" "gw-dp" Fixtures.startFresh
    = (Ok Fixtures.dataplaneFresh, Fixtures.startFresh)
  ∧ ensureIsMarkedScheduled (DataPlaneHelpers := Scenario.dataPlaneHelpers None)
      (InitReady (DataPlaneHelpers := Scenario.dataPlaneHelpers None) Fixtures.dataplaneFresh)
    = (true, marked)
  ∧ ∃ r w',
      updateStatus (H0 := Scenario.dataPlaneHelpers None) marked Fixtures.startFresh = (r, w')
      ∧ Scenario.reconcileDataPlane None Fixtures.startFresh = ((noResult, errorOf r), w')
      ∧ trace w' = trace Fixtures.startFresh ∧ events w' = events Fixtures.startFresh
      ∧ services (cluster w') = services (cluster Fixtures.startFresh)
      ∧ deployments (cluster w') = deployments (cluster Fixtures.startFresh).
Proof.
  intros marked.
  assert (Hget : Get DataPlane "default" "gw-dp" Fixtures.startFresh
                 = (Ok Fixtures.dataplaneFresh, Fixtures.startFresh))
    by (vm_compute; reflexivity).
  assert (Hmark : ensureIsMarkedScheduled (DataPlaneHelpers := Scenario.dataPlaneHelpers None)
                    (InitReady (DataPlaneHelpers := Scenario.dataPlaneHelpers None)
                               Fixtures.dataplaneFresh)
                  = (true, marked)) by (vm_compute; reflexivity).
  split; [exact Hget|]. split; [exact Hmark|].
  exact (X10_dataplane_is_scheduled_first (H := Scenario.consts)
           (H0 := Scenario.dataPlaneHelpers None) "default" "gw-dp" _ _ _ _ Hget Hmark).
Defined.

Lemma X11_witness :
  let w2 := setTrace ["ensureServiceForDataPlane"] Fixtures.startNoEnv in
  let defaulted := Fixtures.orOf Scenario.dataplaneNoEnv Fixtures.defaultsUpdate.1 in
  passesService (H0 := Scenario.dataPlaneHelpers None)
    "default" "gw-dp" Fixtures.startNoEnv Scenario.dataplaneNoEnv Scenario.service w2
  ∧ svc_ClusterIP Scenario.service ≠ ""
  ∧ hasNoEnv Scenario.dataplaneNoEnv
  ∧ Fixtures.defaultsUpdate = (Ok defaulted, Fixtures.defaultsUpdate.2)
  ∧ Scenario.reconcileDataPlane None Fixtures.startNoEnv
    = ((noResult, None), Fixtures.defaultsUpdate.2)
  ∧ trace Fixtures.defaultsUpdate.2
    = trace Fixtures.startNoEnv ++ ["ensureServiceForDataPlane"]
  ∧ dp_spec defaulted
    = SetDataPlaneDefaults (DataPlaneHelpers := Scenario.dataPlaneHelpers None)
        (dp_spec Scenario.dataplaneNoEnv)
  ∧ find (sameKey defaulted) (dataPlanes (cluster Fixtures.defaultsUpdate.2))
    = Some defaulted.
Proof.
  intros w2 defaulted.
  assert (Hpass : passesService (H0 := Scenario.dataPlaneHelpers None)
            "default" "gw-dp" Fixtures.startNoEnv Scenario.dataplaneNoEnv
            Scenario.service w2).
  { exists Scenario.dataplaneNoEnv, Fixtures.startNoEnv.
    split_and!; vm_compute; reflexivity. }
  assert (Hip : svc_ClusterIP Scenario.service ≠ "") by (vm_compute; discriminate).
  assert (Henv : hasNoEnv Scenario.dataplaneNoEnv) by (split; reflexivity).
  assert (Hup : Fixtures.defaultsUpdate = (Ok defaulted, Fixtures.defaultsUpdate.2))
    by (vm_compute; reflexivity).
  split; [exact Hpass|]. split; [exact Hip|]. split; [exact Henv|]. split; [exact Hup|].
  exact (X11_defaults_before_validation (H := Scenario.consts)
           (H0 := Scenario.dataPlaneHelpers None) "default" "gw-dp" _ _ _ _ _ _
           Hpass Hip Henv Hup).
Defined.

Lemma X12_witness :
  let w := Scenario.world Fixtures.clusterRollingOut in
  let w5 := setTrace ["ensureServiceForDataPlane"; "Validate"; "ensureCertificate";
                      "ensureDeploymentForDataPlane"] w in
  reachesDeployment (H0 := Scenario.dataPlaneHelpers None)
    "default" "gw-dp" w Scenario.dataplaneNotReady Fixtures.deploymentRollingOut w5
  ∧ ds_AvailableReplicas (d_status Fixtures.deploymentRollingOut)
    < ds_Replicas (d_status Fixtures.deploymentRollingOut)
  ∧ Scenario.reconcileDataPlane None w = ((noResult, None), w5)
  ∧ dataPlanes (cluster w5) = dataPlanes (cluster w).
Proof.
  intros w w5.
  assert (Hreach : reachesDeployment (H0 := Scenario.dataPlaneHelpers None)
            "default" "gw-dp" w Scenario.dataplaneNotReady Fixtures.deploymentRollingOut w5).
  { exists Scenario.service,
           (setTrace ["ensureServiceForDataPlane"] w),
           (setTrace ["ensureServiceForDataPlane"; "Validate"] w),
           (mkSecret (generatedMeta "default" "certificate")),
           (setTrace ["ensureServiceForDataPlane"; "Validate"; "ensureCertificate"] w).
    split_and!; try (vm_compute; reflexivity).
    split; [|split].
    - exists Scenario.dataplaneNotReady, w. split_and!; vm_compute; reflexivity.
    - vm_compute. discriminate.
    - intros [Henv _]. vm_compute in Henv. discriminate. }
  assert (Hless : ds_AvailableReplicas (d_status Fixtures.deploymentRollingOut)
                  < ds_Replicas (d_status Fixtures.deploymentRollingOut))
    by (vm_compute; reflexivity).
  split; [exact Hreach|]. split; [exact Hless|].
  split; [|reflexivity].
  exact (X12_no_status_write_before_deployment_is_available (H := Scenario.consts)
           (H0 := Scenario.dataPlaneHelpers None) "default" "gw-dp" _ _ _ _
           Hreach (or_intror Hless)).
Defined.

Lemma X13_witness :
  let w := Scenario.world Fixtures.clusterUnscheduled in
  faults w = []
  ∧ find (sameKey Scenario.dataplane) (dataPlanes (cluster w)) = None
  ∧ NeedsUpdate (DataPlaneHelpers := Scenario.dataPlaneHelpers None)
      emptyDataPlane Scenario.dataplane = true
  ∧ updateStatus (H0 := Scenario.dataPlaneHelpers None) Scenario.dataplane w
    = (Err (notFound "gw-dp"), w).
Proof.
  intros w.
  assert (Hf : faults w = []) by reflexivity.
  assert (Hnone : find (sameKey Scenario.dataplane) (dataPlanes (cluster w)) = None)
    by (vm_compute; reflexivity).
  assert (Hneeds : NeedsUpdate (DataPlaneHelpers := Scenario.dataPlaneHelpers None)
                     emptyDataPlane Scenario.dataplane = true) by (vm_compute; reflexivity).
  split; [exact Hf|]. split; [exact Hnone|]. split; [exact Hneeds|].
  destruct (X13_status_written_only_when_needed (H0 := Scenario.dataPlaneHelpers None)
              Scenario.dataplane w) as [_ Hmissing].
  rewrite (Hmissing Hf Hnone), Hneeds. reflexivity.
Defined.

Lemma X14_witness :
  Fixtures.dataPlaneStatus
    = (Ok (true, false, Fixtures.controlplaneDetached), Fixtures.dataPlaneStatus.2)
  ∧ false = dataplaneIsSet Fixtures.controlplaneUnset
  ∧ (true = false →
     Fixtures.controlplaneDetached = Fixtures.controlplaneUnset
     ∧ Fixtures.dataPlaneStatus.2 = Fixtures.startUnset)
  ∧ (true = true →
     cp_Conditions Fixtures.controlplaneDetached ≠ []
     ∧ (∀ condition, condition ∈ cp_Conditions Fixtures.controlplaneDetached →
          c_Type condition = ControlPlaneConditionTypeProvisioned
          ∧ c_Status condition = ConditionFalse
          ∧ c_Reason condition = dataPlaneStatusReason false)
     ∧ (length (cp_Conditions Fixtures.controlplaneDetached)
        ≤ length (filter (λ c, c_Type c = ControlPlaneConditionTypeProvisioned)
                         (cp_Conditions Fixtures.controlplaneUnset)))%nat
     ∧ find (sameKey Fixtures.controlplaneDetached)
            (controlPlanes (cluster Fixtures.dataPlaneStatus.2))
       = Some Fixtures.controlplaneDetached).
Proof.
  assert (Hrun : Fixtures.dataPlaneStatus
            = (Ok (true, false, Fixtures.controlplaneDetached), Fixtures.dataPlaneStatus.2))
    by (vm_compute; reflexivity).
  split; [exact Hrun|].
  exact (X14_dataplane_status_moves_and_drops _ _ _ _ _ _ Hrun).
Defined.

Lemma X15_witness :
  Fixtures.dataPlaneStatus
    = (Ok (true, false, Fixtures.controlplaneDetached), Fixtures.dataPlaneStatus.2)
  ∧ dataplaneIsSet Fixtures.controlplaneDetached = dataplaneIsSet Fixtures.controlplaneUnset
  ∧ ∀ later, ensureDataPlaneStatus Fixtures.controlplaneDetached later
             = (Ok (false, false, Fixtures.controlplaneDetached), later).
Proof.
  assert (Hrun : Fixtures.dataPlaneStatus
            = (Ok (true, false, Fixtures.controlplaneDetached), Fixtures.dataPlaneStatus.2))
    by (vm_compute; reflexivity).
  assert (Hsame : dataplaneIsSet Fixtures.controlplaneDetached
                  = dataplaneIsSet Fixtures.controlplaneUnset) by (vm_compute; reflexivity).
  split; [exact Hrun|]. split; [exact Hsame|].
  exact (X15_dataplane_status_is_stable _ _ _ _ _ _ Hrun Hsame).
Defined.

Lemma X16_witness :
  Fixtures.controlplaneScheduledRun
    = (Ok (true, Fixtures.controlplaneScheduled), Fixtures.controlplaneScheduledRun.2)
  ∧ Fixtures.controlplaneAttachedRun
    = (Ok (false, true, Fixtures.controlplaneAttached), Fixtures.controlplaneAttachedRun.2)
  ∧ Fixtures.controlplaneProvisionedRun
    = (Ok (Fixtures.orOf Fixtures.controlplaneFresh Fixtures.controlplaneProvisionedRun.1),
       Fixtures.controlplaneProvisionedRun.2)
  ∧ hasConditionTrue ControlPlaneConditionTypeProvisioned
      (cp_Conditions
         (Fixtures.orOf Fixtures.controlplaneFresh Fixtures.controlplaneProvisionedRun.1))
    = true
  ∧ find (sameKey (Fixtures.orOf Fixtures.controlplaneFresh
                     Fixtures.controlplaneProvisionedRun.1))
         (controlPlanes (cluster Fixtures.controlplaneProvisionedRun.2))
    = Some (Fixtures.orOf Fixtures.controlplaneFresh Fixtures.controlplaneProvisionedRun.1).
Proof.
  assert (Hsched : Fixtures.controlplaneScheduledRun
            = (Ok (true, Fixtures.controlplaneScheduled),
               Fixtures.controlplaneScheduledRun.2)) by (vm_compute; reflexivity).
  assert (Hstatus : Fixtures.controlplaneAttachedRun
            = (Ok (false, true, Fixtures.controlplaneAttached),
               Fixtures.controlplaneAttachedRun.2)) by (vm_compute; reflexivity).
  assert (Hprov : Fixtures.controlplaneProvisionedRun
            = (Ok (Fixtures.orOf Fixtures.controlplaneFresh
                     Fixtures.controlplaneProvisionedRun.1),
               Fixtures.controlplaneProvisionedRun.2)) by (vm_compute; reflexivity).
  split; [exact Hsched|]. split; [exact Hstatus|]. split; [exact Hprov|].
  exact (X16_controlplane_status_ends_provisioned _ _ _ _ _ _ _ _ _ _ _
           Hsched Hstatus Hprov).
Defined.

Lemma X17_witness :
  let w := Scenario.world (Scenario.clusterControlPlane Scenario.controlplaneDormant (Some 0)) in
  faults w = []
  ∧ ownedDeployments (H := Scenario.consts)
      (ControlPlaneManagedLabelValue (Consts := Scenario.consts))
      (Namespace (cp_meta Scenario.controlplaneDormant))
      (UID (cp_meta Scenario.controlplaneDormant)) (cluster w)
    = [Scenario.controlplaneDeployment (Some 0)]
  ∧ (EnsureObjectMetaIsUpdated (d_meta (Scenario.controlplaneDeployment (Some 0)))
       (d_meta (generatedDeploymentFor (H := Scenario.consts)
                  (H0 := Scenario.controlPlaneGenerators)
                  Scenario.controlplaneDormant "gw-cp-sa"))).1 = false
  ∧ dataplaneIsSet Scenario.controlplaneDormant = false
  ∧ ensureDeploymentForControlPlane (H := Scenario.consts)
      (H0 := Scenario.controlPlaneGenerators) Scenario.controlplaneDormant "gw-cp-sa" w
    = (Ok (false, Scenario.controlplaneDeployment (Some 0)), w).
Proof.
  intros w.
  assert (Hf : faults w = []) by reflexivity.
  assert (Howned : ownedDeployments (H := Scenario.consts)
      (ControlPlaneManagedLabelValue (Consts := Scenario.consts))
      (Namespace (cp_meta Scenario.controlplaneDormant))
      (UID (cp_meta Scenario.controlplaneDormant)) (cluster w)
    = [Scenario.controlplaneDeployment (Some 0)]) by (vm_compute; reflexivity).
  assert (Hmeta : (EnsureObjectMetaIsUpdated (d_meta (Scenario.controlplaneDeployment (Some 0)))
       (d_meta (generatedDeploymentFor (H := Scenario.consts)
                  (H0 := Scenario.controlPlaneGenerators)
                  Scenario.controlplaneDormant "gw-cp-sa"))).1 = false)
    by (vm_compute; reflexivity).
  assert (Hunset : dataplaneIsSet Scenario.controlplaneDormant = false)
    by (vm_compute; reflexivity).
  split; [exact Hf|]. split; [exact Howned|]. split; [exact Hmeta|]. split; [exact Hunset|].
  apply (X17_controlplane_deployment_steady_state (H := Scenario.consts)
           (H0 := Scenario.controlPlaneGenerators) Scenario.controlplaneDormant "gw-cp-sa"
           (Scenario.controlplaneDeployment (Some 0)) w Hf Howned Hmeta).
  rewrite Hunset. reflexivity.
Defined.

Lemma X18_witness :
  let w := Scenario.world (Scenario.clusterControlPlane Scenario.controlplane (Some 0)) in
  dataplaneIsSet Scenario.controlplane = true
  ∧ ownedDeployments (H := Scenario.consts)
      (ControlPlaneManagedLabelValue (Consts := Scenario.consts))
      (Namespace (cp_meta Scenario.controlplane))
      (UID (cp_meta Scenario.controlplane)) (cluster w)
    = [Scenario.controlplaneDeployment (Some 0)]
  ∧ d_Replicas (Scenario.controlplaneDeployment (Some 0)) = Some 0
  ∧ Scenario.ensureWoken
    = (Ok (true, Scenario.ensuredDeployment Scenario.ensureWoken), Scenario.ensureWoken.2)
  ∧ d_Containers (Scenario.ensuredDeployment Scenario.ensureWoken)
    = [mkContainer "controller" "kic:2" [mkEnvVar "CONTROLLER_LOG_LEVEL" "info"]].
Proof.
  intros w.
  assert (Hset : dataplaneIsSet Scenario.controlplane = true) by (vm_compute; reflexivity).
  assert (Howned : ownedDeployments (H := Scenario.consts)
      (ControlPlaneManagedLabelValue (Consts := Scenario.consts))
      (Namespace (cp_meta Scenario.controlplane))
      (UID (cp_meta Scenario.controlplane)) (cluster w)
    = [Scenario.controlplaneDeployment (Some 0)]) by (vm_compute; reflexivity).
  assert (Hzero : d_Replicas (Scenario.controlplaneDeployment (Some 0)) = Some 0)
    by reflexivity.
  assert (Hrun : Scenario.ensureWoken
            = (Ok (true, Scenario.ensuredDeployment Scenario.ensureWoken),
               Scenario.ensureWoken.2)) by (vm_compute; reflexivity).
  split; [exact Hset|]. split; [exact Howned|]. split; [exact Hzero|]. split; [exact Hrun|].
  destruct (X18_waking_replaces_env_of_first_container (H := Scenario.consts)
              (H0 := Scenario.controlPlaneGenerators) Scenario.controlplane "gw-cp-sa"
              (Scenario.controlplaneDeployment (Some 0)) w Hset Howned Hzero)
    as [_ Hwake].
  exact (Hwake (mkContainer "controller" "kic:2" [mkEnvVar "CONTROLLER_LOG_LEVEL" "debug"])
               [] _ _ _ eq_refl Hrun).
Defined.

Lemma X19_witness :
  (getControlplaneRequestFromRefUID Fixtures.clusterRoleMeta Fixtures.startWatch).1
    = [mkRequest "default" "gw-cp"]
  ∧ (objHasControlplaneOwner Fixtures.clusterRoleMeta Fixtures.startWatch).1 = true.
Proof.
  assert (Hrequests : (getControlplaneRequestFromRefUID Fixtures.clusterRoleMeta
                         Fixtures.startWatch).1 = [mkRequest "default" "gw-cp"])
    by (vm_compute; reflexivity).
  split; [exact Hrequests|].
  destruct (X19_watch_predicate_and_map_function_agree Fixtures.clusterRoleMeta
              Fixtures.startWatch) as (_ & _ & Hiff & _).
  apply Hiff. rewrite Hrequests. discriminate.
Defined.

Lemma X20_witness :
  (clusterRoleHasControlplaneOwner (ClusterRoleObject Fixtures.clusterRoleMeta)
     Fixtures.startWatch).1 = true
  ∧ (∀ err rest, faults Fixtures.startWatch ≠ Some err :: rest)
  ∧ ∃ clusterRole controlplane,
      ClusterRoleObject Fixtures.clusterRoleMeta = ClusterRoleObject clusterRole
      ∧ controlplane ∈ controlPlanes (cluster Fixtures.startWatch)
      ∧ IsOwnedByRefUID clusterRole (UID (cp_meta controlplane)) = true.
Proof.
  assert (Howned : (clusterRoleHasControlplaneOwner
                      (ClusterRoleObject Fixtures.clusterRoleMeta) Fixtures.startWatch).1
                   = true) by (vm_compute; reflexivity).
  split; [exact Howned|].
  destruct (X20_watch_functions_need_kind_and_listing
              (ClusterRoleObject Fixtures.clusterRoleMeta) Fixtures.startWatch)
    as [Hrole _].
  exact (Hrole Howned).
Defined.

Lemma X21_witness :
  serverErrorsOnly (Scenario.world Fixtures.clusterConfigured)
  ∧ getOrCreateGatewayConfiguration (H := Scenario.consts)
      (Fixtures.classWithRef Fixtures.parametersRef)
      (Scenario.world Fixtures.clusterConfigured)
    = (Ok Fixtures.gatewayConfiguration, Scenario.world Fixtures.clusterConfigured)
  ∧ cluster (Scenario.world Fixtures.clusterConfigured)
    = cluster (Scenario.world Fixtures.clusterConfigured)
  ∧ ((gwc_ParametersRef (Fixtures.classWithRef Fixtures.parametersRef) = None
      ∧ Fixtures.gatewayConfiguration = emptyGatewayConfiguration
      ∧ Scenario.world Fixtures.clusterConfigured
        = Scenario.world Fixtures.clusterConfigured)
     ∨ ∃ ref namespace,
         gwc_ParametersRef (Fixtures.classWithRef Fixtures.parametersRef) = Some ref
         ∧ wellFormedParametersRef (H := Scenario.consts) ref namespace
         ∧ find (hasKey namespace (pr_Name ref))
                (gatewayConfigurations (cluster (Scenario.world Fixtures.clusterConfigured)))
           = Some Fixtures.gatewayConfiguration).
Proof.
  assert (Hserver : serverErrorsOnly (Scenario.world Fixtures.clusterConfigured)).
  { intros err Herr. simpl in Herr. by apply elem_of_nil in Herr. }
  assert (Hrun : getOrCreateGatewayConfiguration (H := Scenario.consts)
                   (Fixtures.classWithRef Fixtures.parametersRef)
                   (Scenario.world Fixtures.clusterConfigured)
                 = (Ok Fixtures.gatewayConfiguration,
                    Scenario.world Fixtures.clusterConfigured))
    by (vm_compute; reflexivity).
  split; [exact Hserver|]. split; [exact Hrun|].
  exact (X21_configuration_is_default_or_referenced (H := Scenario.consts) _ _ _ _
           Hserver Hrun).
Defined.

Lemma X22_witness :
  gwc_ParametersRef (Fixtures.classWithRef Fixtures.foreignRef)
    = Some Fixtures.foreignRef
  ∧ (∃ msg, getOrCreateGatewayConfiguration (H := Scenario.consts)
              (Fixtures.classWithRef Fixtures.foreignRef) Scenario.start
            = (Err (StatusError StatusReasonInvalid msg), Scenario.start)).
Proof.
  assert (Href : gwc_ParametersRef (Fixtures.classWithRef Fixtures.foreignRef)
                 = Some Fixtures.foreignRef) by reflexivity.
  split; [exact Href|].
  destruct (X22_bad_parameters_ref_is_an_error (H := Scenario.consts)
              (Fixtures.classWithRef Fixtures.foreignRef) Fixtures.foreignRef
              Scenario.start Href) as [Hinvalid _].
  apply Hinvalid. left. vm_compute. discriminate.
Defined.

Lemma X23_witness :
  faults (Scenario.world Fixtures.clusterNoChildren) = []
  ∧ length (ownedDataPlanes (H := Scenario.consts) Scenario.gateway
              (cluster (Scenario.world Fixtures.clusterNoChildren))) ≠ 1%nat
  ∧ (∀ opts, dataplaneSpecDeepEqual (GatewayHelpers := Scenario.gatewayHelpers) opts opts
             = true)
  ∧ ∃ created w',
      Fixtures.ensureDataPlane Fixtures.gatewayConfiguration Fixtures.clusterNoChildren
        = (Ok created, w')
      ∧ ownedDataPlanes (H := Scenario.consts) Scenario.gateway (cluster w') = [created]
      ∧ dp_spec created
        = default emptyDeploymentOptions
            (gcfg_DataPlaneDeploymentOptions Fixtures.gatewayConfiguration)
      ∧ dp_Conditions created = []
      ∧ ensureDataPlaneForGateway (H := Scenario.consts) (H0 := Scenario.gatewayHelpers)
          Scenario.gateway Fixtures.gatewayConfiguration w' = (Ok created, w').
Proof.
  assert (Hf : faults (Scenario.world Fixtures.clusterNoChildren) = []) by reflexivity.
  assert (Hcount : length (ownedDataPlanes (H := Scenario.consts) Scenario.gateway
                     (cluster (Scenario.world Fixtures.clusterNoChildren))) ≠ 1%nat)
    by (vm_compute; discriminate).
  assert (Hrefl : ∀ opts, dataplaneSpecDeepEqual (GatewayHelpers := Scenario.gatewayHelpers)
                            opts opts = true).
  { intros opts. simpl. by apply bool_decide_eq_true_2. }
  split; [exact Hf|]. split; [exact Hcount|]. split; [exact Hrefl|].
  exact (X23_dataplane_for_gateway_created_once (H := Scenario.consts)
           (H0 := Scenario.gatewayHelpers) Scenario.gateway Fixtures.gatewayConfiguration
           _ Hf Hcount Hrefl).
Defined.

Lemma X24_witness :
  faults (Scenario.world Fixtures.clusterTwoDataPlanes) = []
  ∧ (1 < length (ownedDataPlanes (H := Scenario.consts) Scenario.gateway
                   (cluster (Scenario.world Fixtures.clusterTwoDataPlanes))))%nat
  ∧ gatewayManaged (H := Scenario.consts) "default" Fixtures.dataplaneOfNeighbour = true
  ∧ ∃ created w',
      Fixtures.ensureDataPlane emptyGatewayConfiguration Fixtures.clusterTwoDataPlanes
        = (Ok created, w')
      ∧ dataPlanes (cluster w')
        = filter (λ dataplane,
                    negb (gatewayManaged (H := Scenario.consts)
                            (Namespace (gw_meta Scenario.gateway)) dataplane))
                 (dataPlanes (cluster (Scenario.world Fixtures.clusterTwoDataPlanes)))
          ++ [created]
      ∧ ∀ dataplane, dataplane ∈ dataPlanes (cluster w') →
          dataplane = created
          ∨ (dataplane ∈ dataPlanes (cluster (Scenario.world Fixtures.clusterTwoDataPlanes))
             ∧ gatewayManaged (H := Scenario.consts)
                 (Namespace (gw_meta Scenario.gateway)) dataplane = false).
Proof.
  assert (Hf : faults (Scenario.world Fixtures.clusterTwoDataPlanes) = []) by reflexivity.
  assert (Hmany : (1 < length (ownedDataPlanes (H := Scenario.consts) Scenario.gateway
                     (cluster (Scenario.world Fixtures.clusterTwoDataPlanes))))%nat)
    by (vm_compute; lia).
  split; [exact Hf|]. split; [exact Hmany|]. split; [vm_compute; reflexivity|].
  exact (X24_duplicate_cleanup_spans_the_namespace (H := Scenario.consts)
           (H0 := Scenario.gatewayHelpers) Scenario.gateway emptyGatewayConfiguration
           _ Hf Hmany).
Defined.

Lemma X25_witness :
  (ownedDataPlanes (H := Scenario.consts) Scenario.gateway (cluster Scenario.start)
     = [Scenario.dataplane]
   ∧ gcfg_DataPlaneDeploymentOptions Fixtures.gatewayConfiguration
     = Some Fixtures.configuredSpec
   ∧ dataplaneSpecDeepEqual (GatewayHelpers := Scenario.gatewayHelpers)
       (dp_spec Scenario.dataplane) Fixtures.configuredSpec = false
   ∧ Fixtures.ensureDataPlane Fixtures.gatewayConfiguration
       (Scenario.clusterWith Scenario.service)
     = (Ok (Fixtures.orOf Scenario.dataplane
              (Fixtures.ensureDataPlane Fixtures.gatewayConfiguration
                 (Scenario.clusterWith Scenario.service)).1),
        (Fixtures.ensureDataPlane Fixtures.gatewayConfiguration
           (Scenario.clusterWith Scenario.service)).2)
   ∧ dp_spec (Fixtures.orOf Scenario.dataplane
                (Fixtures.ensureDataPlane Fixtures.gatewayConfiguration
                   (Scenario.clusterWith Scenario.service)).1)
     = Fixtures.configuredSpec
   ∧ dp_Conditions (Fixtures.orOf Scenario.dataplane
                      (Fixtures.ensureDataPlane Fixtures.gatewayConfiguration
                         (Scenario.clusterWith Scenario.service)).1)
     = [Scenario.provisionedTrue])
  ∧ (faults Scenario.start = []
     ∧ (EnsureObjectMetaIsUpdated (dp_meta Scenario.dataplane)
          (dp_meta (generatedDataPlaneFor (H := Scenario.consts) Scenario.gateway
                      emptyGatewayConfiguration))).1 = false
     ∧ Fixtures.ensureDataPlane emptyGatewayConfiguration (Scenario.clusterWith Scenario.service)
       = (Ok Scenario.dataplane, Scenario.start)).
Proof.
  assert (Howned : ownedDataPlanes (H := Scenario.consts) Scenario.gateway
                     (cluster Scenario.start) = [Scenario.dataplane])
    by (vm_compute; reflexivity).
  split.
  - assert (Hopts : gcfg_DataPlaneDeploymentOptions Fixtures.gatewayConfiguration
                    = Some Fixtures.configuredSpec) by reflexivity.
    assert (Hdiff : dataplaneSpecDeepEqual (GatewayHelpers := Scenario.gatewayHelpers)
                      (dp_spec Scenario.dataplane) Fixtures.configuredSpec = false)
      by (vm_compute; reflexivity).
    assert (Hrun : Fixtures.ensureDataPlane Fixtures.gatewayConfiguration
                     (Scenario.clusterWith Scenario.service)
                   = (Ok (Fixtures.orOf Scenario.dataplane
                            (Fixtures.ensureDataPlane Fixtures.gatewayConfiguration
                               (Scenario.clusterWith Scenario.service)).1),
                      (Fixtures.ensureDataPlane Fixtures.gatewayConfiguration
                         (Scenario.clusterWith Scenario.service)).2))
      by (vm_compute; reflexivity).
    split; [exact Howned|]. split; [exact Hopts|]. split; [exact Hdiff|].
    split; [exact Hrun|].
    destruct (X25_existing_dataplane_follows_configuration (H := Scenario.consts)
                (H0 := Scenario.gatewayHelpers) Scenario.gateway
                Fixtures.gatewayConfiguration Scenario.dataplane Scenario.start Howned)
      as [Hupdate _].
    destruct (Hupdate _ _ _ Hopts Hdiff Hrun) as (Hspec & _ & _ & _ & stored & Hfind & Hconds).
    split; [exact Hspec|].
    rewrite Hconds. vm_compute in Hfind. injection Hfind as <-. reflexivity.
  - assert (Hf : faults Scenario.start = []) by reflexivity.
    assert (Hmeta : (EnsureObjectMetaIsUpdated (dp_meta Scenario.dataplane)
                       (dp_meta (generatedDataPlaneFor (H := Scenario.consts)
                                   Scenario.gateway emptyGatewayConfiguration))).1 = false)
      by (vm_compute; reflexivity).
    split; [exact Hf|]. split; [exact Hmeta|].
    destruct (X25_existing_dataplane_follows_configuration (H := Scenario.consts)
                (H0 := Scenario.gatewayHelpers) Scenario.gateway
                emptyGatewayConfiguration Scenario.dataplane Scenario.start Howned)
      as [_ Hsteady].
    apply (Hsteady Hf Hmeta). intros opts Hopts. discriminate Hopts.
Defined.

Lemma X26_witness :
  faults Scenario.start = []
  ∧ ownedControlPlanes (H := Scenario.consts) Scenario.gateway (cluster Scenario.start) = []
  ∧ ∃ created w',
      ensureControlPlaneForGateway (H := Scenario.consts) (H0 := Scenario.gatewayHelpers)
        Scenario.gatewayClass Scenario.gateway emptyGatewayConfiguration "gw-dp"
        Scenario.start = (Ok created, w')
      ∧ controlPlanes (cluster w') = controlPlanes (cluster Scenario.start) ++ [created]
      ∧ dataPlanes (cluster w') = dataPlanes (cluster Scenario.start)
      ∧ ownedControlPlanes (H := Scenario.consts) Scenario.gateway (cluster w') = [created]
      ∧ cp_GatewayClass created = Some (Name (gwc_meta Scenario.gatewayClass))
      ∧ cpo_DataPlane (cp_spec created)
        = Some (default "gw-dp"
                  (gcfg_ControlPlaneDeploymentOptions emptyGatewayConfiguration
                   ≫= cpo_DataPlane))
      ∧ cp_Conditions created = [].
Proof.
  assert (Hf : faults Scenario.start = []) by reflexivity.
  assert (Hnone : ownedControlPlanes (H := Scenario.consts) Scenario.gateway
                    (cluster Scenario.start) = []) by (vm_compute; reflexivity).
  split; [exact Hf|]. split; [exact Hnone|].
  exact (X26_controlplane_created_attached (H := Scenario.consts)
           (H0 := Scenario.gatewayHelpers) Scenario.gatewayClass Scenario.gateway
           emptyGatewayConfiguration "gw-dp" Scenario.start Hf Hnone).
Defined.

Lemma X27_witness :
  let w := Scenario.world (Scenario.clusterWith Scenario.serviceNoIP) in
  IsGatewayReady (GatewayHelpers := Scenario.gatewayHelpers) Scenario.gateway = false
  ∧ faults w = []
  ∧ ownedServices (H := Scenario.consts) Scenario.dataplane (cluster w)
    = [Scenario.serviceNoIP]
  ∧ ∃ msg, ensureGatewayMarkedReady (H := Scenario.consts) (H0 := Scenario.gatewayHelpers)
             Scenario.gateway Scenario.dataplane w = (Err (Errorf msg), w).
Proof.
  intros w.
  assert (Hnot : IsGatewayReady (GatewayHelpers := Scenario.gatewayHelpers) Scenario.gateway
                 = false) by (vm_compute; reflexivity).
  assert (Hf : faults w = []) by reflexivity.
  assert (Howned : ownedServices (H := Scenario.consts) Scenario.dataplane (cluster w)
                   = [Scenario.serviceNoIP]) by (vm_compute; reflexivity).
  split; [exact Hnot|]. split; [exact Hf|]. split; [exact Howned|].
  destruct (X27_ready_is_all_or_nothing (H := Scenario.consts)
              (H0 := Scenario.gatewayHelpers) Scenario.gateway Scenario.dataplane w)
    as (_ & Hnoaddress & _).
  apply (Hnoaddress Hnot Hf). intros svc Hsvc. rewrite Howned in Hsvc.
  injection Hsvc as <-. reflexivity.
Defined.

Lemma X28_witness :
  let w := Scenario.world Fixtures.clusterUnscheduled in
  let scheduled :=
    PruneGatewayStatusConds (GatewayHelpers := Scenario.gatewayHelpers)
      (setGatewayConditions
         (gws_Conditions (gw_status Fixtures.gatewayUnscheduled)
          ++ [scheduledCondition (H := Scenario.consts)
                (Generation (gw_meta Fixtures.gatewayUnscheduled)) (clock w)])
         Fixtures.gatewayUnscheduled) in
  Get Gateway "default" "gw" w = (Ok Fixtures.gatewayUnscheduled, w)
  ∧ verifyGatewayClassSupport (H := Scenario.consts) Fixtures.gatewayUnscheduled w
    = (Ok Scenario.gatewayClass, w)
  ∧ IsGatewayScheduled (GatewayHelpers := Scenario.gatewayHelpers)
      Fixtures.gatewayUnscheduled = false
  ∧ ∃ outcome w',
      GatewayReconcile (H := Scenario.consts) (H0 := Scenario.gatewayHelpers)
        "default" "gw" w = ((noResult, outcome), w')
      ∧ dataPlanes (cluster w') = dataPlanes (cluster w)
      ∧ controlPlanes (cluster w') = controlPlanes (cluster w)
      ∧ (outcome = None →
         ∃ stored, find (sameKey stored) (gateways (cluster w')) = Some stored
                   ∧ gw_status stored = gw_status scheduled).
Proof.
  intros w scheduled.
  assert (Hget : Get Gateway "default" "gw" w = (Ok Fixtures.gatewayUnscheduled, w))
    by (vm_compute; reflexivity).
  assert (Hclass : verifyGatewayClassSupport (H := Scenario.consts)
                     Fixtures.gatewayUnscheduled w = (Ok Scenario.gatewayClass, w))
    by (vm_compute; reflexivity).
  assert (Hnot : IsGatewayScheduled (GatewayHelpers := Scenario.gatewayHelpers)
                   Fixtures.gatewayUnscheduled = false) by (vm_compute; reflexivity).
  split; [exact Hget|]. split; [exact Hclass|]. split; [exact Hnot|].
  exact (X28_gateway_is_scheduled_first (H := Scenario.consts)
           (H0 := Scenario.gatewayHelpers) "default" "gw" w _ _ _ _ Hget Hclass Hnot).
Defined.

Lemma X29_witness :
  (let w := Scenario.world Scenario.clusterStale in
   ensuresDataPlane (H := Scenario.consts) (H0 := Scenario.gatewayHelpers)
     "default" "gw" w Scenario.gatewayReady Scenario.gatewayClass emptyGatewayConfiguration
     Scenario.dataplaneNotReady w
   ∧ hasConditionTrue DataPlaneConditionTypeProvisioned
       (dp_Conditions Scenario.dataplaneNotReady) = false
   ∧ GatewayReconcile (H := Scenario.consts) (H0 := Scenario.gatewayHelpers) "default" "gw" w
     = ((mkResult true (requeueWithoutBackoff (Consts := Scenario.consts)), None), w)
   ∧ controlPlanes (cluster w) = controlPlanes (cluster w))
  ∧ (let w := Scenario.world Fixtures.clusterBareDataPlane in
     ensuresDataPlane (H := Scenario.consts) (H0 := Scenario.gatewayHelpers)
       "default" "gw" w Scenario.gateway Scenario.gatewayClass emptyGatewayConfiguration
       Scenario.dataplane w
     ∧ hasConditionTrue DataPlaneConditionTypeProvisioned
         (dp_Conditions Scenario.dataplane) = true
     ∧ faults w = []
     ∧ length (ownedServices (H := Scenario.consts) Scenario.dataplane (cluster w)) ≠ 1%nat
     ∧ ∃ msg, GatewayReconcile (H := Scenario.consts) (H0 := Scenario.gatewayHelpers)
                "default" "gw" w = ((noResult, Some (Errorf msg)), w)
              ∧ controlPlanes (cluster w) = controlPlanes (cluster w)).
Proof.
  split.
  - intros w.
    assert (Hpath : ensuresDataPlane (H := Scenario.consts) (H0 := Scenario.gatewayHelpers)
              "default" "gw" w Scenario.gatewayReady Scenario.gatewayClass
              emptyGatewayConfiguration Scenario.dataplaneNotReady w).
    { exists w, w, emptyGatewayConfiguration, w. split_and!; vm_compute; reflexivity. }
    assert (Hnot : hasConditionTrue DataPlaneConditionTypeProvisioned
                     (dp_Conditions Scenario.dataplaneNotReady) = false)
      by (vm_compute; reflexivity).
    split; [exact Hpath|]. split; [exact Hnot|].
    destruct (X29_controlplane_waits_for_dataplane (H := Scenario.consts)
                (H0 := Scenario.gatewayHelpers) "default" "gw" w _ _ _ _ _ Hpath)
      as [Hwait _].
    exact (Hwait Hnot).
  - intros w.
    assert (Hpath : ensuresDataPlane (H := Scenario.consts) (H0 := Scenario.gatewayHelpers)
              "default" "gw" w Scenario.gateway Scenario.gatewayClass
              emptyGatewayConfiguration Scenario.dataplane w).
    { exists w, w, emptyGatewayConfiguration, w. split_and!; vm_compute; reflexivity. }
    assert (Hready : hasConditionTrue DataPlaneConditionTypeProvisioned
                       (dp_Conditions Scenario.dataplane) = true)
      by (vm_compute; reflexivity).
    assert (Hf : faults w = []) by reflexivity.
    assert (Hcount : length (ownedServices (H := Scenario.consts) Scenario.dataplane
                               (cluster w)) ≠ 1%nat) by (vm_compute; discriminate).
    split; [exact Hpath|]. split; [exact Hready|]. split; [exact Hf|].
    split; [exact Hcount|].
    destruct (X29_controlplane_waits_for_dataplane (H := Scenario.consts)
                (H0 := Scenario.gatewayHelpers) "default" "gw" w _ _ _ _ _ Hpath)
      as [_ Hservice].
    exact (Hservice Hready Hf Hcount).
Defined.

Lemma X30_witness :
  faults Scenario.start = []
  ∧ find (hasKey "default" "absent") (gateways (cluster Scenario.start)) = None
  ∧ find (hasKey "default" "absent") (dataPlanes (cluster Scenario.start)) = None
  ∧ GatewayReconcile (H := Scenario.consts) (H0 := Scenario.gatewayHelpers)
      "default" "absent" Scenario.start = ((noResult, None), Scenario.start)
  ∧ DataPlaneReconcile (H := Scenario.consts) (H0 := Scenario.dataPlaneHelpers None)
      "default" "absent" Scenario.start = ((noResult, None), Scenario.start).
Proof.
  assert (Hf : faults Scenario.start = []) by reflexivity.
  assert (Hgateway : find (hasKey "default" "absent") (gateways (cluster Scenario.start))
                     = None) by (vm_compute; reflexivity).
  assert (Hdataplane : find (hasKey "default" "absent") (dataPlanes (cluster Scenario.start))
                       = None) by (vm_compute; reflexivity).
  split; [exact Hf|]. split; [exact Hgateway|]. split; [exact Hdataplane|].
  destruct (X30_reconcile_of_missing_object_is_a_noop (H := Scenario.consts)
              (H0 := Scenario.gatewayHelpers) (H1 := Scenario.dataPlaneHelpers None)
              "default" "absent" Scenario.start) as [_ Hmissing].
  destruct (Hmissing Hf) as [Hgw Hdp].
  split; [exact (Hgw Hgateway) | exact (Hdp Hdataplane)].
Defined.
